(** * Employee-engagement survey generator: a shallow embedding

    The development follows [scripts/generate_fake_survey.py].  Python
    [float]s are IEEE-754 binary64 values and are modelled by Rocq's
    primitive [float]; Python [int]s are [Z]; [str] is [string]; the
    dictionaries used as look-up tables are [gmap]s, the row dictionary,
    whose insertion order is the column order, is an association list.

    The script draws from two hidden generators, Python's [random] and
    NumPy's global [RandomState].  Both are threaded explicitly through a
    state-and-exception monad; their primitives are the fields of the
    class [RandomLib]. *)

From Stdlib Require Import ZArith NArith Floats List String Ascii Lia Bool Sorted
  OrderedTypeEx.
From stdpp Require Import base option list gmap strings pretty.

Set Warnings "-inexact-float".
Open Scope Z_scope.

(** ** Exceptions and results *)

(** The exceptions that the script and the library calls it makes can
    raise. *)
Inductive exn : Set :=
| ValueError
| KeyError
| IndexError
| OverflowError.

(** The outcome of an expression: its value, or the exception raised. *)
Inductive result (A : Type) : Type :=
| Ok (a : A)
| Raise (e : exn).
Arguments Ok {A} a.
Arguments Raise {A} e.

(** The expression returned a value. *)
Definition is_ok {A} (r : result A) : bool :=
  match r with Ok _ => true | Raise _ => false end.

(** ** Binary64 helpers *)

Module F.

(** The binary64 number nearest to the integer [z], ties to even; an
    infinity when [z] is beyond the range of binary64.  This is the value
    of an integer literal that NumPy takes as a float, and the rounding
    inside [of_int]. *)
Definition of_Z (z : Z) : float :=
  SF2Prim (binary_normalize prec emax z 0 false).

(** The conversion that Python applies to an [int] operand of a float
    operation ([i * 2.5], [x * i]): the correctly rounded value, and
    [OverflowError] ("int too large to convert to float") when that value
    is not finite. *)
Definition of_int (z : Z) : result float :=
  let x := of_Z z in
  if is_infinity x then Raise OverflowError else Ok x.

(** Quotient of [m / 2^k] rounded half to even. *)
Definition div2k_half_even (m : Z) (k : Z) : Z :=
  let d := 2 ^ k in
  let q := m / d in
  let r := m mod d in
  match Z.compare (2 * r) d with
  | Lt => q
  | Gt => q + 1
  | Eq => if Z.even q then q else q + 1
  end.

(** Truncation of [m / 2^k] (for a non-negative [m]). *)
Definition div2k_trunc (m : Z) (k : Z) : Z := m / 2 ^ k.

(** The integer value of a finite float after truncation toward zero,
    from its sign, mantissa and exponent. *)
Definition trunc_finite (s : bool) (m : positive) (e : Z) : Z :=
  let a := if 0 <=? e then Z.pos m * 2 ^ e else div2k_trunc (Z.pos m) (- e) in
  if s then - a else a.

(** Python's [int(x)] on a float: truncation toward zero; [ValueError]
    on NaN and [OverflowError] on an infinity. *)
Definition to_int (x : float) : result Z :=
  match Prim2SF x with
  | S754_zero _ => Ok 0
  | S754_finite s m e => Ok (trunc_finite s m e)
  | S754_infinity _ => Raise OverflowError
  | S754_nan => Raise ValueError
  end.

(** [numpy.rint]: the nearest integer, ties to even, as a float; zeros,
    infinities and NaN are returned as they are, and the sign of the
    argument is kept. *)
Definition rint (x : float) : float :=
  match Prim2SF x with
  | S754_finite s m e =>
      if 0 <=? e then x
      else
        let q := div2k_half_even (Z.pos m) (- e) in
        if s then (- of_Z q)%float else of_Z q
  | _ => x
  end.

(** [numpy.maximum] and [numpy.minimum] on scalars: the first argument
    wins when it is NaN. *)
Definition maximum (x1 x2 : float) : float :=
  if (x2 <=? x1)%float || is_nan x1 then x1 else x2.
Definition minimum (x1 x2 : float) : float :=
  if (x1 <=? x2)%float || is_nan x1 then x1 else x2.

(** [numpy.clip(x, lo, hi)]. *)
Definition clip (x lo hi : float) : float := minimum (maximum x lo) hi.

End F.

(** ** The two random generators

    [py_seed a] and [np_seed a] are the states in which [random.seed(a)]
    and [numpy.random.seed(a)] leave the two hidden generators.
    [py_random] is [random.random()], [py_randbelow n] is the
    [Random._randbelow(n)] that [random.choice] calls, [np_normal loc scale]
    is [numpy.random.normal(loc, scale)] and [np_exponential scale] is
    [numpy.random.exponential(scale)].  Each returns its sample and the
    next state.  The two laws are the documented ranges of the Python
    primitives. *)

Class RandomLib : Type := {
  py_state : Type;
  np_state : Type;
  py_seed : Z -> py_state;
  np_seed : Z -> np_state;
  py_random : py_state -> float * py_state;
  py_randbelow : Z -> py_state -> Z * py_state;
  np_normal : float -> float -> np_state -> float * np_state;
  np_exponential : float -> np_state -> float * np_state;
  py_random_unit : forall s,
    (0 <=? (py_random s).1)%float = true /\ ((py_random s).1 <? 1)%float = true;
  py_randbelow_range : forall n s, 0 < n -> 0 <= (py_randbelow n s).1 < n
}.

(** The two hidden states side by side. *)
Record rng {R : RandomLib} : Type := Rng { py : py_state; np : np_state }.
Arguments Rng {R} py np.

(** ** The state-and-exception monad of the script *)

Definition M `{RandomLib} (A : Type) : Type := rng -> result (A * rng).

(** [ret] returns a value, [raise] raises, [bind] sequences two
    statements and stops at the first exception, [lift] runs an expression
    that draws nothing. *)
Definition ret `{RandomLib} {A} (a : A) : M A := fun r => Ok (a, r).
Definition raise `{RandomLib} {A} (e : exn) : M A := fun _ => Raise e.
Definition bind `{RandomLib} {A B} (c : M A) (k : A -> M B) : M B :=
  fun r => match c r with
           | Ok (a, r') => k a r'
           | Raise e => Raise e
           end.
Definition lift `{RandomLib} {A} (x : result A) : M A :=
  fun r => match x with Ok a => Ok (a, r) | Raise e => Raise e end.

Declare Scope py_scope.
Delimit Scope py_scope with py.
Notation "x <- c ;; k" := (bind c (fun x => k))
  (at level 100, c at next level, right associativity) : py_scope.
Open Scope py_scope.

(** Monadic left fold: a [for] loop that updates an accumulator. *)
Fixpoint for_each `{RandomLib} {A B} (body : B -> A -> M B) (xs : list A) (acc : B) : M B :=
  match xs with
  | [] => ret acc
  | x :: xs' => acc' <- body acc x ;; for_each body xs' acc'
  end.

(** ** Python containers *)

(** [len(seq)]. *)
Definition len {A} (l : list A) : Z := Z.of_nat (length l).

(** [seq[i]]: a negative index counts from the end; [IndexError] outside
    the list. *)
Definition getitem {A} (seq : list A) (i : Z) : result A :=
  let j := if i <? 0 then i + len seq else i in
  if j <? 0 then Raise IndexError
  else match seq !! Z.to_nat j with
       | Some a => Ok a
       | None => Raise IndexError
       end.

(** [d[k]] on a dictionary used as a table. *)
Definition dict_get {K} `{Countable K} {V} (d : gmap K V) (k : K) : result V :=
  match d !! k with
  | Some v => Ok v
  | None => Raise KeyError
  end.

(** A dictionary whose insertion order matters: [d[k] = v] replaces the
    value of an existing key in place and appends a new key at the end. *)
Definition odict (V : Type) : Type := list (string * V).

Fixpoint odict_set {V} (d : odict V) (k : string) (v : V) : odict V :=
  match d with
  | [] => [(k, v)]
  | (k', v') :: d' =>
      if String.eqb k' k then (k', v) :: d' else (k', v') :: odict_set d' k v
  end.

(** The value stored under [k], and [d[k]] with its [KeyError]. *)
Fixpoint odict_lookup {V} (d : odict V) (k : string) : option V :=
  match d with
  | [] => None
  | (k', v') :: d' => if String.eqb k' k then Some v' else odict_lookup d' k
  end.

Definition odict_get {V} (d : odict V) (k : string) : result V :=
  match odict_lookup d k with
  | Some v => Ok v
  | None => Raise KeyError
  end.

(** [list(d.keys())]: the keys in insertion order. *)
Definition odict_keys {V} (d : odict V) : list string := map fst d.

(** A list comprehension whose element expression may raise. *)
Fixpoint mapM_result {A B} (f : A -> result B) (xs : list A) : result (list B) :=
  match xs with
  | [] => Ok []
  | x :: xs' =>
      match f x with
      | Raise e => Raise e
      | Ok y =>
          match mapM_result f xs' with
          | Raise e => Raise e
          | Ok ys => Ok (y :: ys)
          end
      end
  end.

(** A dictionary display [{k1: v1, k2: v2, ...}]. *)
Definition odict_literal {V} (items : list (string * V)) : odict V :=
  fold_left (fun d kv => odict_set d kv.1 kv.2) items [].

(** ** Python's [random] module, on top of the two primitives *)

(** [random.random()] and [Random._randbelow(n)] on the state of
    Python's generator. *)
Definition random_random `{RandomLib} : M float :=
  fun r => let '(u, s) := py_random (py r) in Ok (u, Rng s (np r)).

Definition random_randbelow `{RandomLib} (n : Z) : M Z :=
  fun r => let '(k, s) := py_randbelow n (py r) in Ok (k, Rng s (np r)).

(** [random.choice(seq)]. *)
Definition random_choice `{RandomLib} {A} (seq : list A) : M A :=
  if len seq =? 0 then raise IndexError
  else i <- random_randbelow (len seq) ;; lift (getitem seq i).

(** [itertools.accumulate(weights)]: the running sums. *)
Fixpoint accumulate_from (acc : float) (ws : list float) : list float :=
  match ws with
  | [] => []
  | w :: ws' => let acc' := (acc + w)%float in acc' :: accumulate_from acc' ws'
  end.

Definition accumulate (ws : list float) : list float :=
  match ws with
  | [] => []
  | w :: ws' => w :: accumulate_from w ws'
  end.

(** The loop of [bisect.bisect_right(a, x, lo, hi)]; every iteration
    shrinks [hi - lo], which bounds the number of iterations. *)
Fixpoint bisect_loop (fuel : nat) (a : list float) (x : float) (lo hi : Z) : result Z :=
  match fuel with
  | O => Ok lo
  | S fuel' =>
      if lo <? hi then
        let mid := (lo + hi) / 2 in
        match getitem a mid with
        | Ok a_mid =>
            if (x <? a_mid)%float then bisect_loop fuel' a x lo mid
            else bisect_loop fuel' a x (mid + 1) hi
        | Raise e => Raise e
        end
      else Ok lo
  end.

(** [bisect.bisect_right(a, x, lo, hi)].  The fuel [hi - lo] is enough
    for the loop to end with [lo >= hi] ([bisect_loop_fuel]). *)
Definition bisect (a : list float) (x : float) (lo hi : Z) : result Z :=
  if lo <? 0 then Raise ValueError
  else bisect_loop (Z.to_nat (hi - lo)) a x lo hi.

(** One element of the list that [random.choices] returns. *)
Definition choices_draw `{RandomLib} {A}
    (population : list A) (cum_weights : list float) (total : float) (hi : Z) : M A :=
  u <- random_random ;;
  i <- lift (bisect cum_weights (u * total)%float 0 hi) ;;
  lift (getitem population i).

(** The list comprehension [[draw() for i in repeat(None, k)]]. *)
Fixpoint choices_repeat `{RandomLib} {A} (k : nat) (draw : M A) : M (list A) :=
  match k with
  | O => ret []
  | S k' => x <- draw ;; xs <- choices_repeat k' draw ;; ret (x :: xs)
  end.

(** [random.choices(population, weights=weights, k=k)] as CPython defines
    it from version 3.9 on (the test of a finite total from 3.10 on; before
    3.9 a zero total was not refused). *)
Definition random_choices `{RandomLib} {A}
    (population : list A) (weights : list float) (k : nat) : M (list A) :=
  let n := len population in
  let cum_weights := accumulate weights in
  if negb (len cum_weights =? n) then raise ValueError
  else
    total0 <- lift (getitem cum_weights (-1)) ;;
    let total := (total0 + 0)%float in
    if (total <=? 0)%float then raise ValueError
    else if negb (is_finite total) then raise ValueError
    else choices_repeat k (choices_draw population cum_weights total (n - 1)).

(** ** Strings *)

(** ['0' * n] and [len(s)]. *)
Definition zeros (n : nat) : string := string_of_list_ascii (repeat "0"%char n).

Definition str_len (s : string) : Z := Z.of_nat (String.length s).

(** [s.zfill(width)]: zeros on the left up to [width]; a leading sign
    stays in front. *)
Definition zfill (width : Z) (s : string) : string :=
  let fill := zeros (Z.to_nat (width - str_len s)) in
  match s with
  | String c rest =>
      if Ascii.eqb c "+" || Ascii.eqb c "-" then String c (fill +:+ rest)
      else fill +:+ s
  | EmptyString => fill
  end.

(** [str(i)] for an [int]. *)
Definition str_of_int (i : Z) : string := pretty i.

(** ** [datetime] *)

Record datetime : Set := Datetime {
  year : Z; month : Z; day : Z; hour : Z; minute : Z; second : Z
}.

(** The ordinal arithmetic of CPython's [datetime] module ([_ymd2ord],
    [_ord2ymd] and the normalisation of [datetime.__add__]). *)
Module Calendar.

Definition MAXORDINAL : Z := 3652059.
Definition DI400Y : Z := 146097.
Definition DI100Y : Z := 36524.
Definition DI4Y : Z := 1461.

Definition is_leap (y : Z) : bool :=
  (y mod 4 =? 0) && (negb (y mod 100 =? 0) || (y mod 400 =? 0)).

Definition days_before_year (y : Z) : Z :=
  let y' := y - 1 in y' * 365 + y' / 4 - y' / 100 + y' / 400.

Definition DAYS_IN_MONTH : list Z := [-1; 31; 28; 31; 30; 31; 30; 31; 31; 30; 31; 30; 31].
Definition DAYS_BEFORE_MONTH : list Z :=
  [-1; 0; 31; 59; 90; 120; 151; 181; 212; 243; 273; 304; 334].

Definition table (t : list Z) (i : Z) : Z := default 0 (t !! Z.to_nat i).

Definition days_before_month (y m : Z) : Z :=
  table DAYS_BEFORE_MONTH m + (if (2 <? m) && is_leap y then 1 else 0).

Definition ymd2ord (y m d : Z) : Z :=
  days_before_year y + days_before_month y m + d.

(** [_ord2ymd]: the date of a proleptic Gregorian ordinal. *)
Definition ord2ymd (n : Z) : Z * Z * Z :=
  let n := n - 1 in
  let n400 := n / DI400Y in let n := n mod DI400Y in
  let y := n400 * 400 + 1 in
  let n100 := n / DI100Y in let n := n mod DI100Y in
  let n4 := n / DI4Y in let n := n mod DI4Y in
  let n1 := n / 365 in let n := n mod 365 in
  let y := y + n100 * 100 + n4 * 4 + n1 in
  if (n1 =? 4) || (n100 =? 4) then (y - 1, 12, 31)
  else
    let leapyear := (n1 =? 3) && (negb (n4 =? 24) || (n100 =? 3)) in
    let m := Z.shiftr (n + 50) 5 in
    let preceding := table DAYS_BEFORE_MONTH m + (if (2 <? m) && leapyear then 1 else 0) in
    if n <? preceding then
      let m := m - 1 in
      let preceding :=
        preceding - (table DAYS_IN_MONTH m + (if (m =? 2) && leapyear then 1 else 0)) in
      (y, m, n - preceding + 1)
    else (y, m, n - preceding + 1).

(** [dt + timedelta(minutes=m)]: [OverflowError] when the time delta or
    the resulting date is out of range. *)
Definition add_minutes (dt : datetime) (m : Z) : result datetime :=
  if 999999999 <? Z.abs (m * 60 / 86400) then Raise OverflowError
  else
    let total :=
      ymd2ord (year dt) (month dt) (day dt) * 86400
      + hour dt * 3600 + minute dt * 60 + second dt + m * 60 in
    let days := total / 86400 in
    let secs := total mod 86400 in
    if (0 <? days) && (days <=? MAXORDINAL) then
      let '(y, mo, d) := ord2ymd days in
      Ok (Datetime y mo d (secs / 3600) (secs mod 3600 / 60) (secs mod 60))
    else Raise OverflowError.

(** [dt.strftime("%Y-%m-%d %H:%M")].  CPython hands the format to the
    [strftime] of the C library; glibc prints the year of [%Y] as it is,
    without padding (year 5 gives [5-01-01 00:00]), and the other four
    fields with two digits. *)
Definition strftime_minutes (dt : datetime) : string :=
  str_of_int (year dt) +:+ "-" +:+ zfill 2 (str_of_int (month dt)) +:+ "-"
  +:+ zfill 2 (str_of_int (day dt)) +:+ " " +:+ zfill 2 (str_of_int (hour dt)) +:+ ":"
  +:+ zfill 2 (str_of_int (minute dt)).

End Calendar.

(** ** Configuration *)

(** The constants at the top of the script that the statements vary:
    seed, respondent count, start instant and the three weight tables. *)
Record config : Type := Config {
  SEED : Z;
  N_RESPONSES : Z;
  START_DATE : datetime;
  DEPT_WEIGHTS : odict float;
  LOCATIONS : list string;
  LOCATION_WEIGHTS : list float;
  TENURE_BANDS : list string;
  TENURE_WEIGHTS : list float
}.

(** The values the script ships with. *)
Definition default_config : config := {|
  SEED := 42;
  N_RESPONSES := 180;
  START_DATE := Datetime 2025 11 3 9 0 0;
  DEPT_WEIGHTS := odict_literal
    [("Engineering", 0.26%float); ("Sales", 0.18%float); ("Customer Support", 0.20%float);
     ("Operations", 0.16%float); ("Finance", 0.10%float); ("HR / People", 0.10%float)];
  LOCATIONS := ["Paris"; "Lyon"; "Remote"];
  LOCATION_WEIGHTS := [0.55; 0.20; 0.25]%float;
  TENURE_BANDS := ["0-1y"; "1-3y"; "3-5y"; "5y+"];
  TENURE_WEIGHTS := [0.22; 0.36; 0.24; 0.18]%float
|}.

(** The fixed tables of the script. *)
Definition LIKERT_TEXT : gmap Z string :=
  {[ 1 := "Strongly disagree"; 2 := "Disagree"; 3 := "Neutral"; 4 := "Agree";
     5 := "Strongly agree" ]}.

Definition QUESTIONS : list (string * string) :=
  [ ("Q01_Strategy", "I understand the company strategy and priorities");
    ("Q02_Leadership_Comms", "Leadership communicates openly and honestly");
    ("Q03_Manager_Support", "My manager supports my development");
    ("Q04_Feedback", "I receive useful feedback regularly");
    ("Q05_Workload", "My workload is manageable");
    ("Q06_Tools", "I have the tools/resources to do my job well");
    ("Q07_Recognition", "I feel recognized for good work");
    ("Q08_Collaboration", "Teams collaborate effectively");
    ("Q09_PsychSafety", "I feel safe to share concerns");
    ("Q10_CareerPath", "I see a clear career path here");
    ("Q11_Stay12Months", "I would still work here in 12 months");
    ("Q12_OverallEngagement", "Overall, I feel engaged at work") ].

Definition BASE_MEAN_BY_Q : gmap string float :=
  {[ "Q01_Strategy" := 3.4%float; "Q02_Leadership_Comms" := 3.1%float;
     "Q03_Manager_Support" := 3.5%float; "Q04_Feedback" := 3.2%float;
     "Q05_Workload" := 2.9%float; "Q06_Tools" := 3.8%float;
     "Q07_Recognition" := 3.1%float; "Q08_Collaboration" := 3.7%float;
     "Q09_PsychSafety" := 3.6%float; "Q10_CareerPath" := 2.8%float;
     "Q11_Stay12Months" := 3.4%float; "Q12_OverallEngagement" := 3.3%float ]}.

Definition DEPT_ADJ : gmap string (gmap string float) :=
  {[ "Engineering" :=
       {[ "Q06_Tools" := 0.3%float; "Q02_Leadership_Comms" := (-0.1)%float;
          "Q10_CareerPath" := (-0.1)%float ]};
     "Sales" :=
       {[ "Q07_Recognition" := 0.1%float; "Q01_Strategy" := 0.1%float;
          "Q05_Workload" := (-0.1)%float ]};
     "Customer Support" :=
       {[ "Q05_Workload" := (-0.4)%float; "Q07_Recognition" := (-0.2)%float;
          "Q06_Tools" := (-0.1)%float ]};
     "Operations" :=
       {[ "Q06_Tools" := (-0.2)%float; "Q02_Leadership_Comms" := (-0.1)%float;
          "Q05_Workload" := (-0.2)%float ]};
     "Finance" :=
       {[ "Q01_Strategy" := 0.1%float; "Q08_Collaboration" := (-0.1)%float ]};
     "HR / People" :=
       {[ "Q09_PsychSafety" := 0.2%float; "Q02_Leadership_Comms" := 0.1%float;
          "Q05_Workload" := (-0.1)%float ]} ]}.

Definition WORKING_WELL_TEMPLATES : list string :=
  [ "Team collaboration is strong and people are helpful.";
    "Good culture and supportive colleagues.";
    "Tools and systems mostly work well for my role.";
    "Manager is approachable and supportive.";
    "Autonomy and trust make it easier to get work done.";
    "Cross-team collaboration has improved recently." ].

Definition IMPROVE_FIRST_TEMPLATES : list string :=
  [ "More clarity on priorities and decisions from leadership.";
    "Reduce workload and improve staffing/planning.";
    "Clearer career paths and development opportunities.";
    "More recognition for strong performance.";
    "Improve communication between teams.";
    "Faster decisions and less last-minute changes." ].

(** ** The script *)

(** A cell of a row: the texts and the one integer column. *)
Inductive value : Set :=
| VStr (s : string)
| VInt (z : Z).

(** The dictionary [row] of [main]. *)
Definition row : Type := odict value.

(** [s in (a, b)] on a tuple of strings. *)
Definition str_in (s : string) (l : list string) : bool := existsb (String.eqb s) l.

(** The arithmetic of the first loop over [QUESTIONS]: the mean of one
    question from its base mean and the department's adjustment. *)
Definition adjusted_mean (base dept_adj : float) (tenure manager q_code : string) : float :=
  let mean := (base + dept_adj)%float in
  let mean :=
    if String.eqb tenure "0-1y" && str_in q_code ["Q01_Strategy"; "Q10_CareerPath"]
    then (mean - 0.2)%float else mean in
  let mean :=
    if String.eqb manager "Yes" && str_in q_code ["Q01_Strategy"; "Q02_Leadership_Comms"]
    then (mean + 0.2)%float else mean in
  mean.

(** The mean that [main] passes to [likert_from_mean] for one question:
    [BASE_MEAN_BY_Q[q_code] + DEPT_ADJ.get(dept, {}).get(q_code, 0.0)] and
    the two conditional adjustments. *)
Definition target_mean (dept tenure manager q_code : string) : result float :=
  match dict_get BASE_MEAN_BY_Q q_code with
  | Raise e => Raise e
  | Ok base =>
      let dept_adj := default 0%float (default ∅ (DEPT_ADJ !! dept) !! q_code) in
      Ok (adjusted_mean base dept_adj tenure manager q_code)
  end.

(** The location of the normal distribution from which the eNPS is
    drawn: [mu] of [generate_enps_from_engagement].  The product
    [(overall_eng_score - 1) * 2.5] converts the integer to a float and
    raises [OverflowError] when it is too large for one. *)
Definition enps_mean (overall_eng_score : Z) (dept : string) : result float :=
  match F.of_int (overall_eng_score - 1) with
  | Raise e => Raise e
  | Ok score =>
      let base := (score * 2.5)%float in
      let dept_shift :=
        default 0%float
          (({[ "Engineering" := 0.3%float; "Sales" := 0.2%float;
               "Customer Support" := (-0.6)%float; "Operations" := (-0.3)%float;
               "Finance" := 0%float; "HR / People" := 0.2%float ]} : gmap string float)
             !! dept) in
      Ok (base + dept_shift + 4.0)%float
  end.

(** What [generate_timestamp] returns for a drawn exponential sample.
    The product [sample * i] converts the index to a float and raises
    [OverflowError] when it is too large for one. *)
Definition timestamp_of_sample (start : datetime) (i : Z) (sample : float) : result string :=
  match F.of_int i with
  | Raise e => Raise e
  | Ok index =>
      match F.to_int (sample * index / F.of_Z 8)%float with
      | Raise e => Raise e
      | Ok minutes =>
          match Calendar.add_minutes start minutes with
          | Raise e => Raise e
          | Ok t => Ok (Calendar.strftime_minutes t)
          end
      end
  end.

(** The f-string [R{str(i).zfill(4)}]. *)
Definition respondent_id (i : Z) : string := "R" +:+ zfill 4 (str_of_int i).

(** The literal that the workload override stores. *)
Definition WORKLOAD_COMMENT : string := "Reduce workload and improve staffing/planning.".

(** The keys of a row in the order [main] inserts them. *)
Definition SCHEMA : list string :=
  ["RespondentID"; "SubmissionTime"; "Department"; "Location"; "Tenure"; "Manager";
   "eNPS_0_10"] ++ map fst QUESTIONS ++ ["Open_WhatsWorking"; "Open_ImproveFirst"].

Section Script.
Context {R : RandomLib}.

(** [np.random.normal(loc, scale)] and [np.random.exponential(scale)] on
    the state of NumPy's generator. *)
Definition np_random_normal (loc scale : float) : M float :=
  fun r => let '(x, s) := np_normal loc scale (np r) in Ok (x, Rng (py r) s).

Definition np_random_exponential (scale : float) : M float :=
  fun r => let '(x, s) := np_exponential scale (np r) in Ok (x, Rng (py r) s).

(** [weighted_choice]: [random.choices(items, weights=weights, k=1)[0]]. *)
Definition weighted_choice {A} (items : list A) (weights : list float) : M A :=
  xs <- random_choices items weights 1 ;; lift (getitem xs 0).

(** [likert_from_mean]: one normal draw, rounded, clipped to [1..5] and
    converted by [int]. *)
Definition likert_from_mean (mean : float) : M Z :=
  score <- np_random_normal mean 0.85 ;;
  lift (F.to_int (F.clip (F.rint score) 1 5)).

(** [generate_enps_from_engagement]: one normal draw around [enps_mean],
    rounded, clipped to [0..10] and converted by [int]. *)
Definition generate_enps_from_engagement (overall_eng_score : Z) (dept : string) : M Z :=
  mu <- lift (enps_mean overall_eng_score dept) ;;
  raw <- np_random_normal mu 1.9 ;;
  lift (F.to_int (F.clip (F.rint raw) 0 10)).

(** [generate_timestamp]: one exponential draw; [start] is the global
    [START_DATE]. *)
Definition generate_timestamp (start : datetime) (i : Z) : M string :=
  sample <- np_random_exponential 4.5 ;;
  lift (timestamp_of_sample start i sample).

(** The first loop over [QUESTIONS]: one sampled answer per question. *)
Definition sample_answer (dept tenure manager : string)
    (answers_num : gmap string Z) (q : string * string) : M (gmap string Z) :=
  mean <- lift (target_mean dept tenure manager q.1) ;;
  score <- likert_from_mean mean ;;
  ret (<[q.1 := score]> answers_num).

(** The second loop: the answers are stored as their text labels. *)
Definition store_label (answers_num : gmap string Z) (r : row) (q : string * string) : M row :=
  score <- lift (dict_get answers_num q.1) ;;
  label <- lift (dict_get LIKERT_TEXT score) ;;
  ret (odict_set r q.1 (VStr label)).

(** The two optional comments.  The script calls this part with the gate
    probabilities [0.78] and [0.70]. *)
Definition open_comments (p_working p_improve : float) (dept : string) (r : row) : M row :=
  u1 <- random_random ;;
  working <-
    (if (u1 <? p_working)%float then random_choice WORKING_WELL_TEMPLATES else ret "") ;;
  let r := odict_set r "Open_WhatsWorking" (VStr working) in
  u2 <- random_random ;;
  improve <-
    (if (u2 <? p_improve)%float then
       if str_in dept ["Customer Support"; "Operations"] then
         u3 <- random_random ;;
         if (u3 <? 0.55)%float then ret WORKLOAD_COMMENT
         else random_choice IMPROVE_FIRST_TEMPLATES
       else random_choice IMPROVE_FIRST_TEMPLATES
     else ret "") ;;
  ret (odict_set r "Open_ImproveFirst" (VStr improve)).

(** The body of the loop of [main] for the respondent number [i]. *)
Definition respondent (c : config) (dept_items : list string) (dept_w : list float)
    (i : Z) : M row :=
  let respondent_id := respondent_id i in
  dept <- weighted_choice dept_items dept_w ;;
  location <- weighted_choice (LOCATIONS c) (LOCATION_WEIGHTS c) ;;
  tenure <- weighted_choice (TENURE_BANDS c) (TENURE_WEIGHTS c) ;;
  manager <- weighted_choice ["Yes"; "No"] [0.12; 0.88]%float ;;
  answers_num <- for_each (sample_answer dept tenure manager) QUESTIONS ∅ ;;
  overall_eng <- lift (dict_get answers_num "Q12_OverallEngagement") ;;
  enps <- generate_enps_from_engagement overall_eng dept ;;
  submission_time <- generate_timestamp (START_DATE c) i ;;
  let r : row := odict_literal
    [ ("RespondentID", VStr respondent_id); ("SubmissionTime", VStr submission_time);
      ("Department", VStr dept); ("Location", VStr location); ("Tenure", VStr tenure);
      ("Manager", VStr manager); ("eNPS_0_10", VInt enps) ] in
  r <- for_each (store_label answers_num) QUESTIONS r ;;
  open_comments 0.78 0.70 dept r.

(** [range(1, n + 1)]. *)
Definition range1 (n : Z) : list Z := map (fun k => Z.of_nat k + 1) (seq 0 (Z.to_nat n)).

(** One iteration: the row is built and appended to [rows]. *)
Definition append_respondent (c : config) (dept_items : list string) (dept_w : list float)
    (rows : list row) (i : Z) : M (list row) :=
  r <- respondent c dept_items dept_w i ;;
  ret (rows ++ [r]).

(** The generation loop of [main], from the seeded generators on. *)
Definition generate (c : config) : M (list row) :=
  let dept_items := odict_keys (DEPT_WEIGHTS c) in
  dept_w <- lift (mapM_result (odict_get (DEPT_WEIGHTS c)) dept_items) ;;
  for_each (append_respondent c dept_items dept_w) (range1 (N_RESPONSES c)) [].

(** [random.seed(a)] for an [int]: the state of Python's generator is
    replaced; every integer is accepted. *)
Definition random_seed (a : Z) : M unit :=
  fun r => Ok (tt, Rng (py_seed a) (np r)).

(** [numpy.random.seed(a)] for an [int]: [ValueError] unless
    [0 <= a <= 2**32 - 1]; otherwise the state of NumPy's generator is
    replaced. *)
Definition np_random_seed (a : Z) : M unit :=
  fun r =>
    if (0 <=? a) && (a <=? 2 ^ 32 - 1) then Ok (tt, Rng (py r) (np_seed a))
    else Raise ValueError.

(** [main], up to the hand-over of [rows] to the table library, run in a
    process whose generators are in the state it is applied to. *)
Definition main_with (c : config) : M (list row) :=
  _ <- random_seed (SEED c) ;;
  _ <- np_random_seed (SEED c) ;;
  generate c.

(** [main] with the constants of the script. *)
Definition main : M (list row) := main_with default_config.

End Script.

(** * The vocabulary of the statements

    The definitions below are not part of the script.  They name what the
    statements talk about: the state of the generators after a draw, the
    formulas of the specification, the facts about a row, and concrete
    generators on which the statements are exercised. *)

(** ** States after a draw *)

(** The state after one draw from NumPy's generator. *)
Definition after_normal {R : RandomLib} (loc scale : float) (st : rng) : rng :=
  Rng (py st) (np_normal loc scale (np st)).2.

(** The states after one call of [random.random()] and of
    [random.choice] on a sequence of length [n]. *)
Definition after_random {R : RandomLib} (st : rng) : rng := Rng (py_random (py st)).2 (np st).
Definition after_choice {R : RandomLib} (n : Z) (st : rng) : rng := Rng (py_randbelow n (py st)).2 (np st).

(** The text chosen for [Open_WhatsWorking] and the state after it. *)
Definition working_state {R : RandomLib} (p_working : float) (st : rng) : rng :=
  if ((py_random (py st)).1 <? p_working)%float
  then after_choice (len WORKING_WELL_TEMPLATES) (after_random st)
  else after_random st.

(** The state in which the two seed calls of [main] leave the
    generators. *)
Definition seeded {R : RandomLib} (c : config) : rng :=
  Rng (py_seed (SEED c)) (np_seed (SEED c)).

(** ** Runs *)

(** [holds_on_run r P]: the run [r] returned a value, and [P] holds of it. *)
Definition holds_on_run {A} (r : result A) (P : A -> Prop) : Prop :=
  match r with
  | Ok a => P a
  | Raise _ => False
  end.


(** [raises r e]: the run [r] raised the exception [e]. *)
Definition raises {A} (r : result A) (e : exn) : bool :=
  match r, e with
  | Raise ValueError, ValueError | Raise KeyError, KeyError
  | Raise IndexError, IndexError | Raise OverflowError, OverflowError => true
  | _, _ => false
  end.

(** ** Rows *)

(** A Likert score. *)
Definition in_likert_range (v : Z) : Prop := 1 <= v <= 5.

(** What every row that [respondent] returns satisfies. *)
Record row_facts (i : Z) (r : row) : Prop := RowFacts {
  row_keys : odict_keys r = SCHEMA;
  row_id : odict_lookup r "RespondentID" = Some (VStr (respondent_id i));
  row_texts : forall k,
    k ∈ ["SubmissionTime"; "Department"; "Location"; "Tenure"; "Manager"] ->
    exists s, odict_lookup r k = Some (VStr s);
  row_enps : exists n, odict_lookup r "eNPS_0_10" = Some (VInt n) /\ 0 <= n <= 10;
  row_likert : forall q, q ∈ map fst QUESTIONS ->
    exists v label, in_likert_range v /\ LIKERT_TEXT !! v = Some label /\
                    odict_lookup r q = Some (VStr label);
  row_working : exists w, odict_lookup r "Open_WhatsWorking" = Some (VStr w) /\
                          (w = "" \/ w ∈ WORKING_WELL_TEMPLATES);
  row_improve : exists im, odict_lookup r "Open_ImproveFirst" = Some (VStr im) /\
                           (im = "" \/ im ∈ IMPROVE_FIRST_TEMPLATES)
}.

(** The integer that an exported text label stands for. *)
Definition likert_decode (label : string) : option Z :=
  fst <$> find (fun kv => bool_decide (kv.2 = label)) (map_to_list LIKERT_TEXT).

(** The scores of a row: every question column decodes to an integer in
    [1..5], and the eNPS column is an integer in [0..10]. *)
Definition scores_in_range (r : row) : Prop :=
  (forall q, q ∈ map fst QUESTIONS ->
     exists label v, odict_lookup r q = Some (VStr label) /\
                     likert_decode label = Some v /\ 1 <= v <= 5) /\
  (exists n, odict_lookup r "eNPS_0_10" = Some (VInt n) /\ 0 <= n <= 10).

(** The identifier column of a row. *)
Definition RespondentID (r : row) : option value := odict_lookup r "RespondentID".

(** The comment column of a row. *)
Definition Open_ImproveFirst (r : row) : option value := odict_lookup r "Open_ImproveFirst".

(** A cell that holds a text. *)
Definition is_text (v : option value) : Prop := exists s, v = Some (VStr s).

(** ** The means, as the specification composes them *)

(** The effective mean as the specification composes it: the base mean,
    the department's adjustment ([0] when absent), [-0.2] for the newest
    tenure band on the two questions sensitive to new hires, [+0.2] for
    managers on the two questions sensitive to leadership. *)
Definition department_adjustment (dept q_code : string) : float :=
  match DEPT_ADJ !! dept with
  | Some adj => match adj !! q_code with Some a => a | None => 0%float end
  | None => 0%float
  end.

Definition tenure_adjustment (tenure q_code : string) : float :=
  if bool_decide (tenure = "0-1y" /\ (q_code = "Q01_Strategy" \/ q_code = "Q10_CareerPath"))
  then (-0.2)%float else 0%float.

Definition manager_adjustment (manager q_code : string) : float :=
  if bool_decide (manager = "Yes" /\
                  (q_code = "Q01_Strategy" \/ q_code = "Q02_Leadership_Comms"))
  then 0.2%float else 0%float.

Definition effective_mean_spec (base : float) (dept tenure manager q_code : string) : float :=
  (base + department_adjustment dept q_code + tenure_adjustment tenure q_code
   + manager_adjustment manager q_code)%float.

(** The arithmetic on the table values, for each of the four
    combinations of the two conditional adjustments. *)
Definition mean_cases_agree (base a : float) : bool :=
  Leibniz.eqb (base + a)%float (base + a + 0 + 0)%float &&
  Leibniz.eqb (base + a - 0.2)%float (base + a + (-0.2) + 0)%float &&
  Leibniz.eqb (base + a + 0.2)%float (base + a + 0 + 0.2)%float &&
  Leibniz.eqb (base + a - 0.2 + 0.2)%float (base + a + (-0.2) + 0.2)%float.

(** The per-department shift, as the specification lists it. *)
Definition dept_shift_spec (dept : string) : float :=
  if decide (dept = "Engineering") then 0.3%float
  else if decide (dept = "Sales") then 0.2%float
  else if decide (dept = "Customer Support") then (-0.6)%float
  else if decide (dept = "Operations") then (-0.3)%float
  else if decide (dept = "Finance") then 0%float
  else if decide (dept = "HR / People") then 0.2%float
  else 0%float.

(** ** Identifiers *)

(** The character of a decimal digit. *)
Definition digit (d : Z) : ascii := ascii_of_nat (48 + Z.to_nat d).

(** The four decimal digits of [i], most significant first. *)
Definition four_digits (i : Z) : string :=
  String (digit (i / 1000 mod 10)) (String (digit (i / 100 mod 10))
    (String (digit (i / 10 mod 10)) (String (digit (i mod 10)) EmptyString))).

(** The order of Python's [<] on strings. *)
Definition str_lt (a b : string) : Prop := String.compare a b = Lt.

(** ** Timestamps *)

(** The timestamp as the specification words it: the offset in minutes is
    the product rounded to the nearest whole number. *)
Definition timestamp_of_sample_rounded (start : datetime) (i : Z) (sample : float)
  : result string :=
  match F.of_int i with
  | Raise e => Raise e
  | Ok index =>
      match F.to_int (F.rint (sample * index / F.of_Z 8)%float) with
      | Raise e => Raise e
      | Ok minutes =>
          match Calendar.add_minutes start minutes with
          | Raise e => Raise e
          | Ok t => Ok (Calendar.strftime_minutes t)
          end
      end
  end.

(** [z] is [x] with its fractional part dropped: [|z| <= |x| < |z| + 1],
    with the sign of [x] unless [z] is zero. *)
Definition is_truncation (x : float) (z : Z) : Prop :=
  match Prim2SF x with
  | S754_zero _ => z = 0
  | S754_finite s m e =>
      let num := Z.pos m * 2 ^ Z.max 0 e in
      let den := 2 ^ Z.max 0 (- e) in
      Z.abs z * den <= num < (Z.abs z + 1) * den /\
      z = if s then - Z.abs z else Z.abs z
  | _ => False
  end.

(** The timestamps of the first fifteen hours after the shipped start. *)
Definition same_day_timestamp (m : Z) : string :=
  "2025-11-03 " +:+ zfill 2 (str_of_int (9 + m / 60)) +:+ ":" +:+ zfill 2 (str_of_int (m mod 60)).

(** Equality of the six fields. *)
Definition datetime_eqb (a b : datetime) : bool :=
  (year a =? year b) && (month a =? month b) && (day a =? day b)
  && (hour a =? hour b) && (minute a =? minute b) && (second a =? second b).

(** ** Malformed weights *)

(** A weight that is zero: [0.0] or [-0.0]. *)
Definition is_zero_weight (w : float) : Prop := w = 0%float \/ w = (-0)%float.

(** The two malformations of a weighted choice: the lists differ in
    length, or every weight is zero. *)
Definition malformed {A} (items : list A) (weights : list float) : Prop :=
  length items <> length weights \/ Forall is_zero_weight weights.

(** A configuration is malformed when the department weights are all
    zero, or the location or tenure lists are malformed. *)
Definition config_malformed (c : config) : Prop :=
  Forall is_zero_weight (map snd (DEPT_WEIGHTS c)) \/
  malformed (LOCATIONS c) (LOCATION_WEIGHTS c) \/
  malformed (TENURE_BANDS c) (TENURE_WEIGHTS c).

(** The shipped configuration with the location weights cut to two. *)
Definition mismatched_config : config := {|
  SEED := SEED default_config;
  N_RESPONSES := N_RESPONSES default_config;
  START_DATE := START_DATE default_config;
  DEPT_WEIGHTS := DEPT_WEIGHTS default_config;
  LOCATIONS := LOCATIONS default_config;
  LOCATION_WEIGHTS := [0.55; 0.20]%float;
  TENURE_BANDS := TENURE_BANDS default_config;
  TENURE_WEIGHTS := TENURE_WEIGHTS default_config
|}.


(** ** Two runs side by side

    [related sim_py sim_np c1 c2]: from states of two generator libraries
    that [sim_py] and [sim_np] relate, the programs [c1] and [c2] return the
    same value, or raise the same exception, and leave related states. *)

Definition related_rng {R1 R2 : RandomLib}
    (sim_py : @py_state R1 -> @py_state R2 -> Prop)
    (sim_np : @np_state R1 -> @np_state R2 -> Prop)
    (r1 : @rng R1) (r2 : @rng R2) : Prop :=
  sim_py (py r1) (py r2) /\ sim_np (np r1) (np r2).

Definition related_result {R1 R2 : RandomLib}
    (sim_py : @py_state R1 -> @py_state R2 -> Prop)
    (sim_np : @np_state R1 -> @np_state R2 -> Prop)
    {A} (x1 : result (A * @rng R1)) (x2 : result (A * @rng R2)) : Prop :=
  match x1, x2 with
  | Ok (a1, r1), Ok (a2, r2) => a1 = a2 /\ related_rng sim_py sim_np r1 r2
  | Raise e1, Raise e2 => e1 = e2
  | _, _ => False
  end.

Definition related {R1 R2 : RandomLib}
    (sim_py : @py_state R1 -> @py_state R2 -> Prop)
    (sim_np : @np_state R1 -> @np_state R2 -> Prop)
    {A} (c1 : @M R1 A) (c2 : @M R2 A) : Prop :=
  forall r1 r2, related_rng sim_py sim_np r1 r2 ->
                related_result sim_py sim_np (c1 r1) (c2 r2).

(** ** Concrete generators

    [Demo.lcg_lib] draws everything from a linear congruential sequence,
    [Demo.counting_lib] draws the same samples from states that also count
    the draws, and [Demo.constant_lib g e] always draws the standard normal
    [g] and the standard exponential [e].  Each definition proves the two
    laws of [RandomLib]. *)

Module Demo.

Definition lcg (s : Z) : Z := (s * 1103515245 + 12345) mod 2147483648.
Definition bits (s : Z) : Z := (s / 65536) mod 1024.
Definition unit_float (k : Z) : float := (F.of_Z k / 1024)%float.

Definition lcg_lib : RandomLib.
Proof.
  refine {|
    py_state := Z;
    np_state := Z;
    py_seed := fun z => lcg z;
    np_seed := fun z => lcg (z + 1);
    py_random := fun s => (unit_float (bits s), lcg s);
    py_randbelow := fun n s => ((s / 65536) mod n, lcg s);
    np_normal := fun loc scale s =>
      ((loc + scale * ((F.of_Z (bits s) - 511.5) / 170))%float, lcg s);
    np_exponential := fun scale s => ((scale * (F.of_Z (bits s) / 256))%float, lcg s)
  |}.
  - intros s. cbn [fst].
    assert (Hall : forallb (fun n => (0 <=? unit_float (Z.of_nat n))%float
                                     && (unit_float (Z.of_nat n) <? 1)%float)
                           (seq 0 1024) = true) by (vm_compute; reflexivity).
    assert (Hk : 0 <= bits s < 1024) by (apply Z.mod_pos_bound; lia).
    rewrite forallb_forall in Hall.
    specialize (Hall (Z.to_nat (bits s))). rewrite Z2Nat.id in Hall by lia.
    apply andb_true_iff, Hall, in_seq. lia.
  - intros n s Hn. cbn [fst]. now apply Z.mod_pos_bound.
Defined.


Definition constant_lib (g e : float) : RandomLib.
Proof.
  refine {|
    py_state := unit;
    np_state := unit;
    py_seed := fun _ => tt;
    np_seed := fun _ => tt;
    py_random := fun s => (0.5%float, s);
    py_randbelow := fun _ s => (0, s);
    np_normal := fun loc scale s => ((loc + scale * g)%float, s);
    np_exponential := fun scale s => ((scale * e)%float, s)
  |}.
  - intros s. split; reflexivity.
  - intros n s Hn. cbn [fst]. lia.
Defined.

(** A state in which a process may find the generators of [lcg_lib]
    before [main] runs. *)
Definition lcg_start : @rng lcg_lib := @Rng lcg_lib 2024 7.

End Demo.

(** * Further vocabulary

    The definitions below name what the further properties at the end of
    the file talk about. *)

(** ** Weighted choice *)

(** The total of the weights as [random.choices] computes it: the last
    running sum, plus [0.0]. *)
Definition weights_total (weights : list float) : option float :=
  (fun t => (t + 0)%float) <$> last (accumulate weights).

(** The candidates and weights that [random.choices] accepts: as many
    weights as candidates, and a total that is positive and finite. *)
Definition well_formed {A} (items : list A) (weights : list float) : bool :=
  (length items =? length weights)%nat &&
  match weights_total weights with
  | Some total => negb (total <=? 0)%float && is_finite total
  | None => false
  end.

(** ** Rows and their attributes *)

(** A row whose answers were sampled from its own attributes: the label
    of every question column is that of a score drawn by
    [likert_from_mean] around the mean of the row's department, tenure
    band and manager flag, and the eNPS is drawn by
    [generate_enps_from_engagement] from the score behind the label of
    [Q12_OverallEngagement] and the row's department. *)
Definition row_coherent {R : RandomLib} (r : row) : Prop :=
  exists dept tenure manager,
    odict_lookup r "Department" = Some (VStr dept) /\
    odict_lookup r "Tenure" = Some (VStr tenure) /\
    odict_lookup r "Manager" = Some (VStr manager) /\
    (forall q, q ∈ map fst QUESTIONS ->
       exists mean v label s s',
         target_mean dept tenure manager q = Ok mean /\
         likert_from_mean mean s = Ok (v, s') /\
         LIKERT_TEXT !! v = Some label /\
         odict_lookup r q = Some (VStr label)) /\
    (exists overall label enps s s',
       odict_lookup r "Q12_OverallEngagement" = Some (VStr label) /\
       likert_decode label = Some overall /\
       generate_enps_from_engagement overall dept s = Ok (enps, s') /\
       odict_lookup r "eNPS_0_10" = Some (VInt enps)).

(** The attribute columns of a row hold configured values. *)
Definition row_attributes (c : config) (r : row) : Prop :=
  exists dept location tenure manager,
    odict_lookup r "Department" = Some (VStr dept) /\
    dept ∈ odict_keys (DEPT_WEIGHTS c) /\
    odict_lookup r "Location" = Some (VStr location) /\
    location ∈ LOCATIONS c /\
    odict_lookup r "Tenure" = Some (VStr tenure) /\
    tenure ∈ TENURE_BANDS c /\
    odict_lookup r "Manager" = Some (VStr manager) /\
    (manager = "Yes" \/ manager = "No").

(** A list of the configuration that [random.choices] finds empty. *)
Definition empty_choice (c : config) : Prop :=
  DEPT_WEIGHTS c = [] \/
  (LOCATIONS c = [] /\ LOCATION_WEIGHTS c = []) \/
  (TENURE_BANDS c = [] /\ TENURE_WEIGHTS c = []).

(** ** Counting the calls of the generators *)

(** The generators of [R] with a counter on each state: every call of a
    primitive adds one to the counter of the generator it draws from. *)
Definition counted (R : RandomLib) : RandomLib.
Proof.
  refine {|
    py_state := @py_state R * nat;
    np_state := @np_state R * nat;
    py_seed := fun z => (py_seed z, O);
    np_seed := fun z => (np_seed z, O);
    py_random := fun s => ((py_random s.1).1, ((py_random s.1).2, S s.2));
    py_randbelow := fun n s => ((py_randbelow n s.1).1, ((py_randbelow n s.1).2, S s.2));
    np_normal := fun loc scale s =>
      ((np_normal loc scale s.1).1, ((np_normal loc scale s.1).2, S s.2));
    np_exponential := fun scale s =>
      ((np_exponential scale s.1).1, ((np_exponential scale s.1).2, S s.2))
  |}.
  - intros s. exact (py_random_unit s.1).
  - intros n s. exact (py_randbelow_range n s.1).
Defined.

(** The numbers of calls made so far to Python's and to NumPy's
    generator. *)
Definition py_calls {R : RandomLib} (st : @rng (counted R)) : nat := (py st).2.
Definition np_calls {R : RandomLib} (st : @rng (counted R)) : nat := (np st).2.

(** ** Rounding and clamping *)

(** The value of [int(numpy.clip(numpy.rint(x), lo, hi))] read off the
    sign, mantissa and exponent of [x]: numbers at or below zero give [lo],
    numbers without a fractional part (they are at least [2^52]) and
    [+inf] give [hi], the others the nearest integer, ties to even, brought
    into [lo .. hi].  NaN, which the callers exclude, is given [lo]. *)
Definition rint_clamp (lo hi : Z) (f : spec_float) : Z :=
  match f with
  | S754_zero _ => lo
  | S754_infinity s => if s then lo else hi
  | S754_nan => lo
  | S754_finite s m e =>
      if s then lo
      else if 0 <=? e then hi
      else Z.min (Z.max (F.div2k_half_even (Z.pos m) (- e)) lo) hi
  end.

(** The numbers at or below zero, and the numbers from [2^52] on. *)
Definition SF_le_zero (f : spec_float) : Prop :=
  match f with
  | S754_zero _ => True
  | S754_infinity s | S754_finite s _ _ => s = true
  | S754_nan => False
  end.

Definition SF_big (f : spec_float) : Prop :=
  match f with
  | S754_infinity s => s = false
  | S754_finite s _ e => s = false /\ 0 <= e
  | _ => False
  end.

(** ** Scores as bins of the sample *)

(** The Likert score of a normal sample: rounding half to even and
    clamping make these bins. *)
Definition likert_of_sample (x : float) : Z :=
  if (x <? 1.5)%float then 1
  else if (x <=? 2.5)%float then 2
  else if (x <? 3.5)%float then 3
  else if (x <=? 4.5)%float then 4
  else 5.

(** The eNPS of a normal sample. *)
Definition enps_of_sample (x : float) : Z :=
  if (x <=? 0.5)%float then 0
  else if (x <? 1.5)%float then 1
  else if (x <=? 2.5)%float then 2
  else if (x <? 3.5)%float then 3
  else if (x <=? 4.5)%float then 4
  else if (x <? 5.5)%float then 5
  else if (x <=? 6.5)%float then 6
  else if (x <? 7.5)%float then 7
  else if (x <=? 8.5)%float then 8
  else if (x <? 9.5)%float then 9
  else 10.

(** ** Signs *)

(** A binary64 number that is not below zero: a zero of either sign, a
    positive number, [+inf], or NaN, which no comparison places. *)
Definition SF_nonneg (f : spec_float) : Prop :=
  match f with
  | S754_zero _ | S754_nan => True
  | S754_infinity s | S754_finite s _ _ => s = false
  end.

(** ** Reading an identifier back *)

(** [int(s)] on a string of decimal digits. *)
Definition digit_value (c : ascii) : Z := Z.of_nat (nat_of_ascii c) - 48.

Fixpoint int_of_digits_from (acc : Z) (s : string) : Z :=
  match s with
  | EmptyString => acc
  | String c s' => int_of_digits_from (10 * acc + digit_value c) s'
  end.

Definition int_of_digits (s : string) : Z := int_of_digits_from 0 s.

(** The number that an identifier carries after its letter. *)
Definition id_number (id : string) : option Z :=
  match id with
  | String "R" digits => Some (int_of_digits digits)
  | _ => None
  end.

(** A string that does not start with a sign. *)
Definition no_sign (s : string) : Prop :=
  match s with
  | String c _ => Ascii.eqb c "+" || Ascii.eqb c "-" = false
  | EmptyString => True
  end.

(** ** The text of a timestamp *)

(** The two decimal digits of [x]. *)
Definition two_digits (x : Z) : string :=
  String (digit (x / 10 mod 10)) (String (digit (x mod 10)) EmptyString).

(** The text [Y-MM-DD HH:MM] of five numbers: the year as [str] writes
    it, the other four with two digits. *)
Definition timestamp_text (y mo d h mi : Z) : string :=
  str_of_int y +:+ "-" +:+ two_digits mo +:+ "-" +:+ two_digits d +:+ " "
  +:+ two_digits h +:+ ":" +:+ two_digits mi.

(** * Properties *)

(** ** Binary64 facts *)

Example rint_ties_to_even :
  F.rint 0.5 = 0%float /\ F.rint 1.5 = 2%float /\ F.rint 2.5 = 2%float /\
  F.rint (-2.5) = (-2)%float /\ F.rint 2.51 = 3%float /\ F.rint (-0.4) = (-0)%float.
Proof. vm_compute. repeat split; reflexivity. Qed.

Example to_int_truncates :
  F.to_int 0.75 = Ok 0 /\ F.to_int 1.9999 = Ok 1 /\ F.to_int (-1.5) = Ok (-1) /\
  F.to_int 1e3 = Ok 1000 /\ F.to_int nan = Raise ValueError /\
  F.to_int infinity = Raise OverflowError.
Proof. vm_compute. repeat split; reflexivity. Qed.

Example clip_examples :
  F.clip 7 1 5 = 5%float /\ F.clip (-3) 1 5 = 1%float /\ F.clip 3 1 5 = 3%float /\
  is_nan (F.clip nan 1 5) = true /\ F.clip infinity 0 10 = 10%float.
Proof. vm_compute. repeat split; reflexivity. Qed.

Lemma digits2_pos_bounds (m : positive) :
  2 ^ (Z.pos (digits2_pos m) - 1) <= Z.pos m < 2 ^ Z.pos (digits2_pos m).
Proof.
  induction m as [m IH | m IH |]; simpl digits2_pos.
  - rewrite Pos2Z.inj_succ, Z.pow_succ_r by lia.
    replace (Z.succ (Z.pos (digits2_pos m)) - 1) with (Z.succ (Z.pos (digits2_pos m) - 1)) by lia.
    rewrite Z.pow_succ_r by lia. lia.
  - rewrite Pos2Z.inj_succ, Z.pow_succ_r by lia.
    replace (Z.succ (Z.pos (digits2_pos m)) - 1) with (Z.succ (Z.pos (digits2_pos m) - 1)) by lia.
    rewrite Z.pow_succ_r by lia. lia.
  - simpl. lia.
Qed.

(** The mantissa of a valid binary64 number has at most 53 bits, and
    exactly 53 above the subnormal exponent. *)
Lemma valid_mantissa (s : bool) (m : positive) (e : Z) :
  valid_binary (S754_finite s m e) = true ->
  Z.pos m < 2 ^ 53 /\ (-1074 < e -> 2 ^ 52 <= Z.pos m).
Proof.
  unfold valid_binary, bounded, canonical_mantissa, fexp, emin, prec, emax.
  intros Hv. apply andb_true_iff in Hv as [Hc _]. apply Z.eqb_eq in Hc.
  pose proof (digits2_pos_bounds m) as [Hlo Hhi].
  set (d := Z.pos (digits2_pos m)) in *.
  assert (Hd : d <= 53) by lia.
  split.
  - eapply Z.lt_le_trans; [exact Hhi |]. apply Z.pow_le_mono_r; lia.
  - intros He. assert (d = 53) as Hd53 by lia. rewrite Hd53 in Hlo. exact Hlo.
Qed.

Lemma SFcompare_refl f : f <> S754_nan -> SFcompare f f = Some Eq.
Proof.
  destruct f as [s | s | | s m e]; simpl; try congruence.
  - destruct s; reflexivity.
  - intros _. rewrite Z.compare_refl.
    change (PosDef.Pos.compare_cont Eq m m) with (Pos.compare m m).
    rewrite Pos.compare_refl. destruct s; reflexivity.
Qed.

Lemma is_nan_Prim2SF x : is_nan x = true <-> Prim2SF x = S754_nan.
Proof.
  unfold is_nan. rewrite FloatAxioms.eqb_spec. unfold SFeqb.
  destruct (Prim2SF x) as [s | s | | s m e] eqn:E.
  1,2,4: rewrite SFcompare_refl by congruence; simpl; split; congruence.
  simpl. tauto.
Qed.

Lemma is_infinity_Prim2SF x :
  is_infinity x = match Prim2SF x with S754_infinity _ => true | _ => false end.
Proof.
  unfold is_infinity. rewrite FloatAxioms.eqb_spec, abs_spec.
  replace (Prim2SF infinity) with (S754_infinity false) by (vm_compute; reflexivity).
  destruct (Prim2SF x) as [s | s | | s m e]; reflexivity.
Qed.

(** [float(z)] raises exactly when the rounded value is an infinity. *)
Lemma of_int_run z :
  F.of_int z = if is_infinity (F.of_Z z) then Raise OverflowError else Ok (F.of_Z z).
Proof. reflexivity. Qed.

Lemma of_int_ok z x : F.of_int z = Ok x -> x = F.of_Z z /\ is_infinity (F.of_Z z) = false.
Proof. rewrite of_int_run. destruct (is_infinity _); [discriminate |]. intros [= <-]. auto. Qed.

Lemma of_int_raise z e : F.of_int z = Raise e -> e = OverflowError.
Proof. rewrite of_int_run. destruct (is_infinity _); [| discriminate]. congruence. Qed.

(** A product with an infinity, divided by eight, is an infinity or NaN:
    [int] raises on it. *)
Lemma to_int_product_infinity (sample y : float) :
  is_infinity y = true -> is_ok (F.to_int (sample * y / F.of_Z 8)%float) = false.
Proof.
  rewrite is_infinity_Prim2SF. intros Hy.
  unfold F.to_int. rewrite div_spec, mul_spec.
  replace (Prim2SF (F.of_Z 8)) with (S754_finite false 4503599627370496 (-49))
    by (vm_compute; reflexivity).
  destruct (Prim2SF y) as [s | s | | s m e]; try discriminate.
  destruct (Prim2SF sample) as [s' | s' | | s' m' e']; reflexivity.
Qed.

Lemma pos_cmp_eq a b : PosDef.Pos.compare_cont Eq a b = Eq -> Z.pos a = Z.pos b.
Proof. intros E. apply (Pos.compare_eq a b) in E. congruence. Qed.
Lemma pos_cmp_lt a b : PosDef.Pos.compare_cont Eq a b = Lt -> Z.pos a < Z.pos b.
Proof. intros E. exact E. Qed.
Lemma pos_cmp_gt a b : PosDef.Pos.compare_cont Eq a b = Gt -> Z.pos b < Z.pos a.
Proof. intros E. apply Z.gt_lt. exact E. Qed.
Lemma Z_cmp_lt a b : Z.compare a b = Lt -> a < b.
Proof. intros E. exact E. Qed.
Lemma Z_cmp_gt a b : Z.compare a b = Gt -> b < a.
Proof. intros E. apply Z.gt_lt. exact E. Qed.

Local Ltac cmp_cases :=
  repeat match goal with
  | |- context [Z.compare ?a ?b] =>
      let E := fresh "E" in
      destruct (Z.compare a b) eqn:E;
      [apply Z.compare_eq in E | apply Z_cmp_lt in E | apply Z_cmp_gt in E]
  | |- context [PosDef.Pos.compare_cont Eq ?a ?b] =>
      let E := fresh "E" in
      destruct (PosDef.Pos.compare_cont Eq a b) eqn:E;
      [apply pos_cmp_eq in E | apply pos_cmp_lt in E | apply pos_cmp_gt in E]
  end.

Lemma pow2_52 : 2 ^ 52 = 4503599627370496. Proof. reflexivity. Qed.
Lemma pow2_53 : 2 ^ 53 = 9007199254740992. Proof. reflexivity. Qed.

Lemma Prim2SF_1 : Prim2SF 1 = S754_finite false 4503599627370496 (-52).
Proof. vm_compute. reflexivity. Qed.
Lemma Prim2SF_5 : Prim2SF 5 = S754_finite false 5629499534213120 (-50).
Proof. vm_compute. reflexivity. Qed.
Lemma Prim2SF_0 : Prim2SF 0 = S754_zero false.
Proof. vm_compute. reflexivity. Qed.
Lemma Prim2SF_infinity : Prim2SF infinity = S754_infinity false.
Proof. vm_compute. reflexivity. Qed.
Lemma Prim2SF_10 : Prim2SF 10 = S754_finite false 5629499534213120 (-49).
Proof. vm_compute. reflexivity. Qed.

(** A valid number between [1.0] and [5.0] truncates into [1..5]. *)
Lemma SF_trunc_1_5 f :
  valid_binary f = true ->
  SFleb (Prim2SF 1) f = true -> SFleb f (Prim2SF 5) = true ->
  exists s m e, f = S754_finite s m e /\ 1 <= F.trunc_finite s m e <= 5.
Proof.
  rewrite Prim2SF_1, Prim2SF_5. intros Hv H1 H5.
  destruct f as [s | s | | s m e].
  - discriminate H1.
  - destruct s; simpl in H1, H5; discriminate.
  - discriminate H1.
  - exists s, m, e. split; [reflexivity |].
    apply valid_mantissa in Hv as [Hhi Hlo]. rewrite pow2_53 in Hhi. rewrite pow2_52 in Hlo.
    unfold SFleb, SFcompare in H1, H5.
    destruct s; [discriminate H1 |].
    revert H1 H5. cmp_cases. all: try (intros; discriminate). all: intros _ _.
    all: unfold F.trunc_finite, F.div2k_trunc.
    all: assert (He : e = -52 \/ e = -51 \/ e = -50) by lia.
    all: destruct He as [-> | [-> | ->]]; try lia.
    all: cbn [Z.leb Z.compare Z.opp]; rewrite ?pow2_52.
    all: split; [apply Z.div_le_lower_bound | apply Z.div_le_upper_bound]; lia.
Qed.

(** A valid number between [0.0] and [10.0] truncates into [0..10]. *)
Lemma SF_trunc_0_10 f :
  valid_binary f = true ->
  SFleb (Prim2SF 0) f = true -> SFleb f (Prim2SF 10) = true ->
  (exists s, f = S754_zero s) \/
  exists s m e, f = S754_finite s m e /\ 0 <= F.trunc_finite s m e <= 10.
Proof.
  rewrite Prim2SF_0, Prim2SF_10. intros Hv H1 H5.
  destruct f as [s | s | | s m e].
  - left. eauto.
  - destruct s; simpl in H1, H5; discriminate.
  - discriminate H1.
  - right. exists s, m, e. split; [reflexivity |].
    apply valid_mantissa in Hv as [Hhi _]. rewrite pow2_53 in Hhi.
    unfold SFleb, SFcompare in H1, H5.
    destruct s; [discriminate H1 |]. clear H1.
    revert H5. cmp_cases. all: try (intros; discriminate). all: intros _.
    all: unfold F.trunc_finite, F.div2k_trunc.
    all: destruct (Z.leb_spec 0 e); [lia |].
    all: split; [apply Z.div_pos; [lia | apply Z.pow_pos_nonneg; lia] |].
    + subst e. change (2 ^ (- (-49))) with 562949953421312.
      apply Z.div_le_upper_bound; lia.
    + subst e. change (2 ^ (- (-49))) with 562949953421312.
      apply Z.div_le_upper_bound; lia.
    + transitivity (Z.pos m / 2 ^ 50).
      * apply Z.div_le_compat_l; [lia |]. split; [reflexivity |].
        apply Z.pow_le_mono_r; lia.
      * change (2 ^ 50) with 1125899906842624. apply Z.div_le_upper_bound; lia.
Qed.

Lemma to_int_nan x : is_nan x = true -> F.to_int x = Raise ValueError.
Proof. intros H. apply is_nan_Prim2SF in H. unfold F.to_int. now rewrite H. Qed.

Lemma clip_nan x lo hi : is_nan x = true -> F.clip x lo hi = x.
Proof.
  intros H. unfold F.clip, F.maximum, F.minimum.
  rewrite H, orb_true_r. now rewrite H, orb_true_r.
Qed.

(** [int(numpy.clip(x, 1, 5))] is in [1..5] unless [x] is NaN. *)
Lemma to_int_clip_1_5 x :
  is_nan x = false -> exists v, F.to_int (F.clip x 1 5) = Ok v /\ 1 <= v <= 5.
Proof.
  intros Hn. unfold F.clip, F.maximum, F.minimum. rewrite Hn, orb_false_r.
  destruct (1 <=? x)%float eqn:H1.
  - rewrite Hn, orb_false_r. destruct (x <=? 5)%float eqn:H5.
    + rewrite leb_spec in H1, H5.
      destruct (SF_trunc_1_5 _ (Prim2SF_valid x) H1 H5) as (s & m & e & Hf & Hr).
      exists (F.trunc_finite s m e). unfold F.to_int. rewrite Hf. auto.
    + exists 5. split; [vm_compute; reflexivity | lia].
  - exists 1. split; [vm_compute; reflexivity | lia].
Qed.

(** [int(numpy.clip(x, 0, 10))] is in [0..10] unless [x] is NaN. *)
Lemma to_int_clip_0_10 x :
  is_nan x = false -> exists v, F.to_int (F.clip x 0 10) = Ok v /\ 0 <= v <= 10.
Proof.
  intros Hn. unfold F.clip, F.maximum, F.minimum. rewrite Hn, orb_false_r.
  destruct (0 <=? x)%float eqn:H1.
  - rewrite Hn, orb_false_r. destruct (x <=? 10)%float eqn:H5.
    + rewrite leb_spec in H1, H5.
      destruct (SF_trunc_0_10 _ (Prim2SF_valid x) H1 H5)
        as [[s Hf] | (s & m & e & Hf & Hr)]; unfold F.to_int; rewrite Hf.
      * exists 0. split; [reflexivity | lia].
      * eauto.
    + exists 10. split; [vm_compute; reflexivity | lia].
  - exists 0. split; [vm_compute; reflexivity | lia].
Qed.

Lemma iter_pos_invariant {A} (P : A -> Prop) (f : A -> A) :
  (forall x, P x -> P (f x)) -> forall n x, P x -> P (SpecFloat.iter_pos f n x).
Proof.
  intros Hf n. induction n as [n IH | n IH |]; intros x Hx; simpl; auto.
Qed.

Lemma shr_1_nonneg mrs : 0 <= shr_m mrs -> 0 <= shr_m (shr_1 mrs).
Proof.
  destruct mrs as [m r s]. simpl.
  destruct m as [| [p | p |] | [p | p |]]; simpl; lia.
Qed.

Lemma shr_fexp_nonneg m e l :
  0 <= m -> 0 <= shr_m (fst (shr_fexp prec emax m e l)).
Proof.
  intros Hm. unfold shr_fexp, shr.
  assert (H0 : 0 <= shr_m (shr_record_of_loc m l)).
  { destruct l as [| []]; exact Hm. }
  destruct (fexp prec emax (Zdigits2 m + e) - e) as [| p | p]; simpl; try exact H0.
  apply (iter_pos_invariant (fun mrs => 0 <= shr_m mrs)); [apply shr_1_nonneg | exact H0].
Qed.

Lemma round_nearest_even_nonneg m l : 0 <= m -> 0 <= round_nearest_even m l.
Proof.
  intros Hm. destruct l as [| []]; simpl; try lia.
  destruct (Z.even m); lia.
Qed.

Lemma binary_round_aux_not_nan sx mx ex lx :
  0 <= mx -> binary_round_aux prec emax sx mx ex lx <> S754_nan.
Proof.
  intros Hm. unfold binary_round_aux.
  pose proof (shr_fexp_nonneg mx ex lx Hm) as H1.
  destruct (shr_fexp prec emax mx ex lx) as [mrs' e'] eqn:E1. simpl in H1.
  pose proof (shr_fexp_nonneg _ e' loc_Exact
                (round_nearest_even_nonneg _ (loc_of_shr_record mrs') H1)) as H2.
  destruct (shr_fexp prec emax _ e' loc_Exact) as [mrs'' e''] eqn:E2. simpl in H2.
  destruct (shr_m mrs'') as [| p | p]; try discriminate; [| lia].
  destruct (e'' <=? emax - prec); discriminate.
Qed.

Lemma binary_round_not_nan sx mx ex : binary_round prec emax sx mx ex <> S754_nan.
Proof.
  unfold binary_round. destruct (shl_align _ _ _) as [mz ez].
  apply binary_round_aux_not_nan. lia.
Qed.

Lemma binary_normalize_not_nan m e sz : binary_normalize prec emax m e sz <> S754_nan.
Proof.
  destruct m; simpl; [discriminate | apply binary_round_not_nan ..].
Qed.

Lemma SFldexp_not_nan f e : f <> S754_nan -> SFldexp prec emax f e <> S754_nan.
Proof.
  destruct f; simpl; auto. intros _. apply binary_round_not_nan.
Qed.

Lemma is_nan_false_Prim2SF x : Prim2SF x <> S754_nan -> is_nan x = false.
Proof.
  intros H. destruct (is_nan x) eqn:E; [| reflexivity].
  apply is_nan_Prim2SF in E. contradiction.
Qed.

Lemma SF2Prim_not_nan f : f <> S754_nan -> is_nan (SF2Prim f) = false.
Proof.
  intros Hf. destruct f as [[] | [] | | s m e]; try reflexivity; [contradiction |].
  unfold SF2Prim.
  assert (H : Prim2SF (Z.ldexp (of_uint63 (Uint63.of_Z (Z.pos m))) e) <> S754_nan).
  { rewrite Z_ldexp_spec, of_uint63_spec.
    apply SFldexp_not_nan, binary_normalize_not_nan. }
  apply is_nan_false_Prim2SF. destruct s; [| exact H].
  rewrite opp_spec. destruct (Prim2SF _); simpl; congruence.
Qed.

Lemma of_Z_not_nan z : is_nan (F.of_Z z) = false.
Proof. apply SF2Prim_not_nan, binary_normalize_not_nan. Qed.

Lemma opp_not_nan x : is_nan x = false -> is_nan (- x)%float = false.
Proof.
  intros H. apply is_nan_false_Prim2SF. rewrite opp_spec.
  destruct (Prim2SF x) eqn:E; simpl; try discriminate.
  apply is_nan_Prim2SF in E. congruence.
Qed.

(** [numpy.rint] keeps NaN and produces none. *)
Lemma rint_nan x : is_nan (F.rint x) = is_nan x.
Proof.
  unfold F.rint. destruct (Prim2SF x) as [s | s | | s m e] eqn:E; try reflexivity.
  destruct (0 <=? e); [reflexivity |].
  rewrite (is_nan_false_Prim2SF x) by congruence.
  destruct s; [apply opp_not_nan |]; apply of_Z_not_nan.
Qed.

(** A non-negative float is not below zero. *)
Lemma leb_zero_not_ltb x : (0 <=? x)%float = true -> (x <? 0)%float = false.
Proof.
  rewrite leb_spec, ltb_spec, Prim2SF_0. unfold SFleb, SFltb.
  destruct (Prim2SF x) as [s | [] | | [] m e]; simpl; congruence.
Qed.

(** ** The monad *)

Section MonadFacts.
Context {R : RandomLib}.

Lemma bind_ok {A B} (c : M A) (k : A -> M B) st b st' :
  bind c k st = Ok (b, st') <-> exists a st1, c st = Ok (a, st1) /\ k a st1 = Ok (b, st').
Proof.
  unfold bind. split.
  - destruct (c st) as [[a st1] | e]; [eauto | discriminate].
  - intros (a & st1 & -> & Hk). exact Hk.
Qed.

Lemma bind_raise {A B} (c : M A) (k : A -> M B) st e :
  bind c k st = Raise e <->
  c st = Raise e \/ exists a st1, c st = Ok (a, st1) /\ k a st1 = Raise e.
Proof.
  unfold bind. split.
  - destruct (c st) as [[a st1] | e']; [eauto | intros [= ->]; auto].
  - intros [-> | (a & st1 & -> & Hk)]; auto.
Qed.

Lemma bind_of_ok {A B} (c : M A) (k : A -> M B) st a st1 :
  c st = Ok (a, st1) -> bind c k st = k a st1.
Proof. unfold bind. now intros ->. Qed.

Lemma bind_of_raise {A B} (c : M A) (k : A -> M B) st e :
  c st = Raise e -> bind c k st = Raise e.
Proof. unfold bind. now intros ->. Qed.

Lemma lift_ok {A} (x : result A) st a st' :
  lift x st = Ok (a, st') <-> x = Ok a /\ st' = st.
Proof.
  unfold lift. destruct x as [a' | e]; split; try discriminate.
  - intros [= -> ->]. auto.
  - intros [[= ->] ->]. reflexivity.
  - intros [[=] _].
Qed.

Lemma ret_ok {A} (x : A) st a st' : ret x st = Ok (a, st') <-> a = x /\ st' = st.
Proof. unfold ret. split; [intros [= -> ->] | intros [-> ->]]; auto. Qed.

Lemma raise_not_ok {A} e st (a : A) st' : raise e st = Ok (a, st') -> False.
Proof. discriminate. Qed.

End MonadFacts.

(** Decomposes a successful run of a monadic program into the runs of
    its steps. *)
Ltac inv_run :=
  repeat match goal with
  | H : bind _ _ _ = Ok _ |- _ =>
      let a := fresh "a" in let st := fresh "st" in
      let H1 := fresh "Hrun" in let H2 := fresh "Hrun" in
      apply bind_ok in H as (a & st & H1 & H2)
  | H : lift _ _ = Ok _ |- _ =>
      let H1 := fresh "Hval" in let H2 := fresh "Hst" in
      apply lift_ok in H as [H1 H2]; try subst
  | H : ret _ _ = Ok _ |- _ =>
      let H1 := fresh "Hval" in let H2 := fresh "Hst" in
      apply ret_ok in H as [H1 H2]; try subst
  | H : raise _ _ = Ok _ |- _ => discriminate H
  end.

(** ** The two samplers *)

Section Samplers.
Context {R : RandomLib}.

Lemma np_random_normal_run loc scale st :
  np_random_normal loc scale st =
  Ok ((np_normal loc scale (np st)).1, after_normal loc scale st).
Proof.
  unfold np_random_normal, after_normal. now destruct (np_normal loc scale (np st)).
Qed.

Lemma np_random_exponential_run scale st :
  np_random_exponential scale st =
  Ok ((np_exponential scale (np st)).1, Rng (py st) (np_exponential scale (np st)).2).
Proof.
  unfold np_random_exponential. now destruct (np_exponential scale (np st)).
Qed.

Lemma random_random_run st :
  random_random st = Ok ((py_random (py st)).1, Rng (py_random (py st)).2 (np st)).
Proof. unfold random_random. now destruct (py_random (py st)). Qed.

Lemma random_randbelow_run n st :
  random_randbelow n st =
  Ok ((py_randbelow n (py st)).1, Rng (py_randbelow n (py st)).2 (np st)).
Proof. unfold random_randbelow. now destruct (py_randbelow n (py st)). Qed.

(** [likert_from_mean] returns a score in [1..5]; it raises, with
    [ValueError], exactly when the normal sample is NaN. *)
Lemma likert_from_mean_spec mean st :
  let x := (np_normal mean 0.85 (np st)).1 in
  if is_nan x then likert_from_mean mean st = Raise ValueError
  else exists v, likert_from_mean mean st = Ok (v, after_normal mean 0.85 st) /\ 1 <= v <= 5.
Proof.
  intros x. unfold likert_from_mean.
  rewrite (bind_of_ok _ _ _ _ _ (np_random_normal_run mean 0.85 st)). fold x.
  destruct (is_nan x) eqn:Hx.
  - unfold lift. rewrite to_int_nan; [reflexivity |].
    rewrite clip_nan; now rewrite rint_nan.
  - destruct (to_int_clip_1_5 (F.rint x)) as (v & Hv & Hr); [now rewrite rint_nan |].
    exists v. unfold lift. now rewrite Hv.
Qed.

Lemma enps_mean_raise overall dept e :
  enps_mean overall dept = Raise e -> e = OverflowError.
Proof.
  unfold enps_mean, F.of_int. destruct (is_infinity _); [| discriminate]. congruence.
Qed.

Lemma generate_enps_from_engagement_raise overall dept st e :
  enps_mean overall dept = Raise e ->
  generate_enps_from_engagement overall dept st = Raise e.
Proof.
  intros Hmu. unfold generate_enps_from_engagement. apply bind_of_raise.
  unfold lift. now rewrite Hmu.
Qed.

Lemma generate_enps_from_engagement_spec overall dept st mu :
  enps_mean overall dept = Ok mu ->
  let x := (np_normal mu 1.9 (np st)).1 in
  if is_nan x then generate_enps_from_engagement overall dept st = Raise ValueError
  else exists v, generate_enps_from_engagement overall dept st
                 = Ok (v, after_normal mu 1.9 st) /\ 0 <= v <= 10.
Proof.
  intros Hmu x. unfold generate_enps_from_engagement.
  assert (Hl : lift (enps_mean overall dept) st = Ok (mu, st)) by (unfold lift; now rewrite Hmu).
  rewrite (bind_of_ok _ _ _ _ _ Hl).
  rewrite (bind_of_ok _ _ _ _ _ (np_random_normal_run mu 1.9 st)). fold x.
  destruct (is_nan x) eqn:Hx.
  - unfold lift. rewrite to_int_nan; [reflexivity |].
    rewrite clip_nan; now rewrite rint_nan.
  - destruct (to_int_clip_0_10 (F.rint x)) as (v & Hv & Hr); [now rewrite rint_nan |].
    exists v. unfold lift. now rewrite Hv.
Qed.

Lemma likert_from_mean_range mean st v st' :
  likert_from_mean mean st = Ok (v, st') -> 1 <= v <= 5.
Proof.
  intros H. pose proof (likert_from_mean_spec mean st) as S. cbv zeta in S.
  destruct (is_nan _); [congruence |]. destruct S as (v' & Hv & Hr). congruence.
Qed.

Lemma generate_enps_range overall dept st v st' :
  generate_enps_from_engagement overall dept st = Ok (v, st') -> 0 <= v <= 10.
Proof.
  intros H. destruct (enps_mean overall dept) as [mu | e] eqn:Hmu.
  - pose proof (generate_enps_from_engagement_spec overall dept st mu Hmu) as S.
    cbv zeta in S. destruct (is_nan _); [congruence |].
    destruct S as (v' & Hv & Hr). congruence.
  - rewrite (generate_enps_from_engagement_raise _ _ _ _ Hmu) in H. discriminate.
Qed.

End Samplers.

(** ** Ordered dictionaries *)

Section Odict.
Context {V : Type}.
Implicit Types (d : odict V) (k : string) (v : V).

Lemma odict_lookup_set_eq d k v : odict_lookup (odict_set d k v) k = Some v.
Proof.
  induction d as [| [k' v'] d IH]; simpl.
  - now rewrite String.eqb_refl.
  - destruct (String.eqb k' k) eqn:E; simpl; rewrite E; auto.
Qed.

Lemma odict_lookup_set_ne d k k' v :
  k <> k' -> odict_lookup (odict_set d k v) k' = odict_lookup d k'.
Proof.
  intros Hne. induction d as [| [k0 v0] d IH]; simpl.
  - apply String.eqb_neq in Hne. now rewrite Hne.
  - destruct (String.eqb k0 k) eqn:E; simpl.
    + apply String.eqb_eq in E as ->. apply String.eqb_neq in Hne. now rewrite Hne.
    + now rewrite IH.
Qed.

Lemma odict_lookup_None_keys d k : odict_lookup d k = None <-> k ∉ odict_keys d.
Proof.
  induction d as [| [k' v'] d IH]; simpl.
  - split; [intros _; apply not_elem_of_nil | auto].
  - rewrite not_elem_of_cons. destruct (String.eqb_spec k' k) as [-> | Hne].
    + split; [discriminate | intros [[] _]; reflexivity].
    + rewrite IH. split; [intros H; split; [congruence | exact H] | tauto].
Qed.

Lemma odict_keys_set_new d k v :
  k ∉ odict_keys d -> odict_keys (odict_set d k v) = odict_keys d ++ [k].
Proof.
  induction d as [| [k' v'] d IH]; simpl; [reflexivity |].
  rewrite not_elem_of_cons. intros [Hne Hnin].
  destruct (String.eqb_spec k' k) as [-> | _]; [congruence |].
  simpl. f_equal. now apply IH.
Qed.

Lemma odict_keys_set_old d k v :
  k ∈ odict_keys d -> odict_keys (odict_set d k v) = odict_keys d.
Proof.
  induction d as [| [k' v'] d IH]; simpl.
  - intros H. now apply elem_of_nil in H.
  - intros H. destruct (String.eqb_spec k' k) as [-> | Hne]; [reflexivity |].
    simpl. f_equal. apply IH. apply elem_of_cons in H as [-> |]; [congruence | assumption].
Qed.

End Odict.

(** ** The two loops over [QUESTIONS] *)

Section Loops.
Context {R : RandomLib}.

Lemma sample_answers_range dept tenure manager qs :
  forall acc st ans st',
    map_Forall (fun _ v => in_likert_range v) acc ->
    for_each (sample_answer dept tenure manager) qs acc st = Ok (ans, st') ->
    map_Forall (fun _ v => in_likert_range v) ans.
Proof.
  induction qs as [| q qs IH]; intros acc st ans st' Hacc Hrun; simpl in Hrun.
  - inv_run. exact Hacc.
  - apply bind_ok in Hrun as (acc' & st1 & Hq & Hrest).
    refine (IH acc' st1 ans st' _ Hrest).
    unfold sample_answer in Hq. inv_run.
    apply map_Forall_insert_2; [| exact Hacc].
    eapply likert_from_mean_range; eassumption.
Qed.

(** The second loop consumes no randomness, appends the question codes
    in order and stores text labels of in-range answers. *)
Lemma store_labels_spec ans qs :
  map_Forall (fun _ v => in_likert_range v) ans ->
  NoDup (map fst qs) ->
  forall r st r' st',
    (forall q, q ∈ map fst qs -> q ∉ odict_keys r) ->
    for_each (store_label ans) qs r st = Ok (r', st') ->
    st' = st /\
    odict_keys r' = odict_keys r ++ map fst qs /\
    (forall k, k ∉ map fst qs -> odict_lookup r' k = odict_lookup r k) /\
    (forall q, q ∈ map fst qs ->
       exists v label, in_likert_range v /\ LIKERT_TEXT !! v = Some label /\
                       odict_lookup r' q = Some (VStr label)).
Proof.
  intros Hans. induction qs as [| q qs IH]; intros Hnd r st r' st' Hfresh Hrun; simpl in Hrun.
  - inv_run. rewrite app_nil_r. repeat split; auto.
    intros q Hq. now apply elem_of_nil in Hq.
  - simpl in Hnd. apply NoDup_cons in Hnd as [Hq Hnd].
    apply bind_ok in Hrun as (r1 & st1 & Hstep & Hrest).
    unfold store_label in Hstep.
    apply bind_ok in Hstep as (v & st2 & Hv & Hstep). apply lift_ok in Hv as [Hv ->].
    apply bind_ok in Hstep as (label & st2 & Hl & Hstep). apply lift_ok in Hl as [Hl ->].
    apply ret_ok in Hstep as [-> ->].
    unfold dict_get in Hv, Hl.
    destruct (ans !! q.1) as [v' |] eqn:Ev; [| discriminate]. injection Hv as ->.
    destruct (LIKERT_TEXT !! v) as [label' |] eqn:El; [| discriminate]. injection Hl as ->.
    assert (Hq0 : q.1 ∉ odict_keys r) by (apply Hfresh; simpl; left).
    apply IH in Hrest as (-> & Hkeys & Hother & Hqs); [| exact Hnd |].
    + split; [reflexivity |]. split; [| split].
      * rewrite Hkeys, odict_keys_set_new by exact Hq0. simpl. now rewrite <- app_assoc.
      * intros k Hk. simpl in Hk. apply not_elem_of_cons in Hk as [Hne Hk].
        rewrite Hother by exact Hk. apply odict_lookup_set_ne. congruence.
      * intros q' Hq'. simpl in Hq'. apply elem_of_cons in Hq' as [-> | Hq'].
        -- exists v, label. split; [exact (Hans _ _ Ev) |]. split; [exact El |].
           rewrite Hother by exact Hq. apply odict_lookup_set_eq.
        -- now apply Hqs.
    + intros q' Hq'. rewrite odict_keys_set_new by exact Hq0.
      rewrite elem_of_app, list_elem_of_singleton. intros [Hin | ->].
      * revert Hin. apply Hfresh. simpl. now right.
      * contradiction.
Qed.

End Loops.

(** ** Comments *)

Section Comments.
Context {R : RandomLib}.

Lemma random_random_after st :
  random_random st = Ok ((py_random (py st)).1, after_random st).
Proof. apply random_random_run. Qed.

Lemma getitem_in_range {A} (seq : list A) i :
  0 <= i < len seq -> exists x, getitem seq i = Ok x /\ x ∈ seq.
Proof.
  intros Hi. unfold getitem. destruct (Z.ltb_spec i 0) as [| _]; [lia |].
  destruct (Z.ltb_spec i 0) as [| _]; [lia |].
  destruct (seq !! Z.to_nat i) as [x |] eqn:E.
  - exists x. split; [reflexivity |]. eapply list_elem_of_lookup_2; eassumption.
  - apply lookup_ge_None in E. unfold len in Hi. lia.
Qed.

(** [random.choice] on a non-empty sequence returns one of its elements. *)
Lemma random_choice_spec {A} (seq : list A) st :
  seq <> [] ->
  exists x, random_choice seq st = Ok (x, after_choice (len seq) st) /\ x ∈ seq.
Proof.
  intros Hne. unfold random_choice.
  assert (Hlen : 0 < len seq) by (unfold len; destruct seq; [congruence | simpl; lia]).
  destruct (Z.eqb_spec (len seq) 0) as [| _]; [lia |].
  rewrite (bind_of_ok _ _ _ _ _ (random_randbelow_run (len seq) st)).
  destruct (getitem_in_range seq (py_randbelow (len seq) (py st)).1) as (x & Hx & Hin).
  { now apply py_randbelow_range. }
  exists x. unfold lift. rewrite Hx. auto.
Qed.

Lemma open_comments_spec p_working p_improve dept r st :
  let u1 := (py_random (py st)).1 in
  let u2 := (py_random (py (working_state p_working st))).1 in
  let u3 := (py_random (py (after_random (working_state p_working st)))).1 in
  exists w im st',
    open_comments p_working p_improve dept r st
    = Ok (odict_set (odict_set r "Open_WhatsWorking" (VStr w)) "Open_ImproveFirst" (VStr im), st')
    /\ (if (u1 <? p_working)%float then w ∈ WORKING_WELL_TEMPLATES else w = "")
    /\ (if (u2 <? p_improve)%float then im ∈ IMPROVE_FIRST_TEMPLATES else im = "")
    /\ ((u2 <? p_improve)%float = true ->
        str_in dept ["Customer Support"; "Operations"] = true ->
        (u3 <? 0.55)%float = true -> im = WORKLOAD_COMMENT).
Proof.
  intros u1 u2 u3. unfold open_comments.
  rewrite (bind_of_ok _ _ _ _ _ (random_random_after st)). fold u1.
  assert (Hw : exists w,
    (if (u1 <? p_working)%float then random_choice WORKING_WELL_TEMPLATES else ret "")
      (after_random st) = Ok (w, working_state p_working st) /\
    (if (u1 <? p_working)%float then w ∈ WORKING_WELL_TEMPLATES else w = "")).
  { unfold working_state. fold u1. destruct (u1 <? p_working)%float.
    - apply random_choice_spec. discriminate.
    - exists "". auto. }
  destruct Hw as (w & Hw & Hwin).
  rewrite (bind_of_ok _ _ _ _ _ Hw).
  rewrite (bind_of_ok _ _ _ _ _ (random_random_after (working_state p_working st))). fold u2.
  set (s2 := after_random (working_state p_working st)).
  assert (Hi : exists im st',
    (if (u2 <? p_improve)%float then
       if str_in dept ["Customer Support"; "Operations"] then
         u3 <- random_random ;;
         if (u3 <? 0.55)%float then ret WORKLOAD_COMMENT
         else random_choice IMPROVE_FIRST_TEMPLATES
       else random_choice IMPROVE_FIRST_TEMPLATES
     else ret "") s2 = Ok (im, st') /\
    (if (u2 <? p_improve)%float then im ∈ IMPROVE_FIRST_TEMPLATES else im = "") /\
    ((u2 <? p_improve)%float = true ->
     str_in dept ["Customer Support"; "Operations"] = true ->
     (u3 <? 0.55)%float = true -> im = WORKLOAD_COMMENT)).
  { destruct (u2 <? p_improve)%float; [| exists "", s2; split; [| split]; [auto .. | discriminate]].
    destruct (str_in dept _).
    - rewrite (bind_of_ok _ _ _ _ _ (random_random_after s2)).
      change (py_random (py s2)).1 with u3.
      destruct (u3 <? 0.55)%float.
      + exists WORKLOAD_COMMENT, (after_random s2). split; [reflexivity |].
        split; [| reflexivity].
        unfold WORKLOAD_COMMENT, IMPROVE_FIRST_TEMPLATES. set_solver.
      + destruct (random_choice_spec IMPROVE_FIRST_TEMPLATES (after_random s2))
          as (im & Him & Hin); [discriminate |].
        exists im. eexists. split; [exact Him |]. split; [exact Hin | discriminate].
    - destruct (random_choice_spec IMPROVE_FIRST_TEMPLATES s2)
        as (im & Him & Hin); [discriminate |].
      exists im. eexists. split; [exact Him |]. split; [exact Hin | discriminate]. }
  destruct Hi as (im & st' & Hi & Hiin & Hover).
  rewrite (bind_of_ok _ _ _ _ _ Hi).
  exists w, im, st'. auto.
Qed.

End Comments.

(** ** One respondent *)

Lemma row_literal (id ts dept location tenure manager : string) (enps : Z) :
  odict_literal
    [ ("RespondentID", VStr id); ("SubmissionTime", VStr ts);
      ("Department", VStr dept); ("Location", VStr location); ("Tenure", VStr tenure);
      ("Manager", VStr manager); ("eNPS_0_10", VInt enps) ]
  = [ ("RespondentID", VStr id); ("SubmissionTime", VStr ts);
      ("Department", VStr dept); ("Location", VStr location); ("Tenure", VStr tenure);
      ("Manager", VStr manager); ("eNPS_0_10", VInt enps) ].
Proof. reflexivity. Qed.

Lemma QUESTIONS_NoDup : NoDup (map fst QUESTIONS).
Proof. apply (bool_decide_unpack _). vm_compute. reflexivity. Qed.

Local Ltac decide_strings := apply (bool_decide_unpack _); vm_compute; reflexivity.

Section Respondent.
Context {R : RandomLib}.

Lemma respondent_facts c dept_items dept_w i st r st' :
  respondent c dept_items dept_w i st = Ok (r, st') -> row_facts i r.
Proof.
  unfold respondent. intros Hrun.
  apply bind_ok in Hrun as (dept & s1 & _ & Hrun).
  apply bind_ok in Hrun as (location & s2 & _ & Hrun).
  apply bind_ok in Hrun as (tenure & s3 & _ & Hrun).
  apply bind_ok in Hrun as (manager & s4 & _ & Hrun).
  apply bind_ok in Hrun as (answers & s5 & Hans & Hrun).
  apply bind_ok in Hrun as (overall & s6 & _ & Hrun).
  apply bind_ok in Hrun as (enps & s7 & Henps & Hrun).
  apply bind_ok in Hrun as (ts & s8 & _ & Hrun).
  apply bind_ok in Hrun as (r1 & s9 & Hlabels & Hrun).
  rewrite row_literal in Hlabels.
  apply sample_answers_range in Hans; [| apply map_Forall_empty].
  apply generate_enps_range in Henps.
  apply (store_labels_spec _ _ Hans QUESTIONS_NoDup) in Hlabels
    as (-> & Hkeys & Hother & Hq).
  2:{ apply Forall_forall. decide_strings. }
  destruct (open_comments_spec 0.78 0.70 dept r1 s8)
    as (w & im & st2 & Hc & Hw & Him & _).
  cbv zeta in Hc. rewrite Hc in Hrun. injection Hrun as <- <-.
  assert (Hk1 : odict_keys (odict_set r1 "Open_WhatsWorking" (VStr w))
                = odict_keys r1 ++ ["Open_WhatsWorking"]).
  { apply odict_keys_set_new. rewrite Hkeys. decide_strings. }
  split.
  - rewrite odict_keys_set_new, Hk1, Hkeys; [reflexivity |].
    rewrite Hk1, Hkeys. decide_strings.
  - rewrite !odict_lookup_set_ne by discriminate. rewrite Hother by decide_strings.
    reflexivity.
  - intros k Hk. rewrite !elem_of_cons, elem_of_nil in Hk.
    destruct Hk as [-> | [-> | [-> | [-> | [-> | []]]]]].
    all: rewrite !odict_lookup_set_ne by discriminate.
    all: rewrite Hother by decide_strings; simpl; eauto.
  - exists enps. split; [| exact Henps].
    rewrite !odict_lookup_set_ne by discriminate. rewrite Hother by decide_strings.
    reflexivity.
  - intros q Hin. destruct (Hq q Hin) as (v & label & Hv & Hl & Hlook).
    exists v, label. split; [exact Hv |]. split; [exact Hl |].
    rewrite !odict_lookup_set_ne; [exact Hlook | ..].
    all: intros <-; revert Hin; decide_strings.
  - exists w. split.
    + rewrite odict_lookup_set_ne by discriminate. apply odict_lookup_set_eq.
    + destruct (_ <? _)%float; auto.
  - exists im. split; [apply odict_lookup_set_eq |].
    clear Hw. destruct (_ <? _)%float; auto.
Qed.

(** The rows are produced one per index, in the order of the indices. *)
Lemma append_respondents_spec c dept_items dept_w idx :
  forall acc st rows st',
    for_each (append_respondent c dept_items dept_w) idx acc st = Ok (rows, st') ->
    exists new, rows = acc ++ new /\
      Forall2 (fun i r => exists s s', respondent c dept_items dept_w i s = Ok (r, s')) idx new.
Proof.
  induction idx as [| i idx IH]; intros acc st rows st' Hrun; simpl in Hrun.
  - apply ret_ok in Hrun as [-> _]. exists []. rewrite app_nil_r. split; [reflexivity | constructor].
  - apply bind_ok in Hrun as (acc1 & s1 & Hstep & Hrest).
    unfold append_respondent in Hstep.
    apply bind_ok in Hstep as (r & s2 & Hr & Hret). apply ret_ok in Hret as [-> ->].
    apply IH in Hrest as (new & -> & Hnew).
    exists (r :: new). rewrite <- app_assoc. split; [reflexivity |].
    constructor; eauto.
Qed.

Lemma generate_rows c st rows st' :
  generate c st = Ok (rows, st') ->
  Forall2 row_facts (range1 (N_RESPONSES c)) rows.
Proof.
  unfold generate. intros Hrun.
  apply bind_ok in Hrun as (dept_w & s1 & _ & Hrun).
  apply append_respondents_spec in Hrun as (new & -> & Hnew). simpl.
  eapply Forall2_impl; [exact Hnew |].
  intros i r (s & s' & Hr). eapply respondent_facts; eassumption.
Qed.

(** [main] is the generation loop run from the seeded state, when NumPy
    accepts the seed. *)
Lemma main_with_run c st :
  main_with c st
  = if (0 <=? SEED c) && (SEED c <=? 2 ^ 32 - 1) then generate c (seeded c)
    else Raise ValueError.
Proof.
  unfold main_with, bind, random_seed, np_random_seed, seeded.
  cbn [py np]. destruct (_ && _); reflexivity.
Qed.

Lemma main_with_ok c st rows st' :
  main_with c st = Ok (rows, st') ->
  0 <= SEED c <= 2 ^ 32 - 1 /\ generate c (seeded c) = Ok (rows, st').
Proof.
  rewrite main_with_run.
  destruct (Z.leb_spec 0 (SEED c)), (Z.leb_spec (SEED c) (2 ^ 32 - 1));
    cbn [andb]; try discriminate.
  intros Hrun. split; [lia | exact Hrun].
Qed.

Lemma main_with_rows c st rows st' :
  main_with c st = Ok (rows, st') -> Forall2 row_facts (range1 (N_RESPONSES c)) rows.
Proof. intros H. apply main_with_ok in H as [_ H]. eapply generate_rows; eassumption. Qed.

End Respondent.

(** ** The script on a concrete generator *)

(** The script runs to completion on the linear congruential generator. *)
Lemma lcg_main_ok : is_ok (main (R := Demo.lcg_lib) Demo.lcg_start) = true.
Proof. vm_compute. reflexivity. Qed.

Lemma raises_intro {A} (r : result A) (e : exn) : raises r e = true -> r = Raise e.
Proof.
  destruct r as [a | e']; [discriminate |].
  destruct e, e'; try discriminate; reflexivity.
Qed.

Lemma holds_on_run_intro {A} (r : result A) (P : A -> Prop) :
  is_ok r = true -> (forall a, r = Ok a -> P a) -> holds_on_run r P.
Proof. destruct r as [a | e]; simpl; [auto | discriminate]. Qed.

(** ** Score ranges *)

Lemma likert_decode_label v label :
  LIKERT_TEXT !! v = Some label -> likert_decode label = Some v.
Proof.
  intros H. apply elem_of_map_to_list in H.
  assert (Hall : Forall (fun kv => likert_decode kv.2 = Some kv.1) (map_to_list LIKERT_TEXT)).
  { apply (bool_decide_unpack _). vm_compute. reflexivity. }
  rewrite Forall_forall in Hall. exact (Hall _ H).
Qed.

Lemma row_facts_scores i r : row_facts i r -> scores_in_range r.
Proof.
  intros [_ _ _ Henps Hlikert _ _]. split; [| exact Henps].
  intros q Hq. destruct (Hlikert q Hq) as (v & label & Hv & Hl & Hlook).
  exists label, v. split; [exact Hlook |]. split; [| exact Hv].
  now apply likert_decode_label.
Qed.

(** The integer of a Likert score, less one, converts to a float. *)
Lemma of_int_score (z : Z) : 0 <= z <= 4 -> F.of_int z = Ok (F.of_Z z).
Proof.
  intros Hz. assert (H : z = 0 \/ z = 1 \/ z = 2 \/ z = 3 \/ z = 4) by lia.
  destruct H as [-> | [-> | [-> | [-> | ->]]]]; vm_compute; reflexivity.
Qed.

(** C1.  For every mean, also an infinite or NaN one, [likert_from_mean]
    returns an integer in [1..5]; it fails only with [ValueError], when the
    normal sample itself is NaN.  [generate_enps_from_engagement] fails
    with [OverflowError] when the overall score is an integer too large
    for a float; otherwise, whatever the mean, it returns an integer in
    [0..10], or fails with [ValueError] when the sample is NaN.  A Likert
    score [1..5] always converts.  Hence in every row that the generator
    produces each of the twelve question columns holds a label that decodes
    to an integer in [1..5] and the eNPS column an integer in [0..10]. *)
Theorem sampled_scores_in_range {R : RandomLib}
    (mean : float) (overall : Z) (dept : string) (st : rng) (c : config) :
  (let x := (np_normal mean 0.85 (np st)).1 in
   (is_nan x = true /\ likert_from_mean mean st = Raise ValueError) \/
   (is_nan x = false /\
    exists v st', likert_from_mean mean st = Ok (v, st') /\ 1 <= v <= 5)) /\
  match enps_mean overall dept with
  | Raise e =>
      e = OverflowError /\
      generate_enps_from_engagement overall dept st = Raise OverflowError
  | Ok mu =>
      let x := (np_normal mu 1.9 (np st)).1 in
      (is_nan x = true /\
       generate_enps_from_engagement overall dept st = Raise ValueError) \/
      (is_nan x = false /\
       exists v st', generate_enps_from_engagement overall dept st = Ok (v, st')
                     /\ 0 <= v <= 10)
  end /\
  (1 <= overall <= 5 -> exists mu, enps_mean overall dept = Ok mu) /\
  (forall st0 rows st',
     main_with c st0 = Ok (rows, st') -> Forall scores_in_range rows).
Proof.
  split; [| split; [| split]].
  - pose proof (likert_from_mean_spec mean st) as S. cbv zeta in S |- *.
    destruct (is_nan _); [left; auto | right].
    destruct S as (v & Hv & Hr). eauto 6.
  - destruct (enps_mean overall dept) as [mu | e] eqn:Hmu.
    + pose proof (generate_enps_from_engagement_spec overall dept st mu Hmu) as S.
      cbv zeta in S |- *. destruct (is_nan _); [left; auto | right].
      destruct S as (v & Hv & Hr). eauto 6.
    + pose proof (enps_mean_raise _ _ _ Hmu) as ->.
      split; [reflexivity | now apply generate_enps_from_engagement_raise].
  - intros Hs. unfold enps_mean. rewrite of_int_score by lia. eauto.
  - intros st0 rows st' Hmain. apply main_with_rows in Hmain.
    induction Hmain as [| i r idx rows Hr _ IH]; constructor; [| exact IH].
    eapply row_facts_scores, Hr.
Qed.

Lemma sampled_scores_in_range_witness :
  (exists mu, enps_mean 3 "Sales" = Ok mu) /\
  holds_on_run (main (R := Demo.lcg_lib) Demo.lcg_start)
    (fun out => Forall scores_in_range out.1).
Proof.
  pose proof (sampled_scores_in_range (R := Demo.lcg_lib) 0%float 3 "Sales"
                Demo.lcg_start default_config) as (_ & _ & Hmu & Hrows).
  split; [apply Hmu; lia |].
  apply holds_on_run_intro; [exact lcg_main_ok |].
  intros [rows st'] Hmain. exact (Hrows Demo.lcg_start rows st' Hmain).
Defined.

(** ** The mean of a question *)

Lemma gmap_lookup_cases {V} (m : gmap string V) (k : string) :
  m !! k = None \/ exists v, m !! k = Some v /\ (k, v) ∈ map_to_list m.
Proof.
  destruct (m !! k) as [v |] eqn:E; [right | left; reflexivity].
  exists v. split; [reflexivity |]. now apply elem_of_map_to_list.
Qed.

Lemma str_in_spec s l : str_in s l = bool_decide (s ∈ l).
Proof.
  unfold str_in. induction l as [| x l IH]; simpl; [reflexivity |].
  rewrite IH. destruct (String.eqb_spec s x) as [-> | Hne]; simpl.
  - symmetry. apply bool_decide_eq_true. left.
  - apply bool_decide_ext. rewrite elem_of_cons. tauto.
Qed.

Lemma mean_tables_agree :
  Forall (fun qb : string * float =>
    mean_cases_agree qb.2 0 = true /\
    Forall (fun da : string * gmap string float =>
      Forall (fun qa : string * float => mean_cases_agree qb.2 qa.2 = true)
             (map_to_list da.2))
      (map_to_list DEPT_ADJ))
    (map_to_list BASE_MEAN_BY_Q).
Proof. apply (bool_decide_unpack _). vm_compute. reflexivity. Qed.

Lemma sensitive_test (x y a b q : string) :
  String.eqb x y && str_in q [a; b] = bool_decide (x = y /\ (q = a \/ q = b)).
Proof.
  rewrite str_in_spec. destruct (String.eqb_spec x y) as [-> | Hne]; simpl.
  - apply bool_decide_ext. rewrite !elem_of_cons, elem_of_nil. tauto.
  - symmetry. apply bool_decide_eq_false. tauto.
Qed.

Lemma QUESTIONS_have_base q :
  q ∈ map fst QUESTIONS -> exists base, BASE_MEAN_BY_Q !! q = Some base.
Proof.
  revert q. apply Forall_forall.
  apply (Forall_impl (fun q => is_Some (BASE_MEAN_BY_Q !! q))).
  - apply (bool_decide_unpack _). vm_compute. reflexivity.
  - intros q [base Hb]. eauto.
Qed.

Lemma adjusted_mean_spec base dept tenure manager q :
  (q, base) ∈ map_to_list BASE_MEAN_BY_Q ->
  adjusted_mean base (default 0%float (default ∅ (DEPT_ADJ !! dept) !! q)) tenure manager q
  = effective_mean_spec base dept tenure manager q.
Proof.
  intros Hb.
  pose proof mean_tables_agree as Hall. rewrite Forall_forall in Hall.
  destruct (Hall _ Hb) as [H0 Hdept]. simpl in H0, Hdept. clear Hall.
  assert (Hagree : mean_cases_agree base (department_adjustment dept q) = true
                   /\ default 0%float (default ∅ (DEPT_ADJ !! dept) !! q)
                      = department_adjustment dept q).
  { unfold department_adjustment.
    destruct (gmap_lookup_cases DEPT_ADJ dept) as [-> | (adj & -> & Hadj)]; simpl.
    - rewrite lookup_empty. auto.
    - rewrite Forall_forall in Hdept. specialize (Hdept _ Hadj). simpl in Hdept.
      destruct (gmap_lookup_cases adj q) as [-> | (a & -> & Ha)]; simpl; [auto |].
      rewrite Forall_forall in Hdept. split; [exact (Hdept _ Ha) | reflexivity]. }
  destruct Hagree as [Hagree ->].
  unfold mean_cases_agree in Hagree.
  rewrite !andb_true_iff, !Leibniz.eqb_spec in Hagree.
  destruct Hagree as [[[H00 H10] H01] H11].
  unfold adjusted_mean, effective_mean_spec, tenure_adjustment, manager_adjustment.
  rewrite !sensitive_test.
  destruct (bool_decide (tenure = _ /\ _)), (bool_decide (manager = _ /\ _)); assumption.
Qed.

(** C2.  For every question of the catalogue, whatever the department,
    tenure band and manager flag, the mean handed to the Likert sampler is
    the base mean plus the department's adjustment for the question ([0]
    when absent), minus [0.2] exactly for the newest tenure band on
    [Q01_Strategy] and [Q10_CareerPath], plus [0.2] exactly for managers on
    [Q01_Strategy] and [Q02_Leadership_Comms]; and a base mean [3.0] with a
    department adjustment [0.3] and neither conditional adjustment gives
    exactly [3.3]. *)
Theorem effective_mean_composition {R : RandomLib}
    (dept tenure manager : string) (q : string * string) :
  q.1 ∈ map fst QUESTIONS ->
  (exists base,
     BASE_MEAN_BY_Q !! q.1 = Some base /\
     target_mean dept tenure manager q.1
     = Ok (effective_mean_spec base dept tenure manager q.1) /\
     forall answers st,
       sample_answer dept tenure manager answers q st
       = (score <- likert_from_mean (effective_mean_spec base dept tenure manager q.1) ;;
          ret (<[q.1 := score]> answers)) st) /\
  (tenure_adjustment tenure q.1 = 0%float ->
   manager_adjustment manager q.1 = 0%float ->
   adjusted_mean 3.0 0.3 tenure manager q.1 = 3.3%float).
Proof.
  intros Hq. split.
  - destruct (QUESTIONS_have_base _ Hq) as [base Hb]. exists base.
    assert (Ht : target_mean dept tenure manager q.1
                 = Ok (effective_mean_spec base dept tenure manager q.1)).
    { unfold target_mean, dict_get. rewrite Hb. f_equal.
      apply adjusted_mean_spec. now apply elem_of_map_to_list. }
    split; [exact Hb |]. split; [exact Ht |].
    intros answers st. unfold sample_answer. rewrite Ht. reflexivity.
  - unfold tenure_adjustment, manager_adjustment, adjusted_mean.
    rewrite !sensitive_test.
    destruct (bool_decide (tenure = _ /\ _)); [intros H; vm_compute in H; discriminate |].
    destruct (bool_decide (manager = _ /\ _)); [intros _ H; vm_compute in H; discriminate |].
    intros _ _. vm_compute. reflexivity.
Qed.

Lemma effective_mean_composition_witness :
  target_mean "Engineering" "0-1y" "Yes" "Q10_CareerPath" = Ok (2.8 + -0.1 + -0.2 + 0)%float /\
  adjusted_mean 3.0 0.3 "1-3y" "No" "Q06_Tools" = 3.3%float.
Proof.
  destruct (effective_mean_composition (R := Demo.lcg_lib) "Engineering" "0-1y" "Yes"
              ("Q10_CareerPath", "I see a clear career path here"))
    as [(base & Hb & Ht & _) H33].
  { apply (bool_decide_unpack _). vm_compute. reflexivity. }
  split.
  - simpl in Ht, Hb. rewrite Ht. vm_compute in Hb. injection Hb as <-.
    vm_compute. reflexivity.
  - vm_compute. reflexivity.
Defined.

(** ** The eNPS mean *)

Lemma enps_mean_unfold s dept :
  1 <= s <= 5 ->
  enps_mean s dept = Ok (F.of_Z (s - 1) * 2.5 + dept_shift_spec dept + 4.0)%float.
Proof.
  intros Hs. unfold enps_mean, dept_shift_spec. rewrite of_int_score by lia.
  repeat (case_decide; [subst dept; reflexivity |]).
  rewrite !lookup_insert_ne, lookup_singleton_ne by congruence. reflexivity.
Qed.

(** C3, as the specification states it, fails at its own example: for an
    overall engagement of [5] in Engineering the mean is [14.3], one whole
    point above the [13.3] that the specification gives. *)
Lemma enps_mean_engineering_not_13_3 :
  enps_mean 5 "Engineering" = Ok 14.3%float /\
  enps_mean 5 "Engineering" <> Ok 13.3%float /\
  holds_on_run (enps_mean 5 "Engineering") (fun mu => (14 <? mu)%float = true).
Proof.
  assert (H : enps_mean 5 "Engineering" = Ok 14.3%float) by (vm_compute; reflexivity).
  rewrite H. split; [reflexivity |]. split; [| reflexivity].
  intros E. assert (E' : 14.3%float = 13.3%float) by congruence.
  apply Leibniz.eqb_spec in E'. vm_compute in E'. discriminate.
Qed.

(** C3, amended.  For every overall-engagement score in [1..5] and every
    department the mean of the eNPS sample is [(s - 1) * 2.5] plus the
    department's shift ([0.0] outside the six named departments) plus
    [4.0], where the product is one of the exact values
    [0, 2.5, 5, 7.5, 10]; for [s = 5] in Engineering the mean is [14.3];
    whatever the mean, the returned integer lies in [0..10]. *)
Theorem enps_mean_composition {R : RandomLib} (s : Z) (dept : string) (st : rng) :
  1 <= s <= 5 ->
  enps_mean s dept = Ok (F.of_Z (s - 1) * 2.5 + dept_shift_spec dept + 4.0)%float /\
  [0; 2.5; 5; 7.5; 10]%float !! Z.to_nat (s - 1) = Some (F.of_Z (s - 1) * 2.5)%float /\
  (dept ∉ ["Engineering"; "Sales"; "Customer Support"; "Operations"; "Finance";
           "HR / People"] -> dept_shift_spec dept = 0%float) /\
  enps_mean 5 "Engineering" = Ok 14.3%float /\
  (forall v st', generate_enps_from_engagement s dept st = Ok (v, st') -> 0 <= v <= 10).
Proof.
  intros Hs. split; [now apply enps_mean_unfold |]. split; [| split; [| split]].
  - assert (Hc : s = 1 \/ s = 2 \/ s = 3 \/ s = 4 \/ s = 5) by lia.
    destruct Hc as [-> | [-> | [-> | [-> | ->]]]]; vm_compute; reflexivity.
  - rewrite !not_elem_of_cons. intros (? & ? & ? & ? & ? & ? & _).
    unfold dept_shift_spec. repeat (case_decide; [contradiction |]). reflexivity.
  - vm_compute. reflexivity.
  - intros v st'. apply generate_enps_range.
Qed.

Lemma enps_mean_composition_witness :
  enps_mean 3 "Customer Support" = Ok (5 + -0.6 + 4)%float /\
  holds_on_run (generate_enps_from_engagement (R := Demo.lcg_lib) 3 "Customer Support"
                  (Rng (py_seed 42) (np_seed 42)))
               (fun out => 0 <= out.1 <= 10).
Proof.
  assert (Hs : 1 <= 3 <= 5) by lia.
  destruct (enps_mean_composition (R := Demo.lcg_lib) 3 "Customer Support"
              (Rng (py_seed 42) (np_seed 42)) Hs) as (Hm & _ & _ & _ & Hr).
  split.
  - rewrite Hm. vm_compute. reflexivity.
  - apply holds_on_run_intro; [vm_compute; reflexivity |].
    intros [v st'] Hrun. exact (Hr v st' Hrun).
Defined.

(** ** Respondent identifiers *)

Lemma str_lt_trans a b c : str_lt a b -> str_lt b c -> str_lt a c.
Proof.
  unfold str_lt. change String.compare with String_as_OT.cmp.
  rewrite !String_as_OT.cmp_lt. apply String_as_OT.lt_trans.
Qed.

Lemma str_lt_irrefl a : ~ str_lt a a.
Proof.
  unfold str_lt. intros H. pose proof (String.compare_antisym a a) as E.
  rewrite H in E. discriminate.
Qed.

(** A property checked on every index from [1] to [n]. *)
Lemma check_indices (P : Z -> bool) (n : Z) :
  forallb (fun k => P (Z.of_nat k)) (seq 1 (Z.to_nat n)) = true ->
  forall i, 1 <= i <= n -> P i = true.
Proof.
  intros Hall i Hi. rewrite forallb_forall in Hall.
  specialize (Hall (Z.to_nat i)). rewrite Z2Nat.id in Hall by lia.
  apply Hall, in_seq. lia.
Qed.

Lemma pretty_N_char_digit (d : Z) : 0 <= d <= 9 -> pretty_N_char (Z.to_N d) = digit d.
Proof.
  intros Hd.
  assert (H : d = 0 \/ d = 1 \/ d = 2 \/ d = 3 \/ d = 4 \/ d = 5 \/ d = 6 \/ d = 7 \/ d = 8
              \/ d = 9) by lia.
  repeat (destruct H as [-> | H]; [reflexivity |]). subst d. reflexivity.
Qed.

Lemma digit_not_sign (d : Z) :
  0 <= d <= 9 -> Ascii.eqb (digit d) "+" || Ascii.eqb (digit d) "-" = false.
Proof.
  intros Hd.
  assert (H : d = 0 \/ d = 1 \/ d = 2 \/ d = 3 \/ d = 4 \/ d = 5 \/ d = 6 \/ d = 7 \/ d = 8
              \/ d = 9) by lia.
  repeat (destruct H as [-> | H]; [reflexivity |]). subst d. reflexivity.
Qed.

Lemma mod10_range (i : Z) : 0 <= i mod 10 <= 9.
Proof. pose proof (Z.mod_pos_bound i 10). lia. Qed.

(** One step of the decimal expansion that [str] performs. *)
Lemma pretty_go_digit (i : Z) (s : string) :
  0 < i ->
  pretty_N_go (Z.to_N i) s = pretty_N_go (Z.to_N (i / 10)) (String (digit (i mod 10)) s).
Proof.
  intros Hi. rewrite pretty_N_go_step by lia.
  rewrite <- pretty_N_char_digit by apply mod10_range.
  rewrite Z2N.inj_div, Z2N.inj_mod by lia. reflexivity.
Qed.

Lemma str_of_int_positive (i : Z) : 0 < i -> str_of_int i = pretty_N_go (Z.to_N i) "".
Proof.
  intros Hi. destruct i as [| p | p]; try lia.
  unfold str_of_int, pretty, pretty_Z, pretty, pretty_N. simpl Z.to_N.
  destruct (decide (N.pos p = 0%N)); [discriminate | reflexivity].
Qed.

Lemma div_zero_iff (i k : Z) : 0 <= i -> 0 < k -> (i / k = 0 <-> i < k).
Proof. intros Hi Hk. rewrite Z.div_small_iff by lia. lia. Qed.

Lemma zfill4_digits (i : Z) (s : string) :
  str_len s < 4 ->
  zfill 4 (String (digit (i mod 10)) s)
  = zeros (Z.to_nat (3 - str_len s)) +:+ String (digit (i mod 10)) s.
Proof.
  intros Hs. unfold zfill. rewrite digit_not_sign by apply mod10_range.
  unfold str_len. simpl String.length. do 2 f_equal. lia.
Qed.

Lemma pretty_go_digit_at (i k : Z) (s : string) :
  0 < k -> k <= i ->
  pretty_N_go (Z.to_N (i / k)) s
  = pretty_N_go (Z.to_N (i / (k * 10))) (String (digit (i / k mod 10)) s).
Proof.
  intros Hk Hi. rewrite pretty_go_digit by (apply Z.div_str_pos; lia).
  rewrite Z.div_div by lia. reflexivity.
Qed.

Lemma respondent_id_four_digits i :
  1 <= i <= 9999 -> respondent_id i = "R" +:+ four_digits i.
Proof.
  intros Hi. unfold respondent_id, four_digits. f_equal.
  rewrite str_of_int_positive by lia.
  rewrite pretty_go_digit by lia.
  destruct (Z.eq_dec (i / 10) 0) as [E1 | E1].
  { rewrite E1, pretty_N_go_0, zfill4_digits by (unfold str_len; simpl; lia).
    apply div_zero_iff in E1; [| lia ..].
    rewrite (Z.div_small i 1000), (Z.div_small i 100) by lia. reflexivity. }
  rewrite div_zero_iff in E1 by lia.
  rewrite (pretty_go_digit_at i 10) by lia. change (10 * 10) with 100.
  destruct (Z.eq_dec (i / 100) 0) as [E2 | E2].
  { rewrite E2, pretty_N_go_0, zfill4_digits by (unfold str_len; simpl; lia).
    apply div_zero_iff in E2; [| lia ..].
    rewrite (Z.div_small i 1000) by lia. reflexivity. }
  rewrite div_zero_iff in E2 by lia.
  rewrite (pretty_go_digit_at i 100) by lia. change (100 * 10) with 1000.
  destruct (Z.eq_dec (i / 1000) 0) as [E3 | E3].
  { rewrite E3, pretty_N_go_0, zfill4_digits by (unfold str_len; simpl; lia). reflexivity. }
  rewrite div_zero_iff in E3 by lia.
  rewrite (pretty_go_digit_at i 1000) by lia. change (1000 * 10) with 10000.
  rewrite (Z.div_small i 10000) by lia.
  rewrite pretty_N_go_0, zfill4_digits by (unfold str_len; simpl; lia). reflexivity.
Qed.

Lemma digit_compare (a b : Z) :
  0 <= a <= 9 -> 0 <= b <= 9 -> Ascii.compare (digit a) (digit b) = Z.compare a b.
Proof.
  intros Ha Hb.
  assert (H : a = 0 \/ a = 1 \/ a = 2 \/ a = 3 \/ a = 4 \/ a = 5 \/ a = 6 \/ a = 7 \/ a = 8
              \/ a = 9) by lia.
  assert (H' : b = 0 \/ b = 1 \/ b = 2 \/ b = 3 \/ b = 4 \/ b = 5 \/ b = 6 \/ b = 7 \/ b = 8
               \/ b = 9) by lia.
  clear Ha Hb.
  destruct H as [-> | [-> | [-> | [-> | [-> | [-> | [-> | [-> | [-> | ->]]]]]]]]];
    destruct H' as [-> | [-> | [-> | [-> | [-> | [-> | [-> | [-> | [-> | ->]]]]]]]]];
    reflexivity.
Qed.

Lemma four_digits_value (i : Z) :
  0 <= i <= 9999 ->
  i = 1000 * (i / 1000 mod 10) + 100 * (i / 100 mod 10) + 10 * (i / 10 mod 10) + i mod 10.
Proof. intros Hi. Z.to_euclidean_division_equations. lia. Qed.

Lemma string_compare_cons c1 s1 c2 s2 :
  String.compare (String c1 s1) (String c2 s2)
  = match Ascii.compare c1 c2 with Eq => String.compare s1 s2 | ne => ne end.
Proof. reflexivity. Qed.

Lemma four_digits_increasing (i j : Z) :
  0 <= i -> i < j -> j <= 9999 -> str_lt ("R" +:+ four_digits i) ("R" +:+ four_digits j).
Proof.
  intros Hi Hij Hj.
  pose proof (four_digits_value i ltac:(lia)) as Vi.
  pose proof (four_digits_value j ltac:(lia)) as Vj.
  unfold str_lt, four_digits.
  change ("R" +:+ ?s) with (String "R" s).
  rewrite !string_compare_cons.
  change (Ascii.compare "R" "R") with Eq. cbv iota.
  rewrite !digit_compare by apply mod10_range.
  change (String.compare "" "") with Eq.
  pose proof (mod10_range (i / 1000)). pose proof (mod10_range (j / 1000)).
  pose proof (mod10_range (i / 100)). pose proof (mod10_range (j / 100)).
  pose proof (mod10_range (i / 10)). pose proof (mod10_range (j / 10)).
  pose proof (mod10_range i). pose proof (mod10_range j).
  remember (i / 1000 mod 10) as i3 eqn:E; clear E.
  remember (j / 1000 mod 10) as j3 eqn:E; clear E.
  remember (i / 100 mod 10) as i2 eqn:E; clear E.
  remember (j / 100 mod 10) as j2 eqn:E; clear E.
  remember (i / 10 mod 10) as i1 eqn:E; clear E.
  remember (j / 10 mod 10) as j1 eqn:E; clear E.
  remember (i mod 10) as i0 eqn:E; clear E.
  remember (j mod 10) as j0 eqn:E; clear E.
  destruct (Z.compare_spec i3 j3); [| reflexivity | lia].
  destruct (Z.compare_spec i2 j2); [| reflexivity | lia].
  destruct (Z.compare_spec i1 j1); [| reflexivity | lia].
  destruct (Z.compare_spec i0 j0); [lia | reflexivity | lia].
Qed.

Lemma respondent_id_increasing i j :
  1 <= i -> i < j -> j <= 9999 -> str_lt (respondent_id i) (respondent_id j).
Proof.
  intros Hi Hij Hj. rewrite !respondent_id_four_digits by lia.
  apply four_digits_increasing; lia.
Qed.

Lemma range1_spec n i : i ∈ range1 n <-> 1 <= i <= n.
Proof.
  unfold range1. rewrite list_elem_of_fmap. split.
  - intros (k & -> & Hk). apply list_elem_of_In, in_seq in Hk. lia.
  - intros Hi. exists (Z.to_nat (i - 1)). split; [lia |].
    apply list_elem_of_In, in_seq. lia.
Qed.

Lemma range1_sorted n : StronglySorted Z.lt (range1 n).
Proof.
  unfold range1. generalize 0%nat as start.
  induction (Z.to_nat n) as [| k IH]; intros start; simpl; constructor.
  - apply IH.
  - apply List.Forall_forall. intros x Hx. apply in_map_iff in Hx as (y & <- & Hy).
    apply in_seq in Hy. lia.
Qed.

Lemma range1_length n : length (range1 n) = Z.to_nat n.
Proof. unfold range1. now rewrite length_map, length_seq. Qed.

Lemma ids_sorted (l : list Z) :
  StronglySorted Z.lt l -> Forall (fun i => 1 <= i <= 9999) l ->
  StronglySorted str_lt (map respondent_id l).
Proof.
  induction 1 as [| i l Hs IH Hlt]; intros Hb; simpl; constructor.
  - apply IH. now inversion Hb.
  - inversion Hb as [| ? ? Hi Hl]; subst.
    rewrite List.Forall_forall in Hlt, Hl |- *. intros s Hs'.
    apply in_map_iff in Hs' as (j & <- & Hj).
    apply respondent_id_increasing; [lia | now apply Hlt | now apply Hl].
Qed.

Lemma sorted_NoDup (l : list string) : StronglySorted str_lt l -> NoDup l.
Proof.
  induction 1 as [| s l Hs IH Hlt]; constructor; [| exact IH].
  intros Hin. rewrite List.Forall_forall in Hlt.
  apply list_elem_of_In in Hin. exact (str_lt_irrefl s (Hlt s Hin)).
Qed.

Lemma range1_lookup (n : Z) (k : nat) (i : Z) :
  range1 n !! k = Some i <-> i = Z.of_nat k + 1 /\ (k < Z.to_nat n)%nat.
Proof.
  unfold range1. rewrite list_lookup_fmap. split.
  - destruct (seq 0 (Z.to_nat n) !! k) as [j |] eqn:E; [| discriminate].
    apply lookup_seq in E as [-> Hk]. intros [= <-]. split; [lia | exact Hk].
  - intros [-> Hk]. rewrite (lookup_seq_lt _ _ _ Hk). reflexivity.
Qed.

(** The row at position [k] carries the identifier of the index [k + 1]. *)
Lemma rows_identifiers (n : Z) (rows : list row) :
  Forall2 row_facts (range1 n) rows ->
  length rows = Z.to_nat n /\
  forall (k : nat) r, rows !! k = Some r ->
    (k < Z.to_nat n)%nat /\
    RespondentID r = Some (VStr (respondent_id (Z.of_nat k + 1))).
Proof.
  intros Hrows. split.
  - rewrite <- (Forall2_length _ _ _ Hrows). apply range1_length.
  - intros k r Hr.
    destruct (Forall2_lookup_r _ _ _ _ _ Hrows Hr) as (i & Hi & Hfacts).
    apply range1_lookup in Hi as [-> Hk]. split; [exact Hk | apply Hfacts].
Qed.

(** C4.  When at most 9999 respondents are configured (the script
    configures 180), a run returns one row for each index [i] of [1..N], in
    this order: the row at position [i] carries the identifier made of the
    letter [R] and the four decimal digits of [i], so the first is [R0001];
    the identifiers are strictly increasing in the order of strings along
    the rows, and pairwise distinct. *)
Theorem respondent_ids_sequence {R : RandomLib}
    (c : config) (st st' : rng) (rows : list row) :
  N_RESPONSES c <= 9999 ->
  main_with c st = Ok (rows, st') ->
  length rows = Z.to_nat (N_RESPONSES c) /\
  (forall i, 1 <= i <= N_RESPONSES c ->
     exists r, rows !! Z.to_nat (i - 1) = Some r /\
               RespondentID r = Some (VStr ("R" +:+ four_digits i))) /\
  (forall r, rows !! 0%nat = Some r -> RespondentID r = Some (VStr "R0001")) /\
  (forall (j k : nat) rj rk,
     (j < k)%nat -> rows !! j = Some rj -> rows !! k = Some rk ->
     exists s t, RespondentID rj = Some (VStr s) /\ RespondentID rk = Some (VStr t) /\
                 str_lt s t) /\
  NoDup (map RespondentID rows).
Proof.
  intros Hn Hmain. apply main_with_rows, rows_identifiers in Hmain as [Hlen Hids].
  split; [exact Hlen |]. split; [| split; [| split]].
  - intros i Hi.
    destruct (rows !! Z.to_nat (i - 1)) as [r |] eqn:Er.
    2:{ apply lookup_ge_None in Er. lia. }
    exists r. split; [reflexivity |].
    destruct (Hids _ _ Er) as [_ ->].
    replace (Z.of_nat (Z.to_nat (i - 1)) + 1) with i by lia.
    rewrite respondent_id_four_digits by lia. reflexivity.
  - intros r Hr. destruct (Hids _ _ Hr) as [_ ->]. reflexivity.
  - intros j k rj rk Hjk Hj Hk.
    destruct (Hids _ _ Hj) as [Hj' ->], (Hids _ _ Hk) as [Hk' ->].
    eexists _, _. split; [reflexivity |]. split; [reflexivity |].
    apply respondent_id_increasing; lia.
  - apply NoDup_alt. intros j k v Hj Hk.
    rewrite list_lookup_fmap in Hj, Hk.
    destruct (rows !! j) as [rj |] eqn:Ej; [| discriminate].
    destruct (rows !! k) as [rk |] eqn:Ek; [| discriminate].
    destruct (Hids _ _ Ej) as [Hj' Ij], (Hids _ _ Ek) as [Hk' Ik].
    simpl in Hj, Hk. rewrite Ij in Hj. rewrite Ik in Hk.
    assert (E : respondent_id (Z.of_nat j + 1) = respondent_id (Z.of_nat k + 1)) by congruence.
    destruct (Nat.lt_trichotomy j k) as [Hlt | [Heq | Hgt]]; [exfalso | exact Heq | exfalso].
    + apply (str_lt_irrefl (respondent_id (Z.of_nat k + 1))).
      rewrite <- E at 1. apply respondent_id_increasing; lia.
    + apply (str_lt_irrefl (respondent_id (Z.of_nat j + 1))).
      rewrite E at 1. apply respondent_id_increasing; lia.
Qed.

Lemma respondent_ids_sequence_witness :
  holds_on_run (main (R := Demo.lcg_lib) Demo.lcg_start)
    (fun out =>
       length out.1 = 180%nat /\
       (exists r, out.1 !! 179%nat = Some r /\ RespondentID r = Some (VStr "R0180")) /\
       NoDup (map RespondentID out.1)).
Proof.
  apply holds_on_run_intro; [exact lcg_main_ok |].
  intros [rows st'] Hmain.
  assert (Hn : N_RESPONSES default_config <= 9999) by (simpl; lia).
  destruct (respondent_ids_sequence (R := Demo.lcg_lib) default_config Demo.lcg_start st'
              rows Hn Hmain) as (Hlen & Hids & _ & _ & Hnd).
  split; [exact Hlen |]. split; [| exact Hnd].
  apply (Hids 180). simpl. lia.
Defined.

(** Beyond 9999 the identifier grows to five digits and the string order
    no longer follows the generation order. *)
Example respondent_id_10000 :
  respondent_id 10000 = "R10000" /\ str_lt (respondent_id 10000) (respondent_id 9999).
Proof. split; reflexivity. Qed.

Example respondent_id_examples :
  respondent_id 1 = "R0001" /\ respondent_id 2 = "R0002" /\ respondent_id 180 = "R0180".
Proof. repeat split; reflexivity. Qed.

(** ** Submission times *)

Lemma to_int_is_truncation x z : F.to_int x = Ok z -> is_truncation x z.
Proof.
  unfold F.to_int, is_truncation.
  destruct (Prim2SF x) as [s | s | | s m e]; try discriminate; intros [= <-]; [reflexivity |].
  unfold F.trunc_finite, F.div2k_trunc. cbv zeta.
  destruct (Z.leb_spec 0 e) as [He | He].
  - rewrite (Z.max_r 0 e), (Z.max_l 0 (- e)) by lia. rewrite Z.pow_0_r.
    assert (Hp : 0 < 2 ^ e) by (apply Z.pow_pos_nonneg; lia).
    destruct s; rewrite ?Z.abs_opp, Z.abs_eq by nia; split; (lia || reflexivity).
  - rewrite (Z.max_l 0 e), (Z.max_r 0 (- e)) by lia. rewrite Z.pow_0_r, Z.mul_1_r.
    assert (Hp : 0 < 2 ^ (- e)) by (apply Z.pow_pos_nonneg; lia).
    pose proof (Z.div_pos (Z.pos m) _ ltac:(lia) Hp) as Hq.
    pose proof (Z.mul_div_le (Z.pos m) _ Hp) as Hlo.
    pose proof (Z.mul_succ_div_gt (Z.pos m) _ Hp) as Hhi.
    destruct s; rewrite ?Z.abs_opp, Z.abs_eq by lia; split; (nia || reflexivity).
Qed.

Lemma datetime_eqb_eq a b : datetime_eqb a b = true -> a = b.
Proof.
  unfold datetime_eqb. rewrite !andb_true_iff, !Z.eqb_eq.
  destruct a, b. simpl. intros [[[[[-> ->] ->] ->] ->] ->]. reflexivity.
Qed.

Lemma same_day_timestamps m :
  0 <= m < 900 ->
  Calendar.add_minutes (START_DATE default_config) m
  = Ok (Datetime 2025 11 3 (9 + m / 60) (m mod 60) 0) /\
  Calendar.strftime_minutes (Datetime 2025 11 3 (9 + m / 60) (m mod 60) 0)
  = same_day_timestamp m.
Proof.
  intros Hm. split; [| reflexivity].
  pose (check := fun k =>
    match Calendar.add_minutes (START_DATE default_config) (k - 1) with
    | Ok t => datetime_eqb t (Datetime 2025 11 3 (9 + (k - 1) / 60) ((k - 1) mod 60) 0)
    | Raise _ => false
    end).
  assert (H : check (m + 1) = true).
  { apply (check_indices check 900); [vm_compute; reflexivity | lia]. }
  unfold check in H. replace (m + 1 - 1) with m in H by lia.
  destruct (Calendar.add_minutes _ m) as [t | e]; [| discriminate].
  f_equal. now apply datetime_eqb_eq.
Qed.

(** C5, as the specification states it, fails: the offset is not rounded
    to the nearest minute.  With an exponential sample of [6.75] the first
    respondent is [0.84375] minutes after the start; the script stamps
    [09:00], rounding to the nearest minute would give [09:01]. *)
Lemma timestamp_is_not_rounded :
  let lib := Demo.constant_lib 0 1.5 in
  let st := Rng (R := lib) (py_seed 42) (np_seed 42) in
  (np_exponential 4.5 (np st)).1 = 6.75%float /\
  generate_timestamp (START_DATE default_config) 1 st = Ok ("2025-11-03 09:00", st) /\
  timestamp_of_sample_rounded (START_DATE default_config) 1 6.75 = Ok "2025-11-03 09:01".
Proof. vm_compute. repeat split; reflexivity. Qed.

(** C5, amended.  The timestamp of respondent [i] is the start instant
    plus a whole number of minutes, formatted to the minute; the number of
    minutes is the product of a fresh exponential sample (scale [4.5]) with
    [i / 8], truncated toward zero, not rounded to the nearest minute; an
    index too large for a float raises [OverflowError].  For the shipped
    start instant and an offset below fifteen hours the text is
    [2025-11-03 HH:MM] with [HH = 9 + minutes / 60] and
    [MM = minutes mod 60]. *)
Theorem timestamp_truncates_minutes {R : RandomLib} (c : config) (i : Z) (st : rng) :
  let sample := (np_exponential 4.5 (np st)).1 in
  let st1 := Rng (py st) (np_exponential 4.5 (np st)).2 in
  let x := (sample * F.of_Z i / F.of_Z 8)%float in
  generate_timestamp (START_DATE c) i st
  = match F.of_int i with
    | Raise e => Raise e
    | Ok _ =>
        match F.to_int x with
        | Raise e => Raise e
        | Ok minutes =>
            match Calendar.add_minutes (START_DATE c) minutes with
            | Raise e => Raise e
            | Ok t => Ok (Calendar.strftime_minutes t, st1)
            end
        end
    end /\
  (forall minutes, F.to_int x = Ok minutes ->
     is_truncation x minutes /\
     (0 <= minutes < 900 ->
      generate_timestamp (START_DATE default_config) i st
      = Ok (same_day_timestamp minutes, st1))).
Proof.
  intros sample st1 x.
  assert (Hrun : forall start,
    generate_timestamp start i st
    = match F.of_int i with
      | Raise e => Raise e
      | Ok _ =>
          match F.to_int x with
          | Raise e => Raise e
          | Ok minutes =>
              match Calendar.add_minutes start minutes with
              | Raise e => Raise e
              | Ok t => Ok (Calendar.strftime_minutes t, st1)
              end
          end
      end).
  { intros start. unfold generate_timestamp.
    rewrite (bind_of_ok _ _ _ _ _ (np_random_exponential_run 4.5 st)).
    fold sample st1. unfold lift, timestamp_of_sample. rewrite of_int_run.
    destruct (is_infinity (F.of_Z i)); [reflexivity |]. fold x.
    destruct (F.to_int x) as [minutes | e]; [| reflexivity].
    destruct (Calendar.add_minutes start minutes); reflexivity. }
  split; [apply Hrun |].
  intros minutes Hm. split; [now apply to_int_is_truncation |].
  intros Hsame. rewrite Hrun, of_int_run.
  destruct (is_infinity (F.of_Z i)) eqn:Hinf.
  { pose proof (to_int_product_infinity sample _ Hinf) as Hno.
    fold x in Hno. rewrite Hm in Hno. discriminate. }
  rewrite Hm.
  destruct (same_day_timestamps minutes Hsame) as [-> ->]. reflexivity.
Qed.

Lemma timestamp_truncates_minutes_witness :
  generate_timestamp (R := Demo.constant_lib 0 1.5) (START_DATE default_config) 20
    (Rng (py_seed 42) (np_seed 42))
  = Ok ("2025-11-03 09:16", Rng (py_seed 42) (np_seed 42)).
Proof.
  destruct (timestamp_truncates_minutes (R := Demo.constant_lib 0 1.5) default_config 20
              (Rng (py_seed 42) (np_seed 42))) as [_ H].
  destruct (H 16) as [_ Hsame]; [vm_compute; reflexivity |].
  rewrite Hsame by lia. reflexivity.
Defined.

(** ** The comment gates *)

Lemma templates_nonempty s :
  s ∈ WORKING_WELL_TEMPLATES ++ IMPROVE_FIRST_TEMPLATES -> s <> "".
Proof.
  revert s. apply Forall_forall. apply (bool_decide_unpack _). vm_compute. reflexivity.
Qed.

Section Gates.
Context {R : RandomLib}.

(** [random.random() < 1.0] always holds and [random.random() < 0.0] never. *)
Lemma gate_forced st :
  ((py_random (py st)).1 <? 1)%float = true /\ ((py_random (py st)).1 <? 0)%float = false.
Proof.
  destruct (py_random_unit (py st)) as [H0 H1]. split; [exact H1 |].
  now apply leb_zero_not_ltb.
Qed.

(** The row that [respondent] returns comes out of [open_comments] called
    with the gate probabilities [0.78] and [0.70]. *)
Lemma respondent_comments c dept_items dept_w i st r st' :
  respondent c dept_items dept_w i st = Ok (r, st') ->
  exists dept r1 s, open_comments 0.78 0.70 dept r1 s = Ok (r, st').
Proof.
  unfold respondent. intros Hrun.
  do 9 (apply bind_ok in Hrun as (? & ? & _ & Hrun)). eauto.
Qed.

End Gates.

(** C6.  Each comment field is decided by its own draw of
    [random.random()]: the text is a non-empty template of its pool when the
    draw is below the gate probability and the empty string otherwise; on
    the improve field of the two high-workload departments a further draw
    below [0.55] forces the workload comment.  With a gate probability of
    [1.0] the field is always a non-empty member of its pool, with [0.0] it
    is always the empty string.  The script calls the selector with the
    probabilities [0.78] and [0.70]. *)
Theorem comment_gates {R : RandomLib}
    (p_working p_improve : float) (dept : string) (r : row) (st : rng) :
  let u1 := (py_random (py st)).1 in
  let u2 := (py_random (py (working_state p_working st))).1 in
  let u3 := (py_random (py (after_random (working_state p_working st)))).1 in
  (exists w im st',
     open_comments p_working p_improve dept r st
     = Ok (odict_set (odict_set r "Open_WhatsWorking" (VStr w))
                     "Open_ImproveFirst" (VStr im), st') /\
     (if (u1 <? p_working)%float then w ∈ WORKING_WELL_TEMPLATES /\ w <> "" else w = "") /\
     (if (u2 <? p_improve)%float then im ∈ IMPROVE_FIRST_TEMPLATES /\ im <> "" else im = "") /\
     ((u2 <? p_improve)%float = true ->
      str_in dept ["Customer Support"; "Operations"] = true ->
      (u3 <? 0.55)%float = true -> im = WORKLOAD_COMMENT) /\
     (p_working = 1%float -> w ∈ WORKING_WELL_TEMPLATES /\ w <> "") /\
     (p_working = 0%float -> w = "") /\
     (p_improve = 1%float -> im ∈ IMPROVE_FIRST_TEMPLATES /\ im <> "") /\
     (p_improve = 0%float -> im = "")) /\
  (forall c dept_items dept_w i r' st',
     respondent c dept_items dept_w i st = Ok (r', st') ->
     exists dept' r1 s, open_comments 0.78 0.70 dept' r1 s = Ok (r', st')).
Proof.
  intros u1 u2 u3. split; [| intros; eapply respondent_comments; eassumption].
  destruct (open_comments_spec p_working p_improve dept r st)
    as (w & im & st' & Hrun & Hw & Him & Hover).
  fold u1 in Hw. fold u2 in Him, Hover. fold u3 in Hover.
  assert (Hw' : if (u1 <? p_working)%float
                then w ∈ WORKING_WELL_TEMPLATES /\ w <> "" else w = "").
  { destruct (u1 <? p_working)%float; [| exact Hw].
    split; [exact Hw |]. apply templates_nonempty, elem_of_app. now left. }
  assert (Him' : if (u2 <? p_improve)%float
                 then im ∈ IMPROVE_FIRST_TEMPLATES /\ im <> "" else im = "").
  { destruct (u2 <? p_improve)%float; [| exact Him].
    split; [exact Him |]. apply templates_nonempty, elem_of_app. now right. }
  exists w, im, st'. split; [exact Hrun |]. split; [exact Hw' |]. split; [exact Him' |].
  split; [exact Hover |].
  destruct (gate_forced st) as [H1 H0].
  destruct (gate_forced (working_state p_working st)) as [H1' H0'].
  fold u1 in H1, H0. fold u2 in H1', H0'.
  split; [intros ->; now rewrite H1 in Hw' |].
  split; [intros ->; now rewrite H0 in Hw' |].
  split; [intros ->; now rewrite H1' in Him' |].
  intros ->. now rewrite H0' in Him'.
Qed.

Lemma comment_gates_witness :
  let st := Rng (R := Demo.lcg_lib) (py_seed 42) (np_seed 42) in
  (exists w st', open_comments 1 0 "Operations" [] st
                 = Ok ([("Open_WhatsWorking", VStr w); ("Open_ImproveFirst", VStr "")], st')
                 /\ w ∈ WORKING_WELL_TEMPLATES) /\
  (exists im st', open_comments 0 1 "Operations" [] st
                  = Ok ([("Open_WhatsWorking", VStr ""); ("Open_ImproveFirst", VStr im)], st')
                  /\ im ∈ IMPROVE_FIRST_TEMPLATES).
Proof.
  intros st. split.
  - destruct (comment_gates (R := Demo.lcg_lib) 1 0 "Operations" [] st)
      as [(w & im & st' & Hrun & _ & _ & _ & Hw1 & _ & _ & Him0) _].
    exists w, st'. rewrite Hrun, (Him0 eq_refl). split; [reflexivity |].
    apply (Hw1 eq_refl).
  - destruct (comment_gates (R := Demo.lcg_lib) 0 1 "Operations" [] st)
      as [(w & im & st' & Hrun & _ & _ & _ & _ & Hw0 & Him1 & _) _].
    exists im, st'. rewrite Hrun, (Hw0 eq_refl). split; [reflexivity |].
    apply (Him1 eq_refl).
Defined.

(** ** The improve field stays inside its pool *)

(** C10.  In every generated row [Open_ImproveFirst] is the empty string
    or one of [IMPROVE_FIRST_TEMPLATES]; the comment that the [0.55]
    override forces for Customer Support and Operations is, character for
    character, the second template of that pool. *)
Theorem improve_comment_in_pool {R : RandomLib}
    (c : config) (st st' : rng) (rows : list row) :
  main_with c st = Ok (rows, st') ->
  Forall (fun r => exists im, Open_ImproveFirst r = Some (VStr im) /\
                              (im = "" \/ im ∈ IMPROVE_FIRST_TEMPLATES)) rows /\
  IMPROVE_FIRST_TEMPLATES !! 1%nat = Some WORKLOAD_COMMENT /\
  WORKLOAD_COMMENT = "Reduce workload and improve staffing/planning.".
Proof.
  intros Hmain. split; [| split; reflexivity].
  apply main_with_rows in Hmain.
  induction Hmain as [| i r idx rows' Hr _ IH]; constructor; [| exact IH].
  apply Hr.
Qed.

Lemma improve_comment_in_pool_witness :
  holds_on_run (main (R := Demo.lcg_lib) Demo.lcg_start)
    (fun out =>
       Forall (fun r => exists im, Open_ImproveFirst r = Some (VStr im) /\
                                   (im = "" \/ im ∈ IMPROVE_FIRST_TEMPLATES)) out.1).
Proof.
  apply holds_on_run_intro; [exact lcg_main_ok |].
  intros [rows st'] Hmain.
  exact (proj1 (improve_comment_in_pool (R := Demo.lcg_lib) default_config
                  Demo.lcg_start st' rows Hmain)).
Defined.

(** ** The schema of a row *)

(** C7.  Every generated row has the same keys in the same order: the
    seven leading columns, the twelve question codes, the two comment
    columns.  The question columns hold Likert text labels, not integers,
    and both comment columns hold a string, which may be empty but is never
    missing. *)
Theorem rows_share_schema {R : RandomLib}
    (c : config) (st st' : rng) (rows : list row) :
  main_with c st = Ok (rows, st') ->
  SCHEMA = [ "RespondentID"; "SubmissionTime"; "Department"; "Location"; "Tenure";
             "Manager"; "eNPS_0_10"; "Q01_Strategy"; "Q02_Leadership_Comms";
             "Q03_Manager_Support"; "Q04_Feedback"; "Q05_Workload"; "Q06_Tools";
             "Q07_Recognition"; "Q08_Collaboration"; "Q09_PsychSafety"; "Q10_CareerPath";
             "Q11_Stay12Months"; "Q12_OverallEngagement"; "Open_WhatsWorking";
             "Open_ImproveFirst" ] /\
  Forall (fun r =>
    odict_keys r = SCHEMA /\
    (forall q, q ∈ map fst QUESTIONS ->
       exists v label, LIKERT_TEXT !! v = Some label /\ odict_lookup r q = Some (VStr label)) /\
    is_text (odict_lookup r "Open_WhatsWorking") /\
    is_text (odict_lookup r "Open_ImproveFirst")) rows.
Proof.
  intros Hmain. split; [reflexivity |].
  apply main_with_rows in Hmain.
  induction Hmain as [| i r idx rows' Hr _ IH]; constructor; [| exact IH].
  destruct Hr as [Hkeys _ _ _ Hlikert (w & Hw & _) (im & Him & _)].
  split; [exact Hkeys |]. split; [| split; [exists w | exists im]; assumption].
  intros q Hq. destruct (Hlikert q Hq) as (v & label & _ & Hl & Hlook). eauto.
Qed.

Lemma rows_share_schema_witness :
  holds_on_run (main (R := Demo.lcg_lib) Demo.lcg_start)
    (fun out => Forall (fun r => odict_keys r = SCHEMA) out.1).
Proof.
  apply holds_on_run_intro; [exact lcg_main_ok |].
  intros [rows st'] Hmain.
  destruct (rows_share_schema (R := Demo.lcg_lib) default_config Demo.lcg_start st' rows
              Hmain) as [_ H].
  eapply Forall_impl; [exact H |]. intros r Hr. apply Hr.
Defined.

(** ** Malformed weights *)

Lemma accumulate_from_length acc ws : length (accumulate_from acc ws) = length ws.
Proof. revert acc. induction ws as [| w ws IH]; intros acc; simpl; [| rewrite IH]; reflexivity. Qed.

Lemma accumulate_length ws : length (accumulate ws) = length ws.
Proof. destruct ws; simpl; [| rewrite accumulate_from_length]; reflexivity. Qed.

Lemma zero_weight_add a b : is_zero_weight a -> is_zero_weight b -> is_zero_weight (a + b)%float.
Proof. intros [-> | ->] [-> | ->]; vm_compute; auto. Qed.

Lemma accumulate_from_zero acc ws :
  is_zero_weight acc -> Forall is_zero_weight ws ->
  Forall is_zero_weight (accumulate_from acc ws).
Proof.
  intros Hacc Hws. revert acc Hacc.
  induction Hws as [| w ws Hw _ IH]; intros acc Hacc; simpl; constructor.
  - now apply zero_weight_add.
  - apply IH. now apply zero_weight_add.
Qed.

Lemma accumulate_zero ws : Forall is_zero_weight ws -> Forall is_zero_weight (accumulate ws).
Proof.
  intros Hws. destruct Hws as [| w ws Hw Hws]; simpl; constructor; [exact Hw |].
  now apply accumulate_from_zero.
Qed.

(** [seq[-1]] is the last element; it raises [IndexError] on the empty list. *)
Lemma getitem_last {A} (l : list A) :
  getitem l (-1) = match last l with Some x => Ok x | None => Raise IndexError end.
Proof.
  unfold getitem, len. change (-1 <? 0) with true. cbv beta iota zeta.
  destruct l as [| x l]; [reflexivity |].
  destruct (Z.ltb_spec (-1 + Z.of_nat (length (x :: l))) 0) as [H | _]; [simpl in H; lia |].
  rewrite last_lookup.
  replace (Z.to_nat (-1 + Z.of_nat (length (x :: l)))) with (Nat.pred (length (x :: l)))
    by (simpl; lia).
  destruct ((x :: l) !! _) eqn:E; [reflexivity |].
  apply lookup_ge_None in E. simpl in E. lia.
Qed.

Section Malformed.
Context {R : RandomLib}.

(** [random.choices] raises on malformed weights, whatever the state of
    the generator, and draws nothing. *)
Lemma random_choices_malformed {A} (items : list A) weights k st :
  malformed items weights ->
  exists e, random_choices items weights k st = Raise e /\
            (e = ValueError \/ e = IndexError /\ items = [] /\ weights = []).
Proof.
  intros Hbad. unfold random_choices.
  destruct (Z.eqb_spec (len (accumulate weights)) (len items)) as [Hlen | Hlen]; simpl.
  2:{ exists ValueError. auto. }
  unfold len in Hlen. rewrite accumulate_length in Hlen.
  destruct Hbad as [Hne | Hzero]; [lia |].
  apply accumulate_zero in Hzero.
  unfold bind, lift. rewrite getitem_last.
  destruct (last (accumulate weights)) as [t |] eqn:El.
  - assert (Ht : is_zero_weight t).
    { rewrite Forall_forall in Hzero. apply Hzero.
      rewrite last_lookup in El. eapply list_elem_of_lookup_2; eassumption. }
    exists ValueError. split; [| auto].
    destruct Ht as [-> | ->]; vm_compute; reflexivity.
  - exists IndexError. split; [reflexivity |]. right. split; [reflexivity |].
    apply last_None in El.
    assert (Hw : weights = []) by (destruct weights; [reflexivity | discriminate]).
    subst weights. split; [| reflexivity].
    destruct items; [reflexivity | simpl in Hlen; lia].
Qed.

Lemma weighted_choice_malformed {A} (items : list A) weights st :
  malformed items weights ->
  exists e, weighted_choice items weights st = Raise e /\
            (e = ValueError \/ e = IndexError /\ items = [] /\ weights = []).
Proof.
  intros Hbad. destruct (random_choices_malformed items weights 1 st Hbad) as (e & He & Hcase).
  exists e. split; [| exact Hcase]. unfold weighted_choice. now apply bind_of_raise.
Qed.

End Malformed.

Lemma odict_lookup_elem {V} (d : odict V) k :
  k ∈ odict_keys d -> exists v, odict_lookup d k = Some v /\ v ∈ map snd d.
Proof.
  induction d as [| [k' v'] d IH]; simpl; intros Hk.
  - now apply elem_of_nil in Hk.
  - destruct (String.eqb_spec k' k) as [-> | Hne].
    + exists v'. split; [reflexivity | left].
    + apply elem_of_cons in Hk as [-> | Hk]; [congruence |].
      destruct (IH Hk) as (v & Hv & Hin). exists v. split; [exact Hv | now right].
Qed.

Lemma mapM_odict_get {V} (d : odict V) ks :
  Forall (fun k => k ∈ odict_keys d) ks ->
  exists vs, mapM_result (odict_get d) ks = Ok vs /\
             Forall (fun v => v ∈ map snd d) vs.
Proof.
  induction 1 as [| k ks Hk _ (vs & Hvs & Hin)]; simpl.
  - exists []. split; [reflexivity | constructor].
  - destruct (odict_lookup_elem d k Hk) as (v & Hv & Hvin).
    unfold odict_get at 1. rewrite Hv, Hvs. exists (v :: vs).
    split; [reflexivity | now constructor].
Qed.

Lemma dept_weights_of_config c :
  exists dept_w,
    mapM_result (odict_get (DEPT_WEIGHTS c)) (odict_keys (DEPT_WEIGHTS c)) = Ok dept_w /\
    Forall (fun w => w ∈ map snd (DEPT_WEIGHTS c)) dept_w.
Proof. apply mapM_odict_get, Forall_forall. auto. Qed.

Section Abort.
Context {R : RandomLib}.

(** With a malformed configuration no respondent can be generated. *)
Lemma respondent_malformed c dept_w i st :
  Forall (fun w => w ∈ map snd (DEPT_WEIGHTS c)) dept_w ->
  config_malformed c ->
  exists e, respondent c (odict_keys (DEPT_WEIGHTS c)) dept_w i st = Raise e.
Proof.
  intros Hw Hbad. unfold respondent.
  destruct (weighted_choice (odict_keys (DEPT_WEIGHTS c)) dept_w st)
    as [[dept s1] | e] eqn:E1; [| exists e; now apply bind_of_raise].
  rewrite (bind_of_ok _ _ _ _ _ E1).
  destruct (weighted_choice (LOCATIONS c) (LOCATION_WEIGHTS c) s1)
    as [[location s2] | e] eqn:E2; [| exists e; now apply bind_of_raise].
  rewrite (bind_of_ok _ _ _ _ _ E2).
  destruct (weighted_choice (TENURE_BANDS c) (TENURE_WEIGHTS c) s2)
    as [[tenure s3] | e] eqn:E3; [| exists e; now apply bind_of_raise].
  exfalso. destruct Hbad as [Hdept | [Hloc | Hten]].
  - assert (Hz : malformed (odict_keys (DEPT_WEIGHTS c)) dept_w).
    { right. rewrite Forall_forall in Hw, Hdept |- *. intros w Hin. apply Hdept, Hw, Hin. }
    destruct (weighted_choice_malformed _ _ st Hz) as (e & He & _). congruence.
  - destruct (weighted_choice_malformed _ _ s1 Hloc) as (e & He & _). congruence.
  - destruct (weighted_choice_malformed _ _ s2 Hten) as (e & He & _). congruence.
Qed.

End Abort.

(** C9.  The weighted sampler raises an exception, and never falls back
    to a uniform choice, when its two lists differ in length or when all
    weights are zero ([ValueError], and [IndexError] only when both lists
    are empty).  When the configured department, location or tenure weights
    are malformed in this way, the iteration for the first respondent
    already raises, on the empty list of rows, so the run ends with that
    exception and returns no row. *)
Theorem malformed_weights_abort {R : RandomLib} {A : Type}
    (items : list A) (weights : list float) (c : config) (st : rng) :
  (malformed items weights ->
   exists e, weighted_choice items weights st = Raise e /\
             (e = ValueError \/ e = IndexError /\ items = [] /\ weights = [])) /\
  (config_malformed c -> 1 <= N_RESPONSES c ->
   exists dept_w e,
     mapM_result (odict_get (DEPT_WEIGHTS c)) (odict_keys (DEPT_WEIGHTS c)) = Ok dept_w /\
     append_respondent c (odict_keys (DEPT_WEIGHTS c)) dept_w [] 1 st = Raise e /\
     generate c st = Raise e /\
     forall st0, exists e', main_with c st0 = Raise e').
Proof.
  split; [apply weighted_choice_malformed |].
  intros Hbad Hn.
  destruct (dept_weights_of_config c) as (dept_w & Hdw & Hin).
  assert (Hfirst : forall s, exists e,
            append_respondent c (odict_keys (DEPT_WEIGHTS c)) dept_w [] 1 s = Raise e).
  { intros s. destruct (respondent_malformed c dept_w 1 s Hin Hbad) as (e & He).
    exists e. unfold append_respondent. now apply bind_of_raise. }
  assert (Hrange : exists rest, range1 (N_RESPONSES c) = 1 :: rest).
  { unfold range1. destruct (Z.to_nat (N_RESPONSES c)) as [| n] eqn:En; [lia |].
    simpl. eauto. }
  destruct Hrange as [rest Hrange].
  assert (Hgen : forall s e,
            append_respondent c (odict_keys (DEPT_WEIGHTS c)) dept_w [] 1 s = Raise e ->
            generate c s = Raise e).
  { intros s e He. unfold generate, bind at 1, lift. rewrite Hdw, Hrange. simpl.
    now apply bind_of_raise. }
  destruct (Hfirst st) as (e & He). exists dept_w, e.
  split; [exact Hdw |]. split; [exact He |]. split; [now apply Hgen |].
  intros st0. rewrite main_with_run. destruct (_ && _); [| eauto].
  destruct (Hfirst (seeded c)) as (e' & He').
  exists e'. now apply Hgen.
Qed.

Lemma malformed_weights_abort_witness :
  weighted_choice (R := Demo.lcg_lib) ["Paris"; "Lyon"; "Remote"] [0; 0; 0]%float
    (Rng (py_seed 42) (np_seed 42)) = Raise ValueError /\
  exists e, main_with (R := Demo.lcg_lib) mismatched_config Demo.lcg_start = Raise e.
Proof.
  pose (st := Rng (R := Demo.lcg_lib) (py_seed 42) (np_seed 42)).
  destruct (malformed_weights_abort (R := Demo.lcg_lib)
              ["Paris"; "Lyon"; "Remote"] [0; 0; 0]%float mismatched_config st)
    as [Hchoice Hrun].
  split.
  - destruct Hchoice as (e & He & [-> | (_ & Habs & _)]); [| exact He | discriminate].
    right. repeat constructor.
  - destruct Hrun as (dept_w & e & _ & _ & _ & He').
    + right. left. left. simpl. lia.
    + simpl. lia.
    + exact (He' Demo.lcg_start).
Defined.

Example mismatched_config_raises :
  main_with (R := Demo.lcg_lib) mismatched_config Demo.lcg_start = Raise ValueError.
Proof. apply raises_intro. vm_compute. reflexivity. Qed.

(** ** Reproducibility

    [main] starts by seeding both generators, so the state in which a
    process finds them does not matter.  Two runs can also be two instances
    of the generators: when a simulation relates their states and every
    primitive returns the same sample from related states, the two runs
    return the same rows. *)


Section Simulation.
Context (R1 R2 : RandomLib).
Variable sim_py : @py_state R1 -> @py_state R2 -> Prop.
Variable sim_np : @np_state R1 -> @np_state R2 -> Prop.

Hypothesis sim_py_random : forall s1 s2, sim_py s1 s2 ->
  (py_random s1).1 = (py_random s2).1 /\ sim_py (py_random s1).2 (py_random s2).2.
Hypothesis sim_py_randbelow : forall n s1 s2, sim_py s1 s2 ->
  (py_randbelow n s1).1 = (py_randbelow n s2).1 /\
  sim_py (py_randbelow n s1).2 (py_randbelow n s2).2.
Hypothesis sim_np_normal : forall loc scale s1 s2, sim_np s1 s2 ->
  (np_normal loc scale s1).1 = (np_normal loc scale s2).1 /\
  sim_np (np_normal loc scale s1).2 (np_normal loc scale s2).2.
Hypothesis sim_np_exponential : forall scale s1 s2, sim_np s1 s2 ->
  (np_exponential scale s1).1 = (np_exponential scale s2).1 /\
  sim_np (np_exponential scale s1).2 (np_exponential scale s2).2.

Local Abbreviation sim_rng := (related_rng sim_py sim_np).
Local Abbreviation sim := (related sim_py sim_np).

Lemma sim_ret {A} (a : A) : sim (ret a) (ret a).
Proof. intros r1 r2 Hr. simpl. auto. Qed.

Lemma sim_raise {A} (e : exn) : sim (raise (A := A) e) (raise e).
Proof. intros r1 r2 Hr. reflexivity. Qed.

Lemma sim_lift {A} (x : result A) : sim (lift x) (lift x).
Proof. intros r1 r2 Hr. destruct x; simpl; auto. Qed.

Lemma sim_bind {A B} (c1 : @M R1 A) (c2 : @M R2 A) (k1 : A -> @M R1 B) (k2 : A -> @M R2 B) :
  sim c1 c2 -> (forall a, sim (k1 a) (k2 a)) -> sim (bind c1 k1) (bind c2 k2).
Proof.
  intros Hc Hk r1 r2 Hr. unfold bind. specialize (Hc r1 r2 Hr).
  destruct (c1 r1) as [[a1 r1'] | e1], (c2 r2) as [[a2 r2'] | e2]; simpl in Hc;
    try contradiction; [| exact Hc].
  destruct Hc as [-> Hr']. now apply Hk.
Qed.

Lemma sim_if {A} (b : bool) (c1 d1 : @M R1 A) (c2 d2 : @M R2 A) :
  sim c1 c2 -> sim d1 d2 -> sim (if b then c1 else d1) (if b then c2 else d2).
Proof. now destruct b. Qed.

Lemma sim_for_each {A B} (b1 : B -> A -> @M R1 B) (b2 : B -> A -> @M R2 B) :
  (forall acc x, sim (b1 acc x) (b2 acc x)) ->
  forall xs acc, sim (for_each b1 xs acc) (for_each b2 xs acc).
Proof.
  intros Hb xs. induction xs as [| x xs IH]; intros acc; simpl.
  - apply sim_ret.
  - apply sim_bind; [apply Hb | apply IH].
Qed.

Lemma sim_random_random : sim random_random random_random.
Proof.
  intros r1 r2 [Hpy Hnp]. rewrite !random_random_run. simpl.
  destruct (sim_py_random _ _ Hpy) as [-> Hs]. repeat split; assumption.
Qed.

Lemma sim_random_randbelow n : sim (random_randbelow n) (random_randbelow n).
Proof.
  intros r1 r2 [Hpy Hnp]. rewrite !random_randbelow_run. simpl.
  destruct (sim_py_randbelow n _ _ Hpy) as [-> Hs]. repeat split; assumption.
Qed.

Lemma sim_np_random_normal loc scale :
  sim (np_random_normal loc scale) (np_random_normal loc scale).
Proof.
  intros r1 r2 [Hpy Hnp]. rewrite !np_random_normal_run. simpl.
  destruct (sim_np_normal loc scale _ _ Hnp) as [-> Hs]. repeat split; assumption.
Qed.

Lemma sim_np_random_exponential scale :
  sim (np_random_exponential scale) (np_random_exponential scale).
Proof.
  intros r1 r2 [Hpy Hnp]. rewrite !np_random_exponential_run. simpl.
  destruct (sim_np_exponential scale _ _ Hnp) as [-> Hs]. repeat split; assumption.
Qed.

Create HintDb sim discriminated.
#[local] Hint Resolve sim_ret sim_raise sim_lift sim_random_random sim_random_randbelow
  sim_np_random_normal sim_np_random_exponential : sim.

(** Steps through a pair of programs of the same shape. *)
Ltac sim_steps :=
  repeat first
    [ solve [auto 2 with sim]
    | simple apply sim_bind; [| intros ?]
    | simple apply sim_if
    | simple apply sim_for_each; intros ? ? ].

Lemma sim_random_choice {A} (seq : list A) : sim (random_choice seq) (random_choice seq).
Proof. unfold random_choice. sim_steps. Qed.

Lemma sim_choices_repeat {A} k (d1 : @M R1 A) (d2 : @M R2 A) :
  sim d1 d2 -> sim (choices_repeat k d1) (choices_repeat k d2).
Proof. intros Hd. induction k as [| k IH]; simpl; sim_steps. Qed.

Lemma sim_weighted_choice {A} (items : list A) weights :
  sim (weighted_choice items weights) (weighted_choice items weights).
Proof.
  unfold weighted_choice, random_choices. sim_steps.
  apply sim_choices_repeat. unfold choices_draw. sim_steps.
Qed.

Lemma sim_likert_from_mean mean : sim (likert_from_mean mean) (likert_from_mean mean).
Proof. unfold likert_from_mean. sim_steps. Qed.

Lemma sim_generate_enps overall dept :
  sim (generate_enps_from_engagement overall dept)
      (generate_enps_from_engagement overall dept).
Proof. unfold generate_enps_from_engagement. sim_steps. Qed.

Lemma sim_generate_timestamp start i :
  sim (generate_timestamp start i) (generate_timestamp start i).
Proof. unfold generate_timestamp. sim_steps. Qed.

#[local] Hint Resolve sim_random_choice sim_weighted_choice sim_likert_from_mean
  sim_generate_enps sim_generate_timestamp : sim.

Lemma sim_sample_answer dept tenure manager answers q :
  sim (sample_answer dept tenure manager answers q)
      (sample_answer dept tenure manager answers q).
Proof. unfold sample_answer. sim_steps. Qed.

Lemma sim_store_label answers r q : sim (store_label answers r q) (store_label answers r q).
Proof. unfold store_label. sim_steps. Qed.

Lemma sim_open_comments pw pi dept r :
  sim (open_comments pw pi dept r) (open_comments pw pi dept r).
Proof. unfold open_comments. sim_steps. Qed.

#[local] Hint Resolve sim_sample_answer sim_store_label sim_open_comments : sim.



Hypothesis sim_py_seed : forall k, sim_py (py_seed k) (py_seed k).
Hypothesis sim_np_seed : forall k, sim_np (np_seed k) (np_seed k).



End Simulation.


(** ** The bisection loop *)

(** The loop of [bisect] never stops for lack of fuel: beyond [hi - lo]
    more fuel changes nothing. *)
Lemma bisect_loop_fuel a x fuel :
  forall lo hi, hi - lo <= Z.of_nat fuel ->
    bisect_loop (S fuel) a x lo hi = bisect_loop fuel a x lo hi.
Proof.
  induction fuel as [| fuel IH]; intros lo hi Hfuel.
  - simpl. destruct (Z.ltb_spec lo hi); [lia | reflexivity].
  - change (bisect_loop (S (S fuel)) a x lo hi)
      with (if lo <? hi then
              match getitem a ((lo + hi) / 2) with
              | Ok a_mid =>
                  if (x <? a_mid)%float then bisect_loop (S fuel) a x lo ((lo + hi) / 2)
                  else bisect_loop (S fuel) a x ((lo + hi) / 2 + 1) hi
              | Raise e => Raise e
              end
            else Ok lo).
    change (bisect_loop (S fuel) a x lo hi)
      with (if lo <? hi then
              match getitem a ((lo + hi) / 2) with
              | Ok a_mid =>
                  if (x <? a_mid)%float then bisect_loop fuel a x lo ((lo + hi) / 2)
                  else bisect_loop fuel a x ((lo + hi) / 2 + 1) hi
              | Raise e => Raise e
              end
            else Ok lo).
    destruct (Z.ltb_spec lo hi) as [Hlt | _]; [| reflexivity].
    assert (Hmid : lo <= (lo + hi) / 2 < hi).
    { split; [apply Z.div_le_lower_bound | apply Z.div_lt_upper_bound]; lia. }
    destruct (getitem a _); [| reflexivity].
    destruct (x <? _)%float; apply IH; lia.
Qed.

Lemma bisect_enough_fuel a x lo hi (extra : nat) :
  0 <= lo ->
  bisect_loop (Z.to_nat (hi - lo) + extra) a x lo hi = bisect a x lo hi.
Proof.
  intros Hlo. unfold bisect. destruct (Z.ltb_spec lo 0); [lia |].
  induction extra as [| extra IH]; [now rewrite Nat.add_0_r |].
  rewrite Nat.add_succ_r, bisect_loop_fuel by lia. exact IH.
Qed.

(** The index that [bisect] returns lies between [lo] and [hi]. *)
Lemma bisect_loop_range a x fuel :
  forall lo hi i, lo <= hi -> bisect_loop fuel a x lo hi = Ok i -> lo <= i <= hi.
Proof.
  induction fuel as [| fuel IH]; intros lo hi i Hle; simpl.
  - intros [= <-]. lia.
  - destruct (Z.ltb_spec lo hi) as [Hlt | _]; [| intros [= <-]; lia].
    assert (Hmid : lo <= (lo + hi) / 2 < hi).
    { split; [apply Z.div_le_lower_bound | apply Z.div_lt_upper_bound]; lia. }
    destruct (getitem a _); [| discriminate].
    destruct (x <? _)%float; intros H; apply IH in H; lia.
Qed.

Lemma bisect_loop_ok a x fuel :
  forall lo hi, 0 <= lo -> hi <= len a -> exists i, bisect_loop fuel a x lo hi = Ok i.
Proof.
  induction fuel as [| fuel IH]; intros lo hi Hlo Hhi; simpl; [eauto |].
  destruct (Z.ltb_spec lo hi) as [Hlt | _]; [| eauto].
  assert (Hmid : lo <= (lo + hi) / 2 < hi).
  { split; [apply Z.div_le_lower_bound | apply Z.div_lt_upper_bound]; lia. }
  destruct (getitem_in_range a ((lo + hi) / 2)) as (a_mid & -> & _); [lia |].
  destruct (x <? a_mid)%float; apply IH; lia.
Qed.

(** On well-formed weights (as many as candidates, with a positive finite
    total) [weighted_choice] draws once and returns one of the candidates. *)
Lemma weighted_choice_ok {R : RandomLib} {A} (items : list A) weights total st :
  length items = length weights ->
  last (accumulate weights) = Some total ->
  ((total + 0 <=? 0)%float = false) ->
  is_finite (total + 0)%float = true ->
  exists x, weighted_choice items weights st = Ok (x, after_random st) /\ x ∈ items.
Proof.
  intros Hlen Hlast Hpos Hfin.
  assert (Hacc : len (accumulate weights) = len items).
  { unfold len. now rewrite accumulate_length, Hlen. }
  assert (Hn : 0 < len items).
  { rewrite <- Hacc. unfold len. destruct (accumulate weights); [discriminate | simpl; lia]. }
  set (u := ((py_random (py st)).1 * (total + 0))%float).
  destruct (bisect_loop_ok (accumulate weights) u (Z.to_nat (len items - 1 - 0)) 0
              (len items - 1)) as (i & Hi); [lia | lia |].
  assert (Hrange : 0 <= i <= len items - 1)
    by (eapply bisect_loop_range; [| exact Hi]; lia).
  destruct (getitem_in_range items i) as (x & Hx & Hin); [lia |].
  exists x. split; [| exact Hin].
  assert (Hdraw : choices_draw items (accumulate weights) (total + 0)%float (len items - 1) st
                  = Ok (x, after_random st)).
  { unfold choices_draw. rewrite (bind_of_ok _ _ _ _ _ (random_random_after st)).
    fold u. unfold bisect. change (0 <? 0) with false. cbv iota.
    unfold bind, lift. rewrite Hi, Hx. reflexivity. }
  unfold weighted_choice, random_choices.
  rewrite Hacc, Z.eqb_refl. change (negb true) with false. cbv iota.
  unfold bind at 1. unfold bind at 1. unfold lift at 1.
  rewrite getitem_last, Hlast, Hpos, Hfin. change (negb true) with false. cbv iota.
  simpl choices_repeat. unfold bind at 1. rewrite Hdraw.
  reflexivity.
Qed.

Example weighted_choice_locations :
  exists x, weighted_choice (R := Demo.lcg_lib) ["Paris"; "Lyon"; "Remote"]
              [0.55; 0.20; 0.25]%float (Rng (py_seed 42) (np_seed 42))
            = Ok (x, after_random (Rng (py_seed 42) (np_seed 42)))
            /\ x ∈ ["Paris"; "Lyon"; "Remote"].
Proof.
  eapply weighted_choice_ok; [reflexivity | vm_compute; reflexivity | reflexivity ..].
Qed.

(** * Further properties

    Properties of the script beyond the statements above: when the
    weighted choice succeeds and what it returns, the shape and coherence of
    the dataset, the exceptions and the consumption of the generators, the
    scores as functions of the samples, timestamps and identifiers. *)

(** ** Weighted choice: success, failure and the chosen index *)

Section WeightedChoice.
Context {R : RandomLib}.

Lemma getitem_ok_lookup {A} (seq : list A) i x :
  0 <= i -> getitem seq i = Ok x -> seq !! Z.to_nat i = Some x.
Proof.
  intros Hi. unfold getitem. destruct (Z.ltb_spec i 0) as [| _]; [lia |].
  destruct (Z.ltb_spec i 0) as [| _]; [lia |].
  destruct (seq !! Z.to_nat i); [congruence | discriminate].
Qed.

Lemma bisect_loop_bracket a x fuel :
  forall lo hi i,
    0 <= lo <= hi -> hi - lo <= Z.of_nat fuel ->
    bisect_loop fuel a x lo hi = Ok i ->
    lo <= i <= hi /\
    (lo < i -> exists y, a !! Z.to_nat (i - 1) = Some y /\ (x <? y)%float = false) /\
    (i < hi -> exists y, a !! Z.to_nat i = Some y /\ (x <? y)%float = true).
Proof.
  induction fuel as [| fuel IH]; intros lo hi i Hle Hfuel; simpl.
  - intros [= <-]. repeat split; intros; lia.
  - destruct (Z.ltb_spec lo hi) as [Hlt | Hge].
    2:{ intros [= <-]. repeat split; intros; lia. }
    assert (Hmid : lo <= (lo + hi) / 2 < hi).
    { split; [apply Z.div_le_lower_bound | apply Z.div_lt_upper_bound]; lia. }
    set (mid := (lo + hi) / 2) in *.
    destruct (getitem a mid) as [a_mid |] eqn:Ea; [| discriminate].
    apply getitem_ok_lookup in Ea; [| lia].
    destruct (x <? a_mid)%float eqn:Ex; intros H; apply IH in H as (Hr & Hl & Hu); try lia.
    + split; [lia |]. split; [exact Hl |].
      intros Hi. destruct (Z.eq_dec i mid) as [-> | Hne]; [eauto | apply Hu; lia].
    + split; [lia |]. split; [| exact Hu].
      intros Hi. destruct (Z.eq_dec i (mid + 1)) as [-> | Hne]; [| apply Hl; lia].
      replace (mid + 1 - 1) with mid by lia. eauto.
Qed.

(** What a successful call of [weighted_choice] went through. *)
Lemma weighted_choice_inv {A} (items : list A) weights st x st' :
  weighted_choice items weights st = Ok (x, st') ->
  length items = length weights /\
  exists total i,
    weights_total weights = Some total /\
    (total <=? 0)%float = false /\ is_finite total = true /\
    st' = after_random st /\
    bisect (accumulate weights) ((py_random (py st)).1 * total)%float 0 (len items - 1) = Ok i /\
    getitem items i = Ok x.
Proof.
  unfold weighted_choice, random_choices. intros Hrun.
  apply bind_ok in Hrun as (xs & s1 & Hrun & Hget). apply lift_ok in Hget as [Hget ->].
  destruct (Z.eqb_spec (len (accumulate weights)) (len items)) as [Hlen | Hlen];
    [| discriminate Hrun].
  simpl negb in Hrun. cbv iota in Hrun.
  apply bind_ok in Hrun as (total0 & s2 & Ht & Hrun). apply lift_ok in Ht as [Ht ->].
  rewrite getitem_last in Ht.
  destruct (last (accumulate weights)) as [t |] eqn:El; [| discriminate]. injection Ht as ->.
  destruct (total0 + 0 <=? 0)%float eqn:Hpos; [discriminate Hrun |].
  destruct (is_finite (total0 + 0)) eqn:Hfin; [| discriminate Hrun].
  simpl negb in Hrun. cbv iota in Hrun. simpl choices_repeat in Hrun.
  apply bind_ok in Hrun as (y & s3 & Hdraw & Hrun).
  apply bind_ok in Hrun as (ys & s4 & Hnil & Hrun).
  apply ret_ok in Hnil as [-> ->]. apply ret_ok in Hrun as [-> ->].
  unfold choices_draw in Hdraw.
  rewrite (bind_of_ok _ _ _ _ _ (random_random_after st)) in Hdraw.
  apply bind_ok in Hdraw as (i & s5 & Hi & Hdraw). apply lift_ok in Hi as [Hi ->].
  apply lift_ok in Hdraw as [Hy ->].
  split.
  { unfold len in Hlen. rewrite accumulate_length in Hlen. lia. }
  exists (total0 + 0)%float, i. unfold weights_total. rewrite El.
  repeat split; try assumption.
  rewrite Hy. unfold getitem in Hget. simpl in Hget. congruence.
Qed.

Lemma getitem_ok_elem {A} (seq : list A) i x : getitem seq i = Ok x -> x ∈ seq.
Proof.
  unfold getitem. destruct (_ <? 0); [discriminate |].
  destruct (seq !! _) eqn:E; [| discriminate]. intros [= <-].
  eapply list_elem_of_lookup_2; eassumption.
Qed.

Lemma weighted_choice_elem {A} (items : list A) weights st x st' :
  weighted_choice items weights st = Ok (x, st') -> x ∈ items /\ st' = after_random st.
Proof.
  intros H. apply weighted_choice_inv in H as (_ & total & i & _ & _ & _ & -> & _ & Hx).
  split; [eapply getitem_ok_elem; eassumption | reflexivity].
Qed.

Lemma well_formed_spec {A} (items : list A) weights :
  well_formed items weights = true <->
  length items = length weights /\
  exists total, last (accumulate weights) = Some total /\
                (total + 0 <=? 0)%float = false /\ is_finite (total + 0) = true.
Proof.
  unfold well_formed, weights_total. rewrite andb_true_iff, Nat.eqb_eq.
  destruct (last (accumulate weights)) as [t |]; simpl.
  - rewrite andb_true_iff, negb_true_iff. split.
    + intros (Hl & Hp & Hf). eauto.
    + intros (Hl & total & [= <-] & Hp & Hf). auto.
  - split; [intros [_ [=]] | intros (_ & total & [=] & _)].
Qed.

(** The exceptions of [weighted_choice]: [ValueError], and [IndexError]
    when both lists are empty. *)
Lemma weighted_choice_raise {A} (items : list A) weights st e :
  weighted_choice items weights st = Raise e ->
  e = ValueError \/ e = IndexError /\ items = [] /\ weights = [].
Proof.
  intros Hrun. pose proof Hrun as Hrun0.
  unfold weighted_choice, random_choices in Hrun.
  apply bind_raise in Hrun as [Hrun | (xs & s1 & Hok & Hget)].
  2:{ exfalso. destruct (negb _); [discriminate |].
      apply bind_ok in Hok as (t0 & s2 & _ & Hok).
      destruct (_ <=? 0)%float; [discriminate |]. destruct (negb _); [discriminate |].
      simpl in Hok. apply bind_ok in Hok as (y & s3 & _ & Hok).
      apply bind_ok in Hok as (ys & s4 & Hnil & Hok).
      apply ret_ok in Hnil as [-> ->]. apply ret_ok in Hok as [-> ->].
      discriminate Hget. }
  destruct (Z.eqb_spec (len (accumulate weights)) (len items)) as [Hlen | Hlen];
    [| injection Hrun as <-; auto].
  simpl negb in Hrun. cbv iota in Hrun.
  unfold len in Hlen. rewrite accumulate_length in Hlen.
  apply bind_raise in Hrun as [Hrun | (t0 & s2 & Ht & Hrun)].
  { unfold lift in Hrun. rewrite getitem_last in Hrun.
    destruct (last (accumulate weights)) eqn:El; [discriminate |].
    injection Hrun as <-. right. split; [reflexivity |].
    apply last_None in El.
    assert (Hw : weights = []) by (destruct weights; [reflexivity | discriminate]).
    subst weights. split; [| reflexivity].
    destruct items; [reflexivity | simpl in Hlen; lia]. }
  apply lift_ok in Ht as [Ht ->]. rewrite getitem_last in Ht.
  destruct (last (accumulate weights)) as [t |] eqn:El; [| discriminate].
  injection Ht as ->.
  destruct (t0 + 0 <=? 0)%float eqn:Hpos; [injection Hrun as <-; auto |].
  destruct (is_finite (t0 + 0)) eqn:Hfin; [| injection Hrun as <-; auto].
  exfalso. destruct (weighted_choice_ok items weights t0 st) as (x & Hx & _); try assumption.
  - lia.
  - congruence.
Qed.

End WeightedChoice.

(** X1.  [weighted_choice] returns exactly on well-formed input: as many
    weights as candidates and a total that is positive and finite.  It
    then returns one of the candidates after one call of
    [random.random()], leaving NumPy's generator alone.  On any other input
    it raises [ValueError], or [IndexError] when both lists are empty. *)
Theorem weighted_choice_succeeds_iff {R : RandomLib} {A : Type}
    (items : list A) (weights : list float) (st : rng) :
  (well_formed items weights = true ->
   exists x, weighted_choice items weights st = Ok (x, after_random st) /\ x ∈ items) /\
  (well_formed items weights = false ->
   exists e, weighted_choice items weights st = Raise e /\
             (e = ValueError \/ e = IndexError /\ items = [] /\ weights = [])).
Proof.
  split; intros Hwf.
  - apply well_formed_spec in Hwf as (Hlen & total & Hlast & Hpos & Hfin).
    eapply weighted_choice_ok; eassumption.
  - destruct (weighted_choice items weights st) as [[x st'] | e] eqn:Hrun.
    + apply weighted_choice_inv in Hrun as (Hlen & total & i & Ht & Hpos & Hfin & _).
      unfold well_formed in Hwf. rewrite Ht, Hpos, Hfin in Hwf.
      apply Nat.eqb_eq in Hlen. rewrite Hlen in Hwf. discriminate.
    + exists e. split; [reflexivity |]. eapply weighted_choice_raise; eassumption.
Qed.

Lemma weighted_choice_succeeds_iff_witness :
  let st := Rng (R := Demo.lcg_lib) (py_seed 42) (np_seed 42) in
  (exists x, weighted_choice ["Paris"; "Lyon"; "Remote"] [0.55; 0.20; 0.25]%float st
             = Ok (x, after_random st) /\ x ∈ ["Paris"; "Lyon"; "Remote"]) /\
  (exists e, weighted_choice ["Paris"; "Lyon"; "Remote"] [0.55; -0.20; -0.40]%float st
             = Raise e /\
             (e = ValueError \/
              e = IndexError /\ ["Paris"; "Lyon"; "Remote"] = [] /\
              [0.55; -0.20; -0.40]%float = [])).
Proof.
  intros st. split.
  - apply (weighted_choice_succeeds_iff ["Paris"; "Lyon"; "Remote"] [0.55; 0.20; 0.25]%float st).
    vm_compute. reflexivity.
  - apply (weighted_choice_succeeds_iff ["Paris"; "Lyon"; "Remote"]
             [0.55; -0.20; -0.40]%float st).
    vm_compute. reflexivity.
Defined.

(** X2.  The candidate that [weighted_choice] returns is the one whose
    stretch of the running sums holds the draw: with [p] the product of the
    uniform draw and the total, the returned candidate sits at an index [i]
    such that [p] is not below the running sum before [i] and, unless [i]
    is the last index, [p] is below the running sum at [i]. *)
Theorem weighted_choice_bracket {R : RandomLib} {A : Type}
    (items : list A) (weights : list float) (st st' : rng) (x : A) :
  weighted_choice items weights st = Ok (x, st') ->
  exists (i : nat) (total : float),
    weights_total weights = Some total /\
    items !! i = Some x /\
    let p := ((py_random (py st)).1 * total)%float in
    (forall j, i = S j ->
       exists c, accumulate weights !! j = Some c /\ (p <? c)%float = false) /\
    ((S i < length items)%nat ->
       exists c, accumulate weights !! i = Some c /\ (p <? c)%float = true).
Proof.
  intros Hrun.
  apply weighted_choice_inv in Hrun as (Hlen & total & i & Ht & _ & _ & _ & Hb & Hx).
  unfold bisect in Hb. change (0 <? 0) with false in Hb. cbv iota in Hb.
  assert (Hn : 0 < len items).
  { unfold len. destruct items; [| simpl; lia].
    unfold weights_total in Ht. destruct weights; [discriminate | discriminate]. }
  apply bisect_loop_bracket in Hb as (Hr & Hl & Hu); [| lia | lia].
  exists (Z.to_nat i), total. split; [exact Ht |].
  split; [apply getitem_ok_lookup; [lia | exact Hx] |].
  cbv zeta. split.
  - intros j Hj. destruct Hl as (c & Hc & Hp); [lia |].
    exists c. split; [| exact Hp]. rewrite <- Hc. f_equal. lia.
  - intros Hi. apply Hu. unfold len. lia.
Qed.

Lemma weighted_choice_bracket_witness :
  let st := Rng (R := Demo.lcg_lib) (py_seed 42) (np_seed 42) in
  holds_on_run (weighted_choice ["Paris"; "Lyon"; "Remote"] [0.55; 0.20; 0.25]%float st)
    (fun out => exists (i : nat) total,
       weights_total [0.55; 0.20; 0.25]%float = Some total /\
       ["Paris"; "Lyon"; "Remote"] !! i = Some out.1).
Proof.
  intros st. apply holds_on_run_intro; [vm_compute; reflexivity |].
  intros [x st'] Hrun.
  destruct (weighted_choice_bracket _ _ _ _ _ Hrun) as (i & total & Ht & Hx & _).
  exists i, total. split; assumption.
Defined.

(** ** The loops, step by step *)

Section Loops2.
Context {R : RandomLib}.

Lemma for_each_raise {A B} (body : B -> A -> M B) xs :
  forall acc st e,
    for_each body xs acc st = Raise e ->
    exists x acc' st', x ∈ xs /\ body acc' x st' = Raise e.
Proof.
  induction xs as [| x xs IH]; intros acc st e Hrun; simpl in Hrun; [discriminate |].
  apply bind_raise in Hrun as [Hrun | (acc1 & st1 & _ & Hrun)].
  - exists x, acc, st. split; [left | exact Hrun].
  - apply IH in Hrun as (y & acc' & st' & Hy & Hrun).
    exists y, acc', st'. split; [now right | exact Hrun].
Qed.

(** The first loop stores, for every question, a score drawn around the
    mean of that question. *)
Lemma sample_answers_inv dept tenure manager qs :
  NoDup (map fst qs) ->
  forall acc st ans st',
    for_each (sample_answer dept tenure manager) qs acc st = Ok (ans, st') ->
    (forall q, q ∈ map fst qs ->
       exists mean v s s',
         target_mean dept tenure manager q = Ok mean /\
         likert_from_mean mean s = Ok (v, s') /\ ans !! q = Some v) /\
    (forall k, k ∉ map fst qs -> ans !! k = acc !! k).
Proof.
  induction qs as [| q qs IH]; intros Hnd acc st ans st' Hrun; simpl in Hrun.
  - apply ret_ok in Hrun as [-> ->]. split; [| reflexivity].
    intros q Hq. now apply elem_of_nil in Hq.
  - simpl in Hnd. apply NoDup_cons in Hnd as [Hq Hnd].
    apply bind_ok in Hrun as (acc1 & st1 & Hstep & Hrest).
    unfold sample_answer in Hstep.
    apply bind_ok in Hstep as (mean & s1 & Hmean & Hstep). apply lift_ok in Hmean as [Hmean ->].
    apply bind_ok in Hstep as (score & s2 & Hscore & Hstep). apply ret_ok in Hstep as [-> ->].
    destruct (IH Hnd _ _ _ _ Hrest) as [Hin Hout]. split.
    + intros q' Hq'. simpl in Hq'. apply elem_of_cons in Hq' as [-> | Hq']; [| now apply Hin].
      exists mean, score. eexists _, _. split; [exact Hmean |]. split; [exact Hscore |].
      rewrite (Hout _ Hq). apply lookup_insert_eq.
    + intros k Hk. simpl in Hk. apply not_elem_of_cons in Hk as [Hne Hk].
      rewrite (Hout _ Hk). apply lookup_insert_ne. congruence.
Qed.

(** The first loop raises nothing but the [ValueError] of a NaN sample
    when every question has a base mean. *)
Lemma sample_answers_raise dept tenure manager qs acc st e :
  Forall (fun q => q ∈ map fst QUESTIONS) (map fst qs) ->
  for_each (sample_answer dept tenure manager) qs acc st = Raise e -> e = ValueError.
Proof.
  intros Hqs Hrun. apply for_each_raise in Hrun as (q & acc' & st' & Hq & Hrun).
  unfold sample_answer in Hrun.
  apply bind_raise in Hrun as [Hrun | (mean & s1 & _ & Hrun)].
  - exfalso. unfold lift, target_mean, dict_get in Hrun.
    rewrite Forall_forall in Hqs.
    destruct (QUESTIONS_have_base q.1) as (base & Hb).
    { apply Hqs. apply list_elem_of_fmap. eauto. }
    rewrite Hb in Hrun. discriminate.
  - apply bind_raise in Hrun as [Hrun | (v & s2 & _ & Hrun)]; [| discriminate].
    pose proof (likert_from_mean_spec mean s1) as S. cbv zeta in S.
    destruct (is_nan _); [congruence |]. destruct S as (v & Hv & _). congruence.
Qed.

(** The second loop: every label is that of the stored answer. *)
Lemma store_labels_values ans qs :
  NoDup (map fst qs) ->
  forall r st r' st',
    (forall q, q ∈ map fst qs -> q ∉ odict_keys r) ->
    for_each (store_label ans) qs r st = Ok (r', st') ->
    odict_keys r' = odict_keys r ++ map fst qs /\
    (forall k, k ∉ map fst qs -> odict_lookup r' k = odict_lookup r k) /\
    (forall q, q ∈ map fst qs ->
       exists v label, ans !! q = Some v /\ LIKERT_TEXT !! v = Some label /\
                       odict_lookup r' q = Some (VStr label)).
Proof.
  induction qs as [| q qs IH]; intros Hnd r st r' st' Hfresh Hrun; simpl in Hrun.
  - apply ret_ok in Hrun as [-> ->]. rewrite app_nil_r. repeat split; auto.
    intros q Hq. now apply elem_of_nil in Hq.
  - simpl in Hnd. apply NoDup_cons in Hnd as [Hq Hnd].
    apply bind_ok in Hrun as (r1 & st1 & Hstep & Hrest).
    unfold store_label in Hstep.
    apply bind_ok in Hstep as (v & st2 & Hv & Hstep). apply lift_ok in Hv as [Hv ->].
    apply bind_ok in Hstep as (label & st2 & Hl & Hstep). apply lift_ok in Hl as [Hl ->].
    apply ret_ok in Hstep as [-> ->].
    unfold dict_get in Hv, Hl.
    destruct (ans !! q.1) as [v' |] eqn:Ev; [| discriminate]. injection Hv as ->.
    destruct (LIKERT_TEXT !! v) as [label' |] eqn:El; [| discriminate]. injection Hl as ->.
    assert (Hq0 : q.1 ∉ odict_keys r) by (apply Hfresh; simpl; left).
    apply IH in Hrest as (Hkeys & Hother & Hqs); [| exact Hnd |].
    + split; [| split].
      * rewrite Hkeys, odict_keys_set_new by exact Hq0. simpl. now rewrite <- app_assoc.
      * intros k Hk. simpl in Hk. apply not_elem_of_cons in Hk as [Hne Hk].
        rewrite Hother by exact Hk. apply odict_lookup_set_ne. congruence.
      * intros q' Hq'. simpl in Hq'. apply elem_of_cons in Hq' as [-> | Hq'].
        -- exists v, label. split; [exact Ev |]. split; [exact El |].
           rewrite Hother by exact Hq. apply odict_lookup_set_eq.
        -- now apply Hqs.
    + intros q' Hq'. rewrite odict_keys_set_new by exact Hq0.
      rewrite elem_of_app, list_elem_of_singleton. intros [Hin | ->].
      * revert Hin. apply Hfresh. simpl. now right.
      * contradiction.
Qed.

(** The second loop raises nothing when every question has an answer in
    [1..5]. *)
Lemma store_labels_ok ans qs :
  (forall q, q ∈ map fst qs -> exists v, ans !! q = Some v /\ in_likert_range v) ->
  forall r st, exists r', for_each (store_label ans) qs r st = Ok (r', st).
Proof.
  induction qs as [| q qs IH]; intros Hans r st; simpl; [eexists; reflexivity |].
  destruct (Hans q.1) as (v & Hv & Hr); [simpl; left |].
  assert (Hl : exists label, LIKERT_TEXT !! v = Some label).
  { unfold in_likert_range in Hr.
    assert (Hc : v = 1 \/ v = 2 \/ v = 3 \/ v = 4 \/ v = 5) by lia.
    destruct Hc as [-> | [-> | [-> | [-> | ->]]]]; eexists; reflexivity. }
  destruct Hl as (label & Hl).
  destruct (IH (fun q' Hq' => Hans q' (list_elem_of_further _ _ _ Hq'))
              (odict_set r q.1 (VStr label)) st) as (r' & Hr').
  exists r'. unfold store_label at 1. unfold bind at 1. unfold bind at 1.
  unfold lift at 1, dict_get at 1. rewrite Hv.
  unfold bind at 1. unfold lift at 1, dict_get at 1. rewrite Hl.
  unfold ret at 1. exact Hr'.
Qed.

End Loops2.

(** ** Rows: count, attributes, coherence *)

Section Respondent2.
Context {R : RandomLib}.

(** The steps of a successful iteration, and the row it builds. *)
Lemma respondent_inv c dept_items dept_w i st r st' :
  respondent c dept_items dept_w i st = Ok (r, st') ->
  exists dept location tenure manager answers overall enps ts r1 s1 s2 s3 s4 s5 s6 s7,
    weighted_choice dept_items dept_w st = Ok (dept, s1) /\
    weighted_choice (LOCATIONS c) (LOCATION_WEIGHTS c) s1 = Ok (location, s2) /\
    weighted_choice (TENURE_BANDS c) (TENURE_WEIGHTS c) s2 = Ok (tenure, s3) /\
    weighted_choice ["Yes"; "No"] [0.12; 0.88]%float s3 = Ok (manager, s4) /\
    for_each (sample_answer dept tenure manager) QUESTIONS ∅ s4 = Ok (answers, s5) /\
    answers !! "Q12_OverallEngagement" = Some overall /\
    generate_enps_from_engagement overall dept s5 = Ok (enps, s6) /\
    generate_timestamp (START_DATE c) i s6 = Ok (ts, s7) /\
    for_each (store_label answers) QUESTIONS
      [ ("RespondentID", VStr (respondent_id i)); ("SubmissionTime", VStr ts);
        ("Department", VStr dept); ("Location", VStr location); ("Tenure", VStr tenure);
        ("Manager", VStr manager); ("eNPS_0_10", VInt enps) ] s7 = Ok (r1, s7) /\
    open_comments 0.78 0.70 dept r1 s7 = Ok (r, st').
Proof.
  unfold respondent. intros Hrun.
  apply bind_ok in Hrun as (dept & s1 & Hd & Hrun).
  apply bind_ok in Hrun as (location & s2 & Hl & Hrun).
  apply bind_ok in Hrun as (tenure & s3 & Ht & Hrun).
  apply bind_ok in Hrun as (manager & s4 & Hm & Hrun).
  apply bind_ok in Hrun as (answers & s5 & Hans & Hrun).
  apply bind_ok in Hrun as (overall & s6 & Ho & Hrun). apply lift_ok in Ho as [Ho ->].
  apply bind_ok in Hrun as (enps & s7 & Henps & Hrun).
  apply bind_ok in Hrun as (ts & s8 & Hts & Hrun).
  apply bind_ok in Hrun as (r1 & s9 & Hlabels & Hrun).
  rewrite row_literal in Hlabels.
  assert (Hs : s9 = s8).
  { pose proof Hans as Hrange. apply sample_answers_range in Hrange; [| apply map_Forall_empty].
    apply (store_labels_spec _ _ Hrange QUESTIONS_NoDup) in Hlabels as (-> & _); [reflexivity |].
    apply Forall_forall. decide_strings. }
  subst s9.
  unfold dict_get in Ho. destruct (answers !! _) as [o |] eqn:Eo; [| discriminate].
  injection Ho as ->.
  exists dept, location, tenure, manager, answers, overall, enps, ts, r1, s1, s2, s3, s4, s5, s7, s8.
  repeat split; assumption.
Qed.

(** The leading columns of the row and its question columns. *)
Lemma respondent_columns c dept_items dept_w i st r st' :
  respondent c dept_items dept_w i st = Ok (r, st') ->
  exists dept location tenure manager (answers : gmap string Z) overall enps s s',
    dept ∈ dept_items /\ location ∈ LOCATIONS c /\ tenure ∈ TENURE_BANDS c /\
    manager ∈ ["Yes"; "No"] /\
    odict_lookup r "Department" = Some (VStr dept) /\
    odict_lookup r "Location" = Some (VStr location) /\
    odict_lookup r "Tenure" = Some (VStr tenure) /\
    odict_lookup r "Manager" = Some (VStr manager) /\
    odict_lookup r "eNPS_0_10" = Some (VInt enps) /\
    answers !! "Q12_OverallEngagement" = Some overall /\
    generate_enps_from_engagement overall dept s = Ok (enps, s') /\
    (forall q, q ∈ map fst QUESTIONS ->
       exists mean v label s1 s2,
         target_mean dept tenure manager q = Ok mean /\
         likert_from_mean mean s1 = Ok (v, s2) /\
         answers !! q = Some v /\
         LIKERT_TEXT !! v = Some label /\
         odict_lookup r q = Some (VStr label)).
Proof.
  intros Hrun.
  apply respondent_inv in Hrun
    as (dept & location & tenure & manager & answers & overall & enps & ts & r1 &
        s1 & s2 & s3 & s4 & s5 & s6 & s7 & Hd & Hl & Ht & Hm & Hans & Ho & Henps & _ &
        Hlabels & Hc).
  apply weighted_choice_elem in Hd as [Hd _]. apply weighted_choice_elem in Hl as [Hl _].
  apply weighted_choice_elem in Ht as [Ht _]. apply weighted_choice_elem in Hm as [Hm _].
  apply (sample_answers_inv _ _ _ _ QUESTIONS_NoDup) in Hans as [Hans _].
  apply (store_labels_values _ _ QUESTIONS_NoDup) in Hlabels as (Hkeys & Hother & Hq).
  2:{ apply Forall_forall. decide_strings. }
  destruct (open_comments_spec 0.78 0.70 dept r1 s7) as (w & im & st2 & Hc' & _).
  cbv zeta in Hc'. rewrite Hc' in Hc. injection Hc as <- <-.
  exists dept, location, tenure, manager, answers, overall, enps, s5, s6.
  repeat (split; [assumption |]).
  repeat (split; [rewrite !odict_lookup_set_ne by discriminate;
                  rewrite Hother by decide_strings; reflexivity |]).
  split; [exact Ho |]. split; [exact Henps |].
  intros q Hin. destruct (Hans q Hin) as (mean & v & sa & sb & Hmean & Hv & Hav).
  destruct (Hq q Hin) as (v' & label & Hav' & Hlab & Hlook).
  assert (v' = v) by congruence. subst v'.
  exists mean, v, label, sa, sb. repeat (split; [assumption |]).
  rewrite !odict_lookup_set_ne; [exact Hlook | ..].
  all: intros <-; revert Hin; decide_strings.
Qed.

Lemma respondent_attributes c dept_w i st r st' :
  respondent c (odict_keys (DEPT_WEIGHTS c)) dept_w i st = Ok (r, st') ->
  row_attributes c r.
Proof.
  intros Hrun. apply respondent_columns in Hrun
    as (dept & location & tenure & manager & answers & overall & enps & s & s' &
        Hd & Hl & Ht & Hm & Hcd & Hcl & Hct & Hcm & _).
  exists dept, location, tenure, manager. repeat (split; [assumption |]).
  rewrite !elem_of_cons, elem_of_nil in Hm. tauto.
Qed.

Lemma respondent_coherent c dept_items dept_w i st r st' :
  respondent c dept_items dept_w i st = Ok (r, st') -> row_coherent r.
Proof.
  intros Hrun. apply respondent_columns in Hrun
    as (dept & location & tenure & manager & answers & overall & enps & s & s' &
        _ & _ & _ & _ & Hcd & _ & Hct & Hcm & Hce & Ho & Henps & Hq).
  exists dept, tenure, manager. repeat (split; [assumption |]). split.
  - intros q Hin. destruct (Hq q Hin) as (mean & v & label & s1 & s2 & Hm & Hv & _ & Hl & Hlook).
    exists mean, v, label, s1, s2. auto.
  - destruct (Hq "Q12_OverallEngagement") as (mean & v & label & s1 & s2 & _ & _ & Hv & Hl & Hlook).
    { decide_strings. }
    assert (v = overall) by congruence. subst v.
    exists overall, label, enps, s, s'. repeat (split; [assumption |]).
    split; [now apply likert_decode_label |]. auto.
Qed.

Lemma generate_respondents c st rows st' :
  generate c st = Ok (rows, st') ->
  exists dept_w,
    Forall2 (fun i r => exists s s',
               respondent c (odict_keys (DEPT_WEIGHTS c)) dept_w i s = Ok (r, s'))
            (range1 (N_RESPONSES c)) rows.
Proof.
  unfold generate. intros Hrun.
  apply bind_ok in Hrun as (dept_w & s1 & _ & Hrun).
  apply append_respondents_spec in Hrun as (new & -> & Hnew). simpl. eauto.
Qed.

Lemma main_with_respondents c st rows st' :
  main_with c st = Ok (rows, st') ->
  exists dept_w,
    Forall2 (fun i r => exists s s',
               respondent c (odict_keys (DEPT_WEIGHTS c)) dept_w i s = Ok (r, s'))
            (range1 (N_RESPONSES c)) rows.
Proof.
  intros Hrun. apply main_with_ok in Hrun as [_ Hrun].
  eapply generate_respondents; eassumption.
Qed.

End Respondent2.

(** X3.  The dataset has one row per configured respondent.  When NumPy
    accepts the seed, a count of zero or less gives the empty dataset
    without a draw, also when the weights are malformed; a seed outside
    [0 .. 2**32 - 1] makes the run fail with [ValueError] before the
    loop, whatever the count. *)
Theorem dataset_length {R : RandomLib} (c : config) (st : rng) :
  (forall rows st', main_with c st = Ok (rows, st') ->
     length rows = Z.to_nat (N_RESPONSES c)) /\
  (0 <= SEED c <= 2 ^ 32 - 1 -> N_RESPONSES c <= 0 ->
   main_with c st = Ok ([], seeded c)) /\
  (~ 0 <= SEED c <= 2 ^ 32 - 1 -> main_with c st = Raise ValueError).
Proof.
  split; [| split].
  - intros rows st' Hrun. apply main_with_respondents in Hrun as (dept_w & Hrows).
    apply Forall2_length in Hrows. now rewrite range1_length in Hrows.
  - intros Hseed Hn. rewrite main_with_run.
    destruct (Z.leb_spec 0 (SEED c)), (Z.leb_spec (SEED c) (2 ^ 32 - 1)); try lia.
    cbn [andb]. unfold generate.
    destruct (dept_weights_of_config c) as (dept_w & Hw & _).
    unfold bind, lift. rewrite Hw.
    unfold range1. replace (Z.to_nat (N_RESPONSES c)) with 0%nat by lia. reflexivity.
  - intros Hseed. rewrite main_with_run.
    destruct (Z.leb_spec 0 (SEED c)), (Z.leb_spec (SEED c) (2 ^ 32 - 1));
      cbn [andb]; try reflexivity.
    lia.
Qed.

Lemma dataset_length_witness :
  let no_respondent seed :=
    {| SEED := seed; N_RESPONSES := 0; START_DATE := START_DATE default_config;
       DEPT_WEIGHTS := DEPT_WEIGHTS default_config;
       LOCATIONS := LOCATIONS default_config; LOCATION_WEIGHTS := [0; 0; 0]%float;
       TENURE_BANDS := TENURE_BANDS default_config;
       TENURE_WEIGHTS := TENURE_WEIGHTS default_config |} in
  holds_on_run (main (R := Demo.lcg_lib) Demo.lcg_start)
    (fun out => length out.1 = 180%nat) /\
  main_with (R := Demo.lcg_lib) (no_respondent 42) Demo.lcg_start
  = Ok ([], seeded (no_respondent 42)) /\
  main_with (R := Demo.lcg_lib) (no_respondent (-1)) Demo.lcg_start = Raise ValueError.
Proof.
  intros no_respondent. split; [| split].
  - apply holds_on_run_intro; [exact lcg_main_ok |].
    intros [rows st'] Hrun.
    exact (proj1 (dataset_length (R := Demo.lcg_lib) default_config Demo.lcg_start)
             rows st' Hrun).
  - apply (dataset_length (R := Demo.lcg_lib) (no_respondent 42) Demo.lcg_start).
    + simpl. lia.
    + simpl. lia.
  - apply (dataset_length (R := Demo.lcg_lib) (no_respondent (-1)) Demo.lcg_start).
    simpl. lia.
Defined.

(** X4.  In every generated row the department is one of the keys of
    [DEPT_WEIGHTS], the location one of [LOCATIONS], the tenure band one of
    [TENURE_BANDS] and the manager flag [Yes] or [No]. *)
Theorem attributes_are_configured {R : RandomLib}
    (c : config) (st st' : rng) (rows : list row) :
  main_with c st = Ok (rows, st') -> Forall (row_attributes c) rows.
Proof.
  intros Hrun. apply main_with_respondents in Hrun as (dept_w & Hrows).
  induction Hrows as [| i r idx rows' (s & s' & Hr) _ IH]; constructor; [| exact IH].
  eapply respondent_attributes; eassumption.
Qed.

Lemma attributes_are_configured_witness :
  holds_on_run (main (R := Demo.lcg_lib) Demo.lcg_start)
    (fun out => Forall (row_attributes default_config) out.1).
Proof.
  apply holds_on_run_intro; [exact lcg_main_ok |].
  intros [rows st'] Hrun.
  exact (attributes_are_configured default_config Demo.lcg_start st' rows Hrun).
Defined.

(** X5.  Every generated row is coherent: the label in each question
    column is that of a score drawn around the mean of the row's own
    department, tenure band and manager flag, and the eNPS is drawn from
    the score that the row's [Q12_OverallEngagement] label decodes to and
    the row's own department. *)
Theorem rows_are_coherent {R : RandomLib}
    (c : config) (st st' : rng) (rows : list row) :
  main_with c st = Ok (rows, st') -> Forall row_coherent rows.
Proof.
  intros Hrun. apply main_with_respondents in Hrun as (dept_w & Hrows).
  induction Hrows as [| i r idx rows' (s & s' & Hr) _ IH]; constructor; [| exact IH].
  eapply respondent_coherent; eassumption.
Qed.

Lemma rows_are_coherent_witness :
  holds_on_run (main (R := Demo.lcg_lib) Demo.lcg_start)
    (fun out => Forall (row_coherent (R := Demo.lcg_lib)) out.1).
Proof.
  apply holds_on_run_intro; [exact lcg_main_ok |].
  intros [rows st'] Hrun.
  exact (rows_are_coherent default_config Demo.lcg_start st' rows Hrun).
Defined.

(** ** Exceptions and calls of the generators *)

Section Exceptions.
Context {R : RandomLib}.

Lemma generate_timestamp_run start i st :
  generate_timestamp start i st
  = match timestamp_of_sample start i (np_exponential 4.5 (np st)).1 with
    | Ok ts => Ok (ts, Rng (py st) (np_exponential 4.5 (np st)).2)
    | Raise e => Raise e
    end.
Proof.
  unfold generate_timestamp.
  rewrite (bind_of_ok _ _ _ _ _ (np_random_exponential_run 4.5 st)). reflexivity.
Qed.

Lemma to_int_raise x e : F.to_int x = Raise e -> e = ValueError \/ e = OverflowError.
Proof. unfold F.to_int. destruct (Prim2SF x); intros [= <-]; auto. Qed.

Lemma add_minutes_raise dt m e : Calendar.add_minutes dt m = Raise e -> e = OverflowError.
Proof.
  unfold Calendar.add_minutes. destruct (_ <? _); [now intros [= <-] |].
  destruct (_ && _); [| now intros [= <-]].
  destruct (Calendar.ord2ymd _) as [[y mo] d]. discriminate.
Qed.

Lemma generate_timestamp_raise start i st e :
  generate_timestamp start i st = Raise e -> e = ValueError \/ e = OverflowError.
Proof.
  rewrite generate_timestamp_run. unfold timestamp_of_sample.
  destruct (F.of_int i) as [index | e0] eqn:Ei.
  2:{ intros [= <-]. right. eapply of_int_raise; eassumption. }
  destruct (F.to_int _) as [m | e1] eqn:Em.
  - destruct (Calendar.add_minutes start m) as [t | e2] eqn:Et; [discriminate |].
    intros [= <-]. right. eapply add_minutes_raise; eassumption.
  - intros [= <-]. eapply to_int_raise; eassumption.
Qed.

Lemma generate_enps_raise overall dept st e :
  generate_enps_from_engagement overall dept st = Raise e ->
  e = ValueError \/ e = OverflowError.
Proof.
  intros Hrun. destruct (enps_mean overall dept) as [mu | e0] eqn:Hmu.
  - left. pose proof (generate_enps_from_engagement_spec overall dept st mu Hmu) as S.
    cbv zeta in S. destruct (is_nan _); [congruence |]. destruct S as (v & Hv & _). congruence.
  - right. rewrite (generate_enps_from_engagement_raise _ _ _ _ Hmu) in Hrun.
    injection Hrun as <-. eapply enps_mean_raise; eassumption.
Qed.

(** An iteration raises [ValueError], [OverflowError] or, on an empty
    list of candidates, [IndexError]. *)
Lemma respondent_raise c dept_w i st e :
  respondent c (odict_keys (DEPT_WEIGHTS c)) dept_w i st = Raise e ->
  e = ValueError \/ e = OverflowError \/ e = IndexError /\ empty_choice c.
Proof.
  unfold respondent. intros Hrun.
  apply bind_raise in Hrun as [Hrun | (dept & s1 & _ & Hrun)].
  { apply weighted_choice_raise in Hrun as [-> | (-> & Hk & _)]; [auto |].
    right. right. split; [reflexivity |]. left.
    unfold odict_keys in Hk. now apply map_eq_nil in Hk. }
  apply bind_raise in Hrun as [Hrun | (location & s2 & _ & Hrun)].
  { apply weighted_choice_raise in Hrun as [-> | (-> & Hk & Hw)]; [auto |].
    right. right. split; [reflexivity |]. right. left. auto. }
  apply bind_raise in Hrun as [Hrun | (tenure & s3 & _ & Hrun)].
  { apply weighted_choice_raise in Hrun as [-> | (-> & Hk & Hw)]; [auto |].
    right. right. split; [reflexivity |]. right. right. auto. }
  apply bind_raise in Hrun as [Hrun | (manager & s4 & _ & Hrun)].
  { apply weighted_choice_raise in Hrun as [-> | (-> & Hk & Hw)]; [auto | discriminate]. }
  apply bind_raise in Hrun as [Hrun | (answers & s5 & Hans & Hrun)].
  { left. eapply sample_answers_raise; [| exact Hrun].
    apply Forall_forall. auto. }
  pose proof Hans as Hrange.
  apply sample_answers_range in Hrange; [| apply map_Forall_empty].
  apply (sample_answers_inv _ _ _ _ QUESTIONS_NoDup) in Hans as [Hans _].
  apply bind_raise in Hrun as [Hrun | (overall & s6 & _ & Hrun)].
  { exfalso. destruct (Hans "Q12_OverallEngagement") as (m & v & sa & sb & _ & _ & Hv).
    { decide_strings. }
    unfold lift, dict_get in Hrun. rewrite Hv in Hrun. discriminate. }
  apply bind_raise in Hrun as [Hrun | (enps & s7 & _ & Hrun)].
  { apply generate_enps_raise in Hrun as [-> | ->]; auto. }
  apply bind_raise in Hrun as [Hrun | (ts & s8 & _ & Hrun)].
  { apply generate_timestamp_raise in Hrun as [-> | ->]; auto. }
  exfalso.
  apply bind_raise in Hrun as [Hrun | (r1 & s9 & _ & Hrun)].
  - destruct (store_labels_ok answers QUESTIONS) with (r := odict_literal
      [ ("RespondentID", VStr (respondent_id i)); ("SubmissionTime", VStr ts);
        ("Department", VStr dept); ("Location", VStr location); ("Tenure", VStr tenure);
        ("Manager", VStr manager); ("eNPS_0_10", VInt enps) ]) (st := s8) as (r' & Hr').
    + intros q Hq. destruct (Hans q Hq) as (m & v & sa & sb & _ & _ & Hv).
      exists v. split; [exact Hv |]. exact (Hrange _ _ Hv).
    + congruence.
  - destruct (open_comments_spec 0.78 0.70 dept r1 s9) as (w & im & st2 & Hc & _).
    cbv zeta in Hc. congruence.
Qed.

Lemma generate_raise c st e :
  generate c st = Raise e ->
  e = ValueError \/ e = OverflowError \/ e = IndexError /\ empty_choice c.
Proof.
  unfold generate. destruct (dept_weights_of_config c) as (dept_w & Hw & _).
  unfold bind at 1. unfold lift. rewrite Hw. intros Hrun.
  apply for_each_raise in Hrun as (i & acc & st1 & _ & Hrun).
  unfold append_respondent in Hrun.
  apply bind_raise in Hrun as [Hrun | (r & s2 & _ & Hrun)]; [| discriminate].
  eapply respondent_raise; eassumption.
Qed.

End Exceptions.

(** X6.  A run never ends in [KeyError]: every dictionary look-up of the
    script finds its key.  The exceptions that can end a run are
    [ValueError], [OverflowError] and, only when the configuration has an
    empty list of candidates, [IndexError]. *)
Theorem run_exceptions {R : RandomLib} (c : config) (st : rng) (e : exn) :
  main_with c st = Raise e ->
  e = ValueError \/ e = OverflowError \/ e = IndexError /\ empty_choice c.
Proof.
  rewrite main_with_run. destruct (_ && _); [apply generate_raise |].
  intros [= <-]. auto.
Qed.

Lemma run_exceptions_witness :
  ValueError = ValueError \/ ValueError = OverflowError \/
  ValueError = IndexError /\ empty_choice mismatched_config.
Proof.
  apply (run_exceptions (R := Demo.lcg_lib) mismatched_config Demo.lcg_start ValueError).
  apply raises_intro. vm_compute. reflexivity.
Defined.

(** The shipped configuration has no empty list of candidates, so its run
    can only end in [ValueError] or [OverflowError]. *)
Example default_config_has_candidates : ~ empty_choice default_config.
Proof. intros [H | [[H _] | [H _]]]; discriminate H. Qed.

Section Counting.
Context {R : RandomLib}.
Local Existing Instance counted.

Implicit Types st : @rng (counted R).

Lemma py_calls_after_random st : py_calls (after_random st) = S (py_calls st).
Proof. reflexivity. Qed.

Lemma np_calls_after_random st : np_calls (after_random st) = np_calls st.
Proof. reflexivity. Qed.

Lemma weighted_choice_calls {A} (items : list A) weights st x st' :
  weighted_choice items weights st = Ok (x, st') ->
  py_calls st' = S (py_calls st) /\ np_calls st' = np_calls st.
Proof. intros H. apply weighted_choice_elem in H as [_ ->]. split; reflexivity. Qed.

Lemma likert_from_mean_calls mean st v st' :
  likert_from_mean mean st = Ok (v, st') ->
  py_calls st' = py_calls st /\ np_calls st' = S (np_calls st).
Proof.
  intros H. pose proof (likert_from_mean_spec mean st) as S. cbv zeta in S.
  destruct (is_nan _); [congruence |]. destruct S as (v' & Hv & _).
  rewrite Hv in H. injection H as _ <-. split; reflexivity.
Qed.

Lemma generate_enps_calls overall dept st v st' :
  generate_enps_from_engagement overall dept st = Ok (v, st') ->
  py_calls st' = py_calls st /\ np_calls st' = S (np_calls st).
Proof.
  intros H. destruct (enps_mean overall dept) as [mu | e] eqn:Hmu.
  2:{ rewrite (generate_enps_from_engagement_raise _ _ _ _ Hmu) in H. discriminate. }
  pose proof (generate_enps_from_engagement_spec overall dept st mu Hmu) as S.
  cbv zeta in S. destruct (is_nan _); [congruence |]. destruct S as (v' & Hv & _).
  rewrite Hv in H. injection H as _ <-. split; reflexivity.
Qed.

Lemma generate_timestamp_calls start i st ts st' :
  generate_timestamp start i st = Ok (ts, st') ->
  py_calls st' = py_calls st /\ np_calls st' = S (np_calls st).
Proof.
  rewrite generate_timestamp_run. destruct (timestamp_of_sample _ _ _); [| discriminate].
  intros [= _ <-]. split; reflexivity.
Qed.

Lemma sample_answers_calls dept tenure manager qs :
  forall acc st ans st',
    for_each (sample_answer dept tenure manager) qs acc st = Ok (ans, st') ->
    py_calls st' = py_calls st /\ np_calls st' = (np_calls st + length qs)%nat.
Proof.
  induction qs as [| q qs IH]; intros acc st ans st' Hrun; simpl in Hrun.
  - apply ret_ok in Hrun as [_ ->]. simpl. split; [reflexivity | lia].
  - apply bind_ok in Hrun as (acc1 & st1 & Hstep & Hrest).
    unfold sample_answer in Hstep.
    apply bind_ok in Hstep as (mean & s1 & Hmean & Hstep). apply lift_ok in Hmean as [_ ->].
    apply bind_ok in Hstep as (score & s2 & Hscore & Hstep). apply ret_ok in Hstep as [_ ->].
    apply likert_from_mean_calls in Hscore as [Hp Hn].
    apply IH in Hrest as [Hp' Hn']. simpl. split; [congruence | lia].
Qed.

Lemma random_choice_calls {A} (seq : list A) st x st' :
  random_choice seq st = Ok (x, st') ->
  py_calls st' = S (py_calls st) /\ np_calls st' = np_calls st.
Proof.
  unfold random_choice. destruct (len seq =? 0); [discriminate |].
  rewrite (bind_of_ok _ _ _ _ _ (random_randbelow_run (len seq) st)).
  intros H. apply lift_ok in H as [_ ->]. split; reflexivity.
Qed.

Lemma open_comments_calls p_working p_improve dept r st r' st' :
  open_comments p_working p_improve dept r st = Ok (r', st') ->
  (py_calls st + 2 <= py_calls st' <= py_calls st + 5)%nat /\ np_calls st' = np_calls st.
Proof.
  unfold open_comments. intros Hrun.
  rewrite (bind_of_ok _ _ _ _ _ (random_random_after st)) in Hrun.
  apply bind_ok in Hrun as (w & s1 & Hw & Hrun).
  rewrite (bind_of_ok _ _ _ _ _ (random_random_after s1)) in Hrun.
  apply bind_ok in Hrun as (im & s2 & Him & Hrun). apply ret_ok in Hrun as [_ ->].
  assert (H1 : (py_calls (after_random st) <= py_calls s1 <= S (py_calls (after_random st)))%nat
               /\ np_calls s1 = np_calls st).
  { destruct (_ <? p_working)%float.
    - apply random_choice_calls in Hw as [-> ->]. split; [lia | reflexivity].
    - apply ret_ok in Hw as [_ ->]. split; [lia | reflexivity]. }
  assert (H2 : (py_calls (after_random s1) <= py_calls s2
                <= S (S (py_calls (after_random s1))))%nat
               /\ np_calls s2 = np_calls s1).
  { destruct (_ <? p_improve)%float.
    - destruct (str_in dept _).
      + rewrite (bind_of_ok _ _ _ _ _ (random_random_after (after_random s1))) in Him.
        destruct (_ <? 0.55)%float.
        * apply ret_ok in Him as [_ ->].
          rewrite !py_calls_after_random. split; [lia | reflexivity].
        * apply random_choice_calls in Him as [-> ->].
          rewrite !py_calls_after_random. split; [lia | reflexivity].
      + apply random_choice_calls in Him as [-> ->]. split; [lia | reflexivity].
    - apply ret_ok in Him as [_ ->]. split; [lia | reflexivity]. }
  rewrite !py_calls_after_random in H1, H2.
  split; [lia | destruct H1, H2; congruence].
Qed.

Lemma respondent_calls c dept_items dept_w i st r st' :
  respondent c dept_items dept_w i st = Ok (r, st') ->
  (py_calls st + 6 <= py_calls st' <= py_calls st + 9)%nat /\
  np_calls st' = (np_calls st + 14)%nat.
Proof.
  intros Hrun.
  apply respondent_inv in Hrun
    as (dept & location & tenure & manager & answers & overall & enps & ts & r1 &
        s1 & s2 & s3 & s4 & s5 & s6 & s7 & Hd & Hl & Ht & Hm & Hans & _ & Henps & Hts &
        _ & Hc).
  apply weighted_choice_calls in Hd as [Hd1 Hd2], Hl as [Hl1 Hl2], Ht as [Ht1 Ht2],
    Hm as [Hm1 Hm2].
  apply sample_answers_calls in Hans as [Ha1 Ha2]. simpl length in Ha2.
  apply generate_enps_calls in Henps as [He1 He2].
  apply generate_timestamp_calls in Hts as [Hs1 Hs2].
  apply open_comments_calls in Hc as [Hc1 Hc2].
  split; lia.
Qed.

Lemma append_respondents_calls c dept_items dept_w idx :
  forall acc st rows st',
    for_each (append_respondent c dept_items dept_w) idx acc st = Ok (rows, st') ->
    (py_calls st + 6 * length idx <= py_calls st' <= py_calls st + 9 * length idx)%nat /\
    np_calls st' = (np_calls st + 14 * length idx)%nat.
Proof.
  induction idx as [| i idx IH]; intros acc st rows st' Hrun; simpl in Hrun.
  - apply ret_ok in Hrun as [_ ->]. simpl. lia.
  - apply bind_ok in Hrun as (acc1 & s1 & Hstep & Hrest).
    unfold append_respondent in Hstep.
    apply bind_ok in Hstep as (r & s2 & Hr & Hret). apply ret_ok in Hret as [_ ->].
    apply respondent_calls in Hr as [Hp Hn].
    apply IH in Hrest as [Hp' Hn']. simpl length. lia.
Qed.

End Counting.

(** X7.  Every respondent costs exactly fourteen calls of NumPy's
    generator (twelve answers, the eNPS, the timestamp) and between six and
    nine calls of Python's (four attributes, two comment gates and up to
    three more for the comments).  Hence a generation of [n] rows leaves
    NumPy's generator [14 n] calls and Python's between [6 n] and [9 n]
    calls after the seeded states. *)
Theorem calls_per_respondent {R : RandomLib} (c : config)
    (st st' : @rng (counted R)) (rows : list row) :
  generate (R := counted R) c st = Ok (rows, st') ->
  np_calls st' = (np_calls st + 14 * length rows)%nat /\
  (py_calls st + 6 * length rows <= py_calls st' <= py_calls st + 9 * length rows)%nat.
Proof.
  intros Hrun.
  assert (Hlen : length rows = length (range1 (N_RESPONSES c))).
  { apply (generate_respondents (R := counted R)) in Hrun as (dept_w & Hrows).
    symmetry. eapply Forall2_length; eassumption. }
  unfold generate in Hrun.
  apply bind_ok in Hrun as (dept_w & s1 & Hw & Hrun). apply lift_ok in Hw as [_ ->].
  apply append_respondents_calls in Hrun as [Hp Hn]. rewrite Hlen. split; [exact Hn | exact Hp].
Qed.

Lemma calls_per_respondent_witness :
  let c := {| SEED := 42; N_RESPONSES := 3; START_DATE := START_DATE default_config;
              DEPT_WEIGHTS := DEPT_WEIGHTS default_config;
              LOCATIONS := LOCATIONS default_config;
              LOCATION_WEIGHTS := LOCATION_WEIGHTS default_config;
              TENURE_BANDS := TENURE_BANDS default_config;
              TENURE_WEIGHTS := TENURE_WEIGHTS default_config |} in
  let st := Rng (R := counted Demo.lcg_lib) (py_seed 42) (np_seed 42) in
  holds_on_run (generate (R := counted Demo.lcg_lib) c st)
    (fun out => length out.1 = 3%nat /\ np_calls out.2 = 42%nat /\
                (18 <= py_calls out.2 <= 27)%nat).
Proof.
  intros c st. apply holds_on_run_intro; [vm_compute; reflexivity |].
  intros [rows st'] Hrun.
  destruct (calls_per_respondent c st st' rows Hrun) as [Hn Hp].
  assert (Hlen : length rows = 3%nat).
  { apply (generate_respondents (R := counted Demo.lcg_lib)) in Hrun as (dept_w & Hrows).
    apply Forall2_length in Hrows. rewrite <- Hrows. reflexivity. }
  rewrite Hlen in Hn, Hp. simpl. split; [exact Hlen |]. split; [exact Hn | exact Hp].
Defined.

(** ** Integers as binary64 numbers *)

Lemma iter_xO_value (p n : positive) : Z.pos (Pos.iter xO p n) = Z.pos p * 2 ^ Z.pos n.
Proof.
  induction n as [| n IH] using Pos.peano_ind.
  - simpl. lia.
  - rewrite Pos.iter_succ, Pos2Z.inj_xO, IH, Pos2Z.inj_succ, Z.pow_succ_r by lia. lia.
Qed.

Lemma iter_xO_digits (p n : positive) :
  digits2_pos (Pos.iter xO p n) = (digits2_pos p + n)%positive.
Proof.
  induction n as [| n IH] using Pos.peano_ind.
  - simpl. lia.
  - rewrite Pos.iter_succ. simpl digits2_pos. rewrite IH. lia.
Qed.

(** Rounding a number that is already in canonical form changes
    nothing. *)
Lemma binary_round_aux_canonical (s : bool) (m : positive) (e : Z) :
  bounded prec emax m e = true ->
  binary_round_aux prec emax s (Z.pos m) e loc_Exact = S754_finite s m e.
Proof.
  unfold bounded, canonical_mantissa. intros H.
  apply andb_true_iff in H as [Hc He]. apply Z.eqb_eq in Hc.
  unfold binary_round_aux, shr_fexp. cbn [Zdigits2 shr_record_of_loc].
  rewrite Hc, Z.sub_diag. cbn [shr shr_m loc_of_shr_record round_nearest_even Zdigits2].
  rewrite Hc, Z.sub_diag. cbn [shr shr_m]. rewrite He. reflexivity.
Qed.

(** The binary64 number of a positive integer below [2^53]: the integer
    itself, shifted to a mantissa of 53 bits. *)
Lemma of_Z_pos_shape (p : positive) :
  Z.pos p < 2 ^ 53 ->
  exists m e,
    Prim2SF (F.of_Z (Z.pos p)) = S754_finite false m e /\
    e = Z.pos (digits2_pos p) - 53 /\ e <= 0 /\
    Z.pos m = Z.pos p * 2 ^ (- e).
Proof.
  intros Hp. pose proof (digits2_pos_bounds p) as [Hlo Hhi].
  set (d := digits2_pos p) in *.
  assert (Hd : Z.pos d <= 53).
  { destruct (Z.le_gt_cases (Z.pos d) 53) as [| Hgt]; [assumption |].
    assert (2 ^ 53 <= 2 ^ (Z.pos d - 1)) by (apply Z.pow_le_mono_r; lia). lia. }
  assert (Hshape : exists m,
    binary_round prec emax false p 0 = S754_finite false m (Z.pos d - 53) /\
    bounded prec emax m (Z.pos d - 53) = true /\
    Z.pos m = Z.pos p * 2 ^ (53 - Z.pos d)).
  { unfold binary_round, shl_align. fold d.
    assert (Hf : fexp prec emax (Z.pos d + 0) = Z.pos d - 53).
    { unfold fexp, emin, prec, emax. lia. }
    rewrite Hf.
    destruct (Z.pos d - 53 - 0) as [| q | q] eqn:Eq; [| lia |].
    - assert (Hd53 : Z.pos d = 53) by lia.
      assert (Hb : bounded prec emax p 0 = true).
      { unfold bounded, canonical_mantissa. fold d. rewrite Z.add_0_r, Hd53. reflexivity. }
      exists p. rewrite Hd53. change (53 - 53) with 0.
      rewrite binary_round_aux_canonical by exact Hb.
      split; [reflexivity |]. split; [exact Hb |]. simpl. lia.
    - assert (Hq : Z.pos q = 53 - Z.pos d) by lia.
      assert (Hb : bounded prec emax (Pos.iter xO p q) (Z.pos d - 53) = true).
      { unfold bounded, canonical_mantissa. rewrite iter_xO_digits. fold d.
        apply andb_true_iff. split; [apply Z.eqb_eq | apply Z.leb_le].
        - unfold fexp, emin, prec, emax. lia.
        - unfold prec, emax. lia. }
      exists (Pos.iter xO p q).
      rewrite binary_round_aux_canonical by exact Hb.
      split; [reflexivity |]. split; [exact Hb |]. rewrite iter_xO_value, Hq. reflexivity. }
  destruct Hshape as (m & Hr & Hb & Hm).
  exists m, (Z.pos d - 53). split.
  - unfold F.of_Z. cbn [binary_normalize]. rewrite Hr. apply Prim2SF_SF2Prim. exact Hb.
  - split; [reflexivity |]. split; [lia |]. rewrite Hm. f_equal. f_equal. lia.
Qed.

Lemma Prim2SF_of_Z_0 : Prim2SF (F.of_Z 0) = S754_zero false.
Proof. vm_compute. reflexivity. Qed.

(** Between integers of [0 .. 2^53) the order of the binary64 numbers is
    the order of the integers. *)
Lemma of_Z_compare (a b : Z) :
  0 <= a < 2 ^ 53 -> 0 <= b < 2 ^ 53 ->
  SFcompare (Prim2SF (F.of_Z a)) (Prim2SF (F.of_Z b)) = Some (a ?= b).
Proof.
  intros Ha Hb.
  destruct a as [| pa | pa]; [| | lia]; destruct b as [| pb | pb]; try lia.
  - rewrite Prim2SF_of_Z_0. reflexivity.
  - destruct (of_Z_pos_shape pb) as (m & e & -> & _); [lia |].
    rewrite Prim2SF_of_Z_0. reflexivity.
  - destruct (of_Z_pos_shape pa) as (m & e & -> & _); [lia |].
    rewrite Prim2SF_of_Z_0. reflexivity.
  - destruct (of_Z_pos_shape pa) as (ma & ea & -> & Hea & Hea0 & Hma); [lia |].
    destruct (of_Z_pos_shape pb) as (mb & eb & -> & Heb & Heb0 & Hmb); [lia |].
    pose proof (digits2_pos_bounds pa) as [Hla Hha].
    pose proof (digits2_pos_bounds pb) as [Hlb Hhb].
    set (da := Z.pos (digits2_pos pa)) in *. set (db := Z.pos (digits2_pos pb)) in *.
    cbn [SFcompare]. f_equal.
    destruct (Z.compare_spec ea eb) as [He | He | He].
    + assert (Hd : da = db) by lia. rewrite He in Hma.
      assert (Hpow : 0 < 2 ^ (- eb)) by (apply Z.pow_pos_nonneg; lia).
      change (PosDef.Pos.compare_cont Eq ma mb) with (Z.pos ma ?= Z.pos mb).
      rewrite Hma, Hmb. symmetry. apply Zmult_compare_compat_r. lia.
    + symmetry. apply Z.compare_lt_iff.
      assert (2 ^ da <= 2 ^ (db - 1)) by (apply Z.pow_le_mono_r; lia). lia.
    + symmetry. apply Z.compare_gt_iff.
      assert (2 ^ db <= 2 ^ (da - 1)) by (apply Z.pow_le_mono_r; lia). lia.
Qed.

Lemma of_Z_leb (a b : Z) :
  0 <= a < 2 ^ 53 -> 0 <= b < 2 ^ 53 -> (F.of_Z a <=? F.of_Z b)%float = (a <=? b).
Proof.
  intros Ha Hb. rewrite leb_spec. unfold SFleb. rewrite of_Z_compare by assumption.
  unfold Z.leb. destruct (a ?= b); reflexivity.
Qed.

(** [int(float(q))] gives [q] back. *)
Lemma to_int_of_Z (q : Z) : 0 <= q < 2 ^ 53 -> F.to_int (F.of_Z q) = Ok q.
Proof.
  intros Hq. unfold F.to_int. destruct q as [| p | p]; [| | lia].
  - rewrite Prim2SF_of_Z_0. reflexivity.
  - destruct (of_Z_pos_shape p) as (m & e & -> & He & He0 & Hm); [lia |].
    f_equal. unfold F.trunc_finite, F.div2k_trunc.
    destruct (Z.leb_spec 0 e) as [H0 | H0].
    + assert (E0 : e = 0) by lia. clear He. subst e. rewrite Hm.
      change (2 ^ (- 0)) with 1. lia.
    + rewrite Hm. apply Z.div_mul. apply Z.pow_nonzero; lia.
Qed.

(** ** Rounding and clamping *)

Lemma of_Z_shape (n : Z) :
  0 <= n < 2 ^ 53 ->
  (n = 0 /\ Prim2SF (F.of_Z n) = S754_zero false) \/
  (0 < n /\ exists m e, Prim2SF (F.of_Z n) = S754_finite false m e /\ e <= 0 /\
                        (n < 2 ^ 52 -> e < 0)).
Proof.
  intros Hn. destruct n as [| p | p]; [left | right | lia].
  - split; [reflexivity | apply Prim2SF_of_Z_0].
  - split; [lia |]. destruct (of_Z_pos_shape p) as (m & e & Hs & He & He0 & _); [lia |].
    exists m, e. split; [exact Hs |]. split; [exact He0 |]. intros Hp.
    pose proof (digits2_pos_bounds p) as [Hlo _].
    destruct (Z.lt_ge_cases e 0) as [| Hge]; [assumption | exfalso].
    assert (Hd : Z.pos (digits2_pos p) = 53) by lia. rewrite Hd in Hlo. simpl in Hlo. lia.
Qed.

Lemma is_nan_false_SF x : is_nan x = false -> Prim2SF x <> S754_nan.
Proof. intros H E. apply is_nan_Prim2SF in E. congruence. Qed.

Lemma clip_le_zero (y : float) (lo hi : Z) :
  0 <= lo <= hi -> hi < 2 ^ 53 ->
  SF_le_zero (Prim2SF y) ->
  F.to_int (F.clip y (F.of_Z lo) (F.of_Z hi)) = Ok lo.
Proof.
  intros Hlo Hhi Hy.
  assert (Hn : is_nan y = false).
  { apply is_nan_false_Prim2SF. intros E. rewrite E in Hy. exact Hy. }
  unfold F.clip, F.maximum. rewrite Hn, orb_false_r.
  destruct (F.of_Z lo <=? y)%float eqn:Hc.
  - (* only when both are zeros *)
    rewrite leb_spec in Hc. unfold F.minimum. rewrite Hn, orb_false_r.
    destruct (of_Z_shape lo) as [[-> Hs] | (Hpos & m & e & Hs & _)]; [lia | |].
    + destruct (Prim2SF y) as [s | s | | s m e] eqn:Ey; simpl in Hy; try contradiction.
      * assert (Hle : (y <=? F.of_Z hi)%float = true).
        { rewrite leb_spec, Ey.
          destruct (of_Z_shape hi) as [[_ ->] | (_ & m & e & -> & _)]; [lia | | ]; reflexivity. }
        rewrite Hle. unfold F.to_int. rewrite Ey. reflexivity.
      * subst s. rewrite Hs in Hc. discriminate.
      * subst s. rewrite Hs in Hc. discriminate.
    + rewrite Hs in Hc.
      destruct (Prim2SF y) as [s | s | | s m' e']; simpl in Hy; try contradiction;
        try subst s; discriminate.
  - unfold F.minimum. rewrite of_Z_not_nan, orb_false_r.
    rewrite of_Z_leb by lia. destruct (Z.leb_spec lo hi); [| lia].
    apply to_int_of_Z. lia.
Qed.

Lemma clip_big (y : float) (lo hi : Z) :
  0 <= lo <= hi -> hi < 2 ^ 52 ->
  SF_big (Prim2SF y) ->
  F.to_int (F.clip y (F.of_Z lo) (F.of_Z hi)) = Ok hi.
Proof.
  intros Hlo Hhi Hy.
  assert (Hp : 2 ^ 52 < 2 ^ 53) by (apply Z.pow_lt_mono_r; lia).
  assert (Hn : is_nan y = false).
  { apply is_nan_false_Prim2SF. intros E. rewrite E in Hy. exact Hy. }
  assert (Hcmp : forall n, 0 <= n < 2 ^ 52 ->
            SFcompare (Prim2SF (F.of_Z n)) (Prim2SF y) = Some Lt /\
            SFcompare (Prim2SF y) (Prim2SF (F.of_Z n)) = Some Gt).
  { intros n Hn'.
    destruct (of_Z_shape n) as [[_ ->] | (_ & m & e & -> & _ & He)]; [lia | |].
    - destruct (Prim2SF y) as [s | s | | s m e]; simpl in Hy; try contradiction.
      + subst s. split; reflexivity.
      + destruct Hy as [-> _]. split; reflexivity.
    - specialize (He ltac:(lia)).
      destruct (Prim2SF y) as [s | s | | s m' e']; simpl in Hy; try contradiction.
      + subst s. split; reflexivity.
      + destruct Hy as [-> He']. cbn [SFcompare].
        assert (E1 : (e ?= e') = Lt) by (apply Z.compare_lt_iff; lia).
        assert (E2 : (e' ?= e) = Gt) by (apply Z.compare_gt_iff; lia).
        rewrite E1, E2. split; reflexivity. }
  unfold F.clip, F.maximum. rewrite Hn, orb_false_r.
  rewrite leb_spec. unfold SFleb. rewrite (proj1 (Hcmp lo ltac:(lia))).
  unfold F.minimum. rewrite Hn, orb_false_r.
  rewrite leb_spec. unfold SFleb. rewrite (proj2 (Hcmp hi ltac:(lia))).
  apply to_int_of_Z. lia.
Qed.

Lemma clip_of_Z (q lo hi : Z) :
  0 <= q < 2 ^ 53 -> 0 <= lo <= hi -> hi < 2 ^ 53 ->
  F.to_int (F.clip (F.of_Z q) (F.of_Z lo) (F.of_Z hi)) = Ok (Z.min (Z.max q lo) hi).
Proof.
  intros Hq Hlo Hhi. unfold F.clip, F.maximum, F.minimum.
  rewrite of_Z_not_nan, orb_false_r, of_Z_leb by lia.
  destruct (Z.leb_spec lo q).
  - rewrite of_Z_not_nan, orb_false_r, of_Z_leb by lia.
    destruct (Z.leb_spec q hi); rewrite to_int_of_Z by lia; f_equal; lia.
  - rewrite of_Z_not_nan, orb_false_r, of_Z_leb by lia.
    destruct (Z.leb_spec lo hi); rewrite to_int_of_Z by lia; f_equal; lia.
Qed.

Lemma div2k_half_even_range (m k : Z) :
  0 <= m -> 0 < k -> 0 <= F.div2k_half_even m k <= m / 2 + 1.
Proof.
  intros Hm Hk. unfold F.div2k_half_even.
  assert (Hd : 2 <= 2 ^ k).
  { change 2 with (2 ^ 1) at 1. apply Z.pow_le_mono_r; lia. }
  pose proof (Z.div_mod m (2 ^ k) ltac:(lia)) as Hdm.
  pose proof (Z.mod_pos_bound m (2 ^ k) ltac:(lia)) as Hr.
  assert (Hq0 : 0 <= m / 2 ^ k) by (apply Z.div_pos; lia).
  assert (Hq1 : m / 2 ^ k <= m / 2).
  { apply Z.div_le_compat_l; lia. }
  assert (Hq2 : m / 2 ^ k + 1 <= m / 2 + 1) by lia.
  destruct (2 * (m mod 2 ^ k) ?= 2 ^ k); [destruct (Z.even _) | |]; lia.
Qed.

(** [int(numpy.clip(numpy.rint(x), lo, hi))] for integer bounds. *)
Lemma round_clamp (lo hi : Z) (x : float) :
  0 <= lo <= hi -> hi < 2 ^ 52 ->
  is_nan x = false ->
  F.to_int (F.clip (F.rint x) (F.of_Z lo) (F.of_Z hi)) = Ok (rint_clamp lo hi (Prim2SF x)).
Proof.
  intros Hlo Hhi Hn.
  assert (Hp : 2 ^ 52 < 2 ^ 53) by (apply Z.pow_lt_mono_r; lia).
  pose proof (Prim2SF_valid x) as Hv.
  unfold F.rint, rint_clamp.
  destruct (Prim2SF x) as [s | s | | s m e] eqn:Ex.
  - apply clip_le_zero; [lia | lia |]. now rewrite Ex.
  - destruct s.
    + apply clip_le_zero; [lia | lia |]. now rewrite Ex.
    + apply clip_big; [lia | lia |]. now rewrite Ex.
  - apply is_nan_false_SF in Hn. contradiction.
  - destruct (Z.leb_spec 0 e) as [He | He].
    + destruct s.
      * apply clip_le_zero; [lia | lia |]. now rewrite Ex.
      * apply clip_big; [lia | lia |]. rewrite Ex. split; [reflexivity | exact He].
    + apply valid_mantissa in Hv as [Hm _].
      pose proof (div2k_half_even_range (Z.pos m) (- e) ltac:(lia) ltac:(lia)) as Hq.
      assert (Hq' : F.div2k_half_even (Z.pos m) (- e) < 2 ^ 53).
      { assert (Z.pos m / 2 < 2 ^ 52).
        { apply Z.div_lt_upper_bound; [lia |]. rewrite <- Z.pow_succ_r by lia. exact Hm. }
        lia. }
      destruct s.
      * apply clip_le_zero; [lia | lia |]. rewrite opp_spec.
        destruct (of_Z_shape (F.div2k_half_even (Z.pos m) (- e)))
          as [[_ ->] | (_ & m' & e' & -> & _)]; [lia | |]; reflexivity.
      * apply clip_of_Z; lia.
Qed.

(** ** Scores as bins of the sample *)

(** ** Rounding half to even on integers *)

Lemma mul_lt_cancel (a b d : Z) : 0 < d -> a * d < b * d -> a < b.
Proof. intros Hd H. now apply Z.mul_lt_mono_pos_r in H. Qed.

Lemma div2k_half_even_inside (m k q : Z) :
  0 <= k ->
  (2 * q - 1) * 2 ^ k < 2 * m < (2 * q + 1) * 2 ^ k ->
  F.div2k_half_even m k = q.
Proof.
  intros Hk Hm. unfold F.div2k_half_even.
  assert (Hd : 0 < 2 ^ k) by (apply Z.pow_pos_nonneg; lia).
  pose proof (Z.div_mod m (2 ^ k) ltac:(lia)) as Hdm.
  pose proof (Z.mod_pos_bound m (2 ^ k) Hd) as Hr.
  set (d := 2 ^ k) in *. set (q0 := m / d) in *. set (r := m mod d) in *.
  destruct (Z.compare_spec (2 * r) d) as [He | He | He].
  - exfalso.
    assert (H1 : 2 * q - 1 < 2 * q0 + 1) by (apply (mul_lt_cancel _ _ d Hd); lia).
    assert (H2 : 2 * q0 + 1 < 2 * q + 1) by (apply (mul_lt_cancel _ _ d Hd); lia).
    lia.
  - assert (H1 : 2 * q - 1 < 2 * q0 + 1) by (apply (mul_lt_cancel _ _ d Hd); lia).
    assert (H2 : 2 * q0 < 2 * q + 1) by (apply (mul_lt_cancel _ _ d Hd); lia).
    lia.
  - assert (H1 : 2 * q0 + 1 < 2 * q + 1) by (apply (mul_lt_cancel _ _ d Hd); lia).
    assert (H2 : 2 * q - 1 < 2 * q0 + 2) by (apply (mul_lt_cancel _ _ d Hd); lia).
    lia.
Qed.

Lemma div2k_half_even_tie (m k q : Z) :
  0 <= k ->
  2 * m = (2 * q + 1) * 2 ^ k ->
  F.div2k_half_even m k = if Z.even q then q else q + 1.
Proof.
  intros Hk Hm. unfold F.div2k_half_even.
  assert (Hd : 0 < 2 ^ k) by (apply Z.pow_pos_nonneg; lia).
  pose proof (Z.div_mod m (2 ^ k) ltac:(lia)) as Hdm.
  pose proof (Z.mod_pos_bound m (2 ^ k) Hd) as Hr.
  set (d := 2 ^ k) in *. set (q0 := m / d) in *. set (r := m mod d) in *.
  assert (Hq : q0 = q).
  { assert (H1 : 2 * q0 < 2 * q + 2) by (apply (mul_lt_cancel _ _ d Hd); lia).
    assert (H2 : 2 * q < 2 * q0 + 2) by (apply (mul_lt_cancel _ _ d Hd); lia).
    lia. }
  rewrite Hq in *.
  destruct (Z.compare_spec (2 * r) d) as [He | He | He]; [reflexivity | exfalso; lia ..].
Qed.

Lemma div2k_half_even_low (m k : Z) :
  0 <= m -> 0 <= k -> m < 2 ^ k -> 0 <= F.div2k_half_even m k <= 1.
Proof.
  intros Hm Hk Hlt. unfold F.div2k_half_even.
  rewrite Z.div_small, Z.mod_small by lia.
  destruct (2 * m ?= 2 ^ k); simpl; lia.
Qed.

Lemma div2k_half_even_high (m k c : Z) :
  0 <= k -> c * 2 ^ k <= m -> c <= F.div2k_half_even m k.
Proof.
  intros Hk Hm. unfold F.div2k_half_even.
  assert (Hd : 0 < 2 ^ k) by (apply Z.pow_pos_nonneg; lia).
  assert (Hq : c <= m / 2 ^ k) by (apply Z.div_le_lower_bound; lia).
  destruct (_ ?= _); [destruct (Z.even _) | |]; lia.
Qed.

Lemma pow2_49 : 2 ^ 49 = 562949953421312. Proof. reflexivity. Qed.
Lemma pow2_50 : 2 ^ 50 = 1125899906842624. Proof. reflexivity. Qed.
Lemma pow2_51 : 2 ^ 51 = 2251799813685248. Proof. reflexivity. Qed.

Lemma div2k_half_even_ge (m k c : Z) :
  0 <= k -> (2 * c - 1) * 2 ^ k < 2 * m -> c <= F.div2k_half_even m k.
Proof.
  intros Hk Hm. unfold F.div2k_half_even.
  assert (Hd : 0 < 2 ^ k) by (apply Z.pow_pos_nonneg; lia).
  pose proof (Z.div_mod m (2 ^ k) ltac:(lia)) as Hdm.
  pose proof (Z.mod_pos_bound m (2 ^ k) Hd) as Hr.
  set (d := 2 ^ k) in *. set (q0 := m / d) in *. set (r := m mod d) in *.
  destruct (Z.compare_spec (2 * r) d) as [He | He | He].
  - assert (H1 : 2 * c - 1 < 2 * q0 + 1) by (apply (mul_lt_cancel _ _ d Hd); lia).
    destruct (Z.even q0); lia.
  - assert (H1 : 2 * c - 1 < 2 * q0 + 1) by (apply (mul_lt_cancel _ _ d Hd); lia). lia.
  - assert (H1 : 2 * c - 1 < 2 * q0 + 2) by (apply (mul_lt_cancel _ _ d Hd); lia). lia.
Qed.

Local Ltac pow_lia := rewrite ?pow2_49, ?pow2_50, ?pow2_51, ?pow2_52, ?pow2_53; lia.

(** Settles [int(clip(rint(x)))] for a mantissa between two thresholds, on
    one, or beyond the last. *)
Local Ltac settle_rounding :=
  first
    [ first
        [ rewrite (div2k_half_even_inside _ _ 0) by pow_lia
        | rewrite (div2k_half_even_inside _ _ 1) by pow_lia
        | rewrite (div2k_half_even_inside _ _ 2) by pow_lia
        | rewrite (div2k_half_even_inside _ _ 3) by pow_lia
        | rewrite (div2k_half_even_inside _ _ 4) by pow_lia
        | rewrite (div2k_half_even_inside _ _ 5) by pow_lia
        | rewrite (div2k_half_even_inside _ _ 6) by pow_lia
        | rewrite (div2k_half_even_inside _ _ 7) by pow_lia
        | rewrite (div2k_half_even_inside _ _ 8) by pow_lia
        | rewrite (div2k_half_even_inside _ _ 9) by pow_lia
        | rewrite (div2k_half_even_tie _ _ 0) by pow_lia
        | rewrite (div2k_half_even_tie _ _ 1) by pow_lia
        | rewrite (div2k_half_even_tie _ _ 2) by pow_lia
        | rewrite (div2k_half_even_tie _ _ 3) by pow_lia
        | rewrite (div2k_half_even_tie _ _ 4) by pow_lia
        | rewrite (div2k_half_even_tie _ _ 5) by pow_lia
        | rewrite (div2k_half_even_tie _ _ 6) by pow_lia
        | rewrite (div2k_half_even_tie _ _ 7) by pow_lia
        | rewrite (div2k_half_even_tie _ _ 8) by pow_lia
        | rewrite (div2k_half_even_tie _ _ 9) by pow_lia ];
      reflexivity
    | match goal with
      | |- Z.min (Z.max ?q _) ?hi = _ =>
          assert (hi <= q) by (apply div2k_half_even_ge; [lia | pow_lia]); lia
      end ].

(** Evaluates the comparisons of closed exponents. *)
Local Ltac eval_exponents :=
  repeat match goal with
  | |- context [Z.compare ?a ?b] =>
      let v := eval vm_compute in (Z.compare a b) in change (Z.compare a b) with v
  end;
  cbv iota;
  change (- -53) with 53; change (- -52) with 52; change (- -51) with 51;
  change (- -50) with 50; change (- -49) with 49.

Lemma rint_clamp_likert (f : spec_float) :
  valid_binary f = true -> f <> S754_nan ->
  rint_clamp 1 5 f =
  if SFltb f (S754_finite false 6755399441055744 (-52)) then 1
  else if SFleb f (S754_finite false 5629499534213120 (-51)) then 2
  else if SFltb f (S754_finite false 7881299347898368 (-51)) then 3
  else if SFleb f (S754_finite false 5066549580791808 (-50)) then 4
  else 5.
Proof.
  intros Hv Hn. destruct f as [s | s | | s m e];
    [reflexivity | destruct s; reflexivity | contradiction |].
  destruct s; [reflexivity |].
  apply valid_mantissa in Hv as [Hhi Hlo]. rewrite pow2_53 in Hhi. rewrite pow2_52 in Hlo.
  unfold rint_clamp.
  destruct (Z.leb_spec 0 e) as [He | He].
  { assert (E1 : (e ?= -52) = Gt) by (apply Z.compare_gt_iff; lia).
    assert (E2 : (e ?= -51) = Gt) by (apply Z.compare_gt_iff; lia).
    assert (E3 : (e ?= -50) = Gt) by (apply Z.compare_gt_iff; lia).
    unfold SFltb, SFleb, SFcompare. rewrite E1, E2, E3. reflexivity. }
  destruct (Z.lt_ge_cases e (-52)) as [Hs | Hs].
  { assert (E1 : (e ?= -52) = Lt) by (apply Z.compare_lt_iff; lia).
    unfold SFltb, SFcompare. rewrite E1.
    assert (Hq : 0 <= F.div2k_half_even (Z.pos m) (- e) <= 1).
    { apply div2k_half_even_low; [lia | lia |].
      assert (2 ^ 53 <= 2 ^ (- e)) by (apply Z.pow_le_mono_r; lia).
      rewrite pow2_53 in *. lia. }
    lia. }
  destruct (Z.lt_ge_cases (-50) e) as [Hb | Hb].
  { assert (E1 : (e ?= -52) = Gt) by (apply Z.compare_gt_iff; lia).
    assert (E2 : (e ?= -51) = Gt) by (apply Z.compare_gt_iff; lia).
    assert (E3 : (e ?= -50) = Gt) by (apply Z.compare_gt_iff; lia).
    unfold SFltb, SFleb, SFcompare. rewrite E1, E2, E3.
    assert (Hq : 8 <= F.div2k_half_even (Z.pos m) (- e)).
    { apply div2k_half_even_high; [lia |].
      assert (2 ^ (- e) <= 2 ^ 49) by (apply Z.pow_le_mono_r; lia).
      rewrite pow2_49 in *. lia. }
    lia. }
  specialize (Hlo ltac:(lia)).
  assert (Hc : e = -52 \/ e = -51 \/ e = -50) by lia.
  destruct Hc as [-> | [-> | ->]]; unfold SFltb, SFleb, SFcompare; eval_exponents;
    cmp_cases; try lia; settle_rounding.
Qed.

Lemma rint_clamp_enps (f : spec_float) :
  valid_binary f = true -> f <> S754_nan ->
  rint_clamp 0 10 f =
  if SFleb f (S754_finite false 4503599627370496 (-53)) then 0
  else if SFltb f (S754_finite false 6755399441055744 (-52)) then 1
  else if SFleb f (S754_finite false 5629499534213120 (-51)) then 2
  else if SFltb f (S754_finite false 7881299347898368 (-51)) then 3
  else if SFleb f (S754_finite false 5066549580791808 (-50)) then 4
  else if SFltb f (S754_finite false 6192449487634432 (-50)) then 5
  else if SFleb f (S754_finite false 7318349394477056 (-50)) then 6
  else if SFltb f (S754_finite false 8444249301319680 (-50)) then 7
  else if SFleb f (S754_finite false 4785074604081152 (-49)) then 8
  else if SFltb f (S754_finite false 5348024557502464 (-49)) then 9
  else 10.
Proof.
  intros Hv Hn. destruct f as [s | s | | s m e];
    [reflexivity | destruct s; reflexivity | contradiction |].
  destruct s; [reflexivity |].
  apply valid_mantissa in Hv as [Hhi Hlo]. rewrite pow2_53 in Hhi. rewrite pow2_52 in Hlo.
  unfold rint_clamp.
  destruct (Z.leb_spec 0 e) as [He | He].
  { assert (E0 : (e ?= -53) = Gt) by (apply Z.compare_gt_iff; lia).
    assert (E1 : (e ?= -52) = Gt) by (apply Z.compare_gt_iff; lia).
    assert (E2 : (e ?= -51) = Gt) by (apply Z.compare_gt_iff; lia).
    assert (E3 : (e ?= -50) = Gt) by (apply Z.compare_gt_iff; lia).
    assert (E4 : (e ?= -49) = Gt) by (apply Z.compare_gt_iff; lia).
    unfold SFltb, SFleb, SFcompare. rewrite E0, E1, E2, E3, E4. reflexivity. }
  destruct (Z.lt_ge_cases e (-53)) as [Hs | Hs].
  { assert (E1 : (e ?= -53) = Lt) by (apply Z.compare_lt_iff; lia).
    unfold SFleb, SFcompare. rewrite E1.
    rewrite (div2k_half_even_inside _ _ 0); [reflexivity | lia |].
    assert (2 ^ 54 <= 2 ^ (- e)) by (apply Z.pow_le_mono_r; lia).
    change (2 ^ 54) with 18014398509481984 in *. lia. }
  destruct (Z.lt_ge_cases (-49) e) as [Hb | Hb].
  { assert (E0 : (e ?= -53) = Gt) by (apply Z.compare_gt_iff; lia).
    assert (E1 : (e ?= -52) = Gt) by (apply Z.compare_gt_iff; lia).
    assert (E2 : (e ?= -51) = Gt) by (apply Z.compare_gt_iff; lia).
    assert (E3 : (e ?= -50) = Gt) by (apply Z.compare_gt_iff; lia).
    assert (E4 : (e ?= -49) = Gt) by (apply Z.compare_gt_iff; lia).
    unfold SFltb, SFleb, SFcompare. rewrite E0, E1, E2, E3, E4.
    assert (Hq : 16 <= F.div2k_half_even (Z.pos m) (- e)).
    { apply div2k_half_even_high; [lia |].
      assert (2 ^ (- e) <= 2 ^ 48) by (apply Z.pow_le_mono_r; lia).
      change (2 ^ 48) with 281474976710656 in *. lia. }
    lia. }
  specialize (Hlo ltac:(lia)).
  assert (Hc : e = -53 \/ e = -52 \/ e = -51 \/ e = -50 \/ e = -49) by lia.
  destruct Hc as [-> | [-> | [-> | [-> | ->]]]]; unfold SFltb, SFleb, SFcompare;
    eval_exponents; cmp_cases; try lia; settle_rounding.
Qed.

Lemma Prim2SF_thresholds :
  Prim2SF 0.5 = S754_finite false 4503599627370496 (-53) /\
  Prim2SF 1.5 = S754_finite false 6755399441055744 (-52) /\
  Prim2SF 2.5 = S754_finite false 5629499534213120 (-51) /\
  Prim2SF 3.5 = S754_finite false 7881299347898368 (-51) /\
  Prim2SF 4.5 = S754_finite false 5066549580791808 (-50) /\
  Prim2SF 5.5 = S754_finite false 6192449487634432 (-50) /\
  Prim2SF 6.5 = S754_finite false 7318349394477056 (-50) /\
  Prim2SF 7.5 = S754_finite false 8444249301319680 (-50) /\
  Prim2SF 8.5 = S754_finite false 4785074604081152 (-49) /\
  Prim2SF 9.5 = S754_finite false 5348024557502464 (-49).
Proof. vm_compute. repeat split; reflexivity. Qed.

Lemma of_Z_literals :
  F.of_Z 0 = 0%float /\ F.of_Z 1 = 1%float /\ F.of_Z 5 = 5%float /\ F.of_Z 10 = 10%float.
Proof. vm_compute. repeat split; reflexivity. Qed.

(** [int(np.clip(np.rint(x), 1, 5))] and [int(np.clip(np.rint(x), 0, 10))]
    as bins of [x]. *)
Lemma likert_of_sample_spec (x : float) :
  is_nan x = false -> F.to_int (F.clip (F.rint x) 1 5) = Ok (likert_of_sample x).
Proof.
  intros Hn. destruct of_Z_literals as (_ & H1 & H5 & _).
  rewrite <- H1, <- H5.
  rewrite round_clamp by (try assumption; try lia; reflexivity).
  rewrite rint_clamp_likert by (try apply Prim2SF_valid; now apply is_nan_false_SF).
  unfold likert_of_sample. rewrite !ltb_spec, !leb_spec.
  destruct Prim2SF_thresholds as (_ & -> & -> & -> & -> & _). reflexivity.
Qed.

Lemma enps_of_sample_spec (x : float) :
  is_nan x = false -> F.to_int (F.clip (F.rint x) 0 10) = Ok (enps_of_sample x).
Proof.
  intros Hn. destruct of_Z_literals as (H0 & _ & _ & H10).
  rewrite <- H0, <- H10.
  rewrite round_clamp by (try assumption; try lia; reflexivity).
  rewrite rint_clamp_enps by (try apply Prim2SF_valid; now apply is_nan_false_SF).
  unfold enps_of_sample. rewrite !ltb_spec, !leb_spec.
  destruct Prim2SF_thresholds as (-> & -> & -> & -> & -> & -> & -> & -> & -> & ->).
  reflexivity.
Qed.

(** X8.  The score that [likert_from_mean] returns is a function of the
    normal sample alone: [1] below [1.5], [2] from [1.5] to [2.5], [3]
    strictly between [2.5] and [3.5], [4] from [3.5] to [4.5] and [5] above
    [4.5].  Rounding half to even makes the bins of [2] and [4] closed at
    both ends and the bin of [3] open. *)
Theorem likert_score_bins {R : RandomLib} (mean : float) (st : rng) :
  let x := (np_normal mean 0.85 (np st)).1 in
  is_nan x = false ->
  likert_from_mean mean st = Ok (likert_of_sample x, after_normal mean 0.85 st).
Proof.
  intros x Hn. unfold likert_from_mean.
  rewrite (bind_of_ok _ _ _ _ _ (np_random_normal_run mean 0.85 st)). fold x.
  unfold lift. rewrite likert_of_sample_spec by exact Hn. reflexivity.
Qed.

Lemma likert_score_bins_witness :
  let st := Rng (R := Demo.constant_lib 0.5 1) (py_seed 42) (np_seed 42) in
  likert_from_mean 2.075 st = Ok (2, st) /\ likert_from_mean 2.076 st = Ok (3, st).
Proof.
  intros st. split.
  - exact (likert_score_bins (R := Demo.constant_lib 0.5 1) 2.075 st eq_refl).
  - exact (likert_score_bins (R := Demo.constant_lib 0.5 1) 2.076 st eq_refl).
Defined.

(** X9.  When the overall score converts to a float, the eNPS that
    [generate_enps_from_engagement] returns is a function of the normal
    sample alone: [0] up to [0.5], [10] from [9.5] on, and between them the
    nearest integer, a sample half-way between two integers going to the
    even one.  An overall score too large for a float raises
    [OverflowError]. *)
Theorem enps_score_bins {R : RandomLib}
    (overall : Z) (dept : string) (st : rng) (mu : float) (e : exn) :
  (enps_mean overall dept = Ok mu ->
   let x := (np_normal mu 1.9 (np st)).1 in
   is_nan x = false ->
   generate_enps_from_engagement overall dept st
   = Ok (enps_of_sample x, after_normal mu 1.9 st)) /\
  (enps_mean overall dept = Raise e ->
   generate_enps_from_engagement overall dept st = Raise OverflowError).
Proof.
  split.
  - intros Hmu x Hn. unfold generate_enps_from_engagement.
    assert (Hl : lift (enps_mean overall dept) st = Ok (mu, st))
      by (unfold lift; now rewrite Hmu).
    rewrite (bind_of_ok _ _ _ _ _ Hl).
    rewrite (bind_of_ok _ _ _ _ _ (np_random_normal_run mu 1.9 st)). fold x.
    unfold lift. rewrite enps_of_sample_spec by exact Hn. reflexivity.
  - intros Hmu. pose proof (enps_mean_raise _ _ _ Hmu) as ->.
    now apply generate_enps_from_engagement_raise.
Qed.

Lemma enps_score_bins_witness :
  let st := Rng (R := Demo.constant_lib (-2.5) 1) (py_seed 42) (np_seed 42) in
  generate_enps_from_engagement 5 "Engineering" st = Ok (10, st) /\
  generate_enps_from_engagement 1 "Finance" st = Ok (0, st) /\
  generate_enps_from_engagement (2 ^ 1024) "Finance" st = Raise OverflowError.
Proof.
  intros st. split; [| split].
  - assert (Hmu : enps_mean 5 "Engineering" = Ok 14.3%float) by (vm_compute; reflexivity).
    exact (proj1 (enps_score_bins (R := Demo.constant_lib (-2.5) 1) 5 "Engineering" st
                    14.3 ValueError) Hmu eq_refl).
  - assert (Hmu : enps_mean 1 "Finance" = Ok 4%float) by (vm_compute; reflexivity).
    exact (proj1 (enps_score_bins (R := Demo.constant_lib (-2.5) 1) 1 "Finance" st
                    4 ValueError) Hmu eq_refl).
  - assert (Hmu : enps_mean (2 ^ 1024) "Finance" = Raise OverflowError)
      by (vm_compute; reflexivity).
    exact (proj2 (enps_score_bins (R := Demo.constant_lib (-2.5) 1) (2 ^ 1024) "Finance" st
                    0 OverflowError) Hmu).
Defined.

(** ** Signs of products and quotients *)

Lemma binary_round_aux_sign (s : bool) (m e : Z) (l : location) :
  match binary_round_aux prec emax s m e l with
  | S754_zero s' | S754_infinity s' | S754_finite s' _ _ => s' = s
  | S754_nan => True
  end.
Proof.
  unfold binary_round_aux.
  destruct (shr_fexp prec emax m e l) as [mrs e'].
  destruct (shr_fexp prec emax _ e' loc_Exact) as [mrs' e''].
  destruct (shr_m mrs'); [reflexivity | | exact I].
  destruct (e'' <=? emax - prec); reflexivity.
Qed.

Lemma binary_round_aux_nonneg (m e : Z) (l : location) :
  SF_nonneg (binary_round_aux prec emax false m e l).
Proof.
  pose proof (binary_round_aux_sign false m e l) as H.
  destruct (binary_round_aux prec emax false m e l); simpl; auto.
Qed.

Lemma SFmul_nonneg (a b : spec_float) :
  SF_nonneg a -> SF_nonneg b -> SF_nonneg (SFmul prec emax a b).
Proof.
  destruct a as [sa | sa | | sa ma ea], b as [sb | sb | | sb mb eb]; simpl;
    intros Ha Hb; subst; simpl; auto.
  apply binary_round_aux_nonneg.
Qed.

Lemma SFdiv_nonneg (a : spec_float) (mb : positive) (eb : Z) :
  SF_nonneg a -> SF_nonneg (SFdiv prec emax a (S754_finite false mb eb)).
Proof.
  destruct a as [sa | sa | | sa ma ea]; simpl; intros Ha; subst; simpl; auto.
  destruct (SFdiv_core_binary prec emax (Z.pos ma) ea (Z.pos mb) eb) as [[mz ez] lz].
  apply binary_round_aux_nonneg.
Qed.

Lemma leb_zero_nonneg (x : float) : (0 <=? x)%float = true -> SF_nonneg (Prim2SF x).
Proof.
  rewrite leb_spec, Prim2SF_0.
  destruct (Prim2SF x) as [s | [] | | [] m e]; simpl; auto; discriminate.
Qed.

Lemma of_Z_nonneg (n : Z) : 0 <= n < 2 ^ 53 -> SF_nonneg (Prim2SF (F.of_Z n)).
Proof.
  intros Hn. destruct (of_Z_shape n Hn) as [[_ ->] | (_ & m & e & -> & _)]; simpl; auto.
Qed.

(** An integer of [0 .. 2^53 - 1] converts to a float without error. *)
Lemma of_int_of_Z (n : Z) : 0 <= n < 2 ^ 53 -> F.of_int n = Ok (F.of_Z n).
Proof.
  intros Hn. rewrite of_int_run, is_infinity_Prim2SF.
  destruct (of_Z_shape n Hn) as [[_ ->] | (_ & m & e & -> & _)]; reflexivity.
Qed.

Lemma to_int_nonneg (x : float) (z : Z) :
  SF_nonneg (Prim2SF x) -> F.to_int x = Ok z -> 0 <= z.
Proof.
  unfold F.to_int. destruct (Prim2SF x) as [s | s | | s m e]; cbn [SF_nonneg];
    intros Hs [= <-]; [lia |].
  subst s. unfold F.trunc_finite, F.div2k_trunc.
  destruct (Z.leb_spec 0 e).
  - apply Z.mul_nonneg_nonneg; [lia | apply Z.pow_nonneg; lia].
  - apply Z.div_pos; [lia | apply Z.pow_pos_nonneg; lia].
Qed.

Lemma ltb_nonneg_zero (p : float) (s : bool) :
  SF_nonneg (Prim2SF p) -> SFltb (Prim2SF p) (S754_zero s) = false.
Proof. destruct (Prim2SF p) as [s' | [] | | [] m e]; simpl; auto; discriminate. Qed.

(** ** Timestamps *)

Lemma timestamp_product_nonneg (sample : float) (i : Z) :
  (0 <=? sample)%float = true -> 0 <= i < 2 ^ 53 ->
  SF_nonneg (Prim2SF (sample * F.of_Z i / F.of_Z 8)).
Proof.
  intros Hs Hi. rewrite div_spec, mul_spec.
  replace (Prim2SF (F.of_Z 8)) with (S754_finite false 4503599627370496 (-49))
    by (vm_compute; reflexivity).
  apply SFdiv_nonneg, SFmul_nonneg; [now apply leb_zero_nonneg | now apply of_Z_nonneg].
Qed.

(** X10.  A non-negative exponential sample never puts a submission
    before the start: the timestamp is the start plus a whole number of
    minutes that is zero or more. *)
Theorem timestamp_not_before_start {R : RandomLib}
    (start : datetime) (i : Z) (st st' : rng) (ts : string) :
  (0 <=? (np_exponential 4.5 (np st)).1)%float = true ->
  0 <= i < 2 ^ 53 ->
  generate_timestamp start i st = Ok (ts, st') ->
  exists minutes t,
    0 <= minutes /\
    Calendar.add_minutes start minutes = Ok t /\
    ts = Calendar.strftime_minutes t.
Proof.
  intros Hs Hi. rewrite generate_timestamp_run. unfold timestamp_of_sample.
  rewrite of_int_of_Z by exact Hi.
  destruct (F.to_int _) as [minutes |] eqn:Em; [| discriminate].
  destruct (Calendar.add_minutes start minutes) as [t |] eqn:Et; [| discriminate].
  intros [= <- _]. exists minutes, t. split; [| auto].
  eapply to_int_nonneg; [| exact Em]. now apply timestamp_product_nonneg.
Qed.

Lemma timestamp_not_before_start_witness :
  let st := Rng (R := Demo.constant_lib 0 1.5) (py_seed 42) (np_seed 42) in
  exists minutes t,
    0 <= minutes /\
    Calendar.add_minutes (START_DATE default_config) minutes = Ok t /\
    "2025-11-03 09:16" = Calendar.strftime_minutes t.
Proof.
  intros st.
  apply (timestamp_not_before_start (R := Demo.constant_lib 0 1.5)
           (START_DATE default_config) 20 st st "2025-11-03 09:16").
  - reflexivity.
  - split; [lia | reflexivity].
  - vm_compute. reflexivity.
Defined.

(** ** Weights that are zero *)

Lemma accumulate_from_lookup (acc : float) (ws : list float) (j : nat) (c w : float) :
  (acc :: accumulate_from acc ws) !! j = Some c -> ws !! j = Some w ->
  accumulate_from acc ws !! j = Some (c + w)%float.
Proof.
  revert acc j c. induction ws as [| w0 ws IH]; intros acc j c Hc Hw; [discriminate |].
  destruct j as [| j]; simpl in *.
  - congruence.
  - apply IH; assumption.
Qed.

Lemma accumulate_lookup_S (ws : list float) (j : nat) (c w : float) :
  accumulate ws !! j = Some c -> ws !! S j = Some w ->
  accumulate ws !! S j = Some (c + w)%float.
Proof.
  destruct ws as [| w0 ws]; [discriminate |]. simpl.
  intros Hc Hw. now apply accumulate_from_lookup.
Qed.

Lemma accumulate_lookup_0 (ws : list float) : accumulate ws !! 0%nat = ws !! 0%nat.
Proof. destruct ws; reflexivity. Qed.

Lemma Prim2SF_zero_weight (w : float) :
  is_zero_weight w -> exists s, Prim2SF w = S754_zero s.
Proof. intros [-> | ->]; eexists; vm_compute; reflexivity. Qed.

Lemma ltb_add_zero_weight (p c w : float) :
  is_zero_weight w -> (p <? c + w)%float = (p <? c)%float.
Proof.
  intros Hw. destruct (Prim2SF_zero_weight w Hw) as (s & Hs).
  rewrite !ltb_spec, add_spec, Hs. unfold SF64add.
  destruct (Prim2SF c) as [sc | sc | | sc mc ec]; try reflexivity.
  destruct sc, s; simpl; destruct (Prim2SF p) as [? | [] | | [] ? ?]; reflexivity.
Qed.

(** X11.  A candidate whose weight is zero is never returned, unless it is
    the last of the list: the returned candidate sits at an index whose
    weight is not zero, or at the last index. *)
Theorem zero_weight_not_chosen {R : RandomLib} {A : Type}
    (items : list A) (weights : list float) (st st' : rng) (x : A) :
  weighted_choice items weights st = Ok (x, st') ->
  exists i : nat,
    items !! i = Some x /\
    ((S i < length items)%nat ->
     exists w, weights !! i = Some w /\ ~ is_zero_weight w).
Proof.
  intros Hrun.
  apply weighted_choice_inv in Hrun as (Hlen & total & i & Ht & Hpos & _ & _ & Hb & Hx).
  unfold bisect in Hb. change (0 <? 0) with false in Hb. cbv iota in Hb.
  assert (Hn : 0 < len items).
  { unfold len. destruct items; [| simpl; lia].
    unfold weights_total in Ht. destruct weights; discriminate. }
  apply bisect_loop_bracket in Hb as (Hr & Hl & Hu); [| lia | lia].
  exists (Z.to_nat i). split; [apply getitem_ok_lookup; [lia | exact Hx] |].
  intros Hi.
  destruct (weights !! Z.to_nat i) as [w |] eqn:Ew.
  2:{ apply lookup_ge_None in Ew. lia. }
  exists w. split; [reflexivity |]. intros Hw.
  destruct Hu as (y & Hy & Hlt); [unfold len; lia |].
  set (p := ((py_random (py st)).1 * total)%float) in *.
  destruct (Z.to_nat i) as [| j] eqn:Ei.
  - (* the first candidate: the draw is not below zero *)
    rewrite accumulate_lookup_0, Ew in Hy. injection Hy as <-.
    destruct (Prim2SF_zero_weight w Hw) as (s & Hs).
    rewrite ltb_spec, Hs, ltb_nonneg_zero in Hlt; [discriminate |].
    unfold p. rewrite mul_spec. apply SFmul_nonneg.
    + apply leb_zero_nonneg, py_random_unit.
    + rewrite leb_spec, Prim2SF_0 in Hpos.
      destruct (Prim2SF total) as [? | [] | | [] ? ?]; simpl; auto; discriminate.
  - (* a later candidate: its running sum is the one before *)
    destruct Hl as (c & Hc & Hge); [lia |].
    replace (Z.to_nat (i - 1)) with j in Hc by lia.
    rewrite (accumulate_lookup_S _ _ _ _ Hc Ew) in Hy. injection Hy as <-.
    rewrite ltb_add_zero_weight in Hlt by exact Hw. congruence.
Qed.

Lemma zero_weight_not_chosen_witness :
  let st := Rng (R := Demo.lcg_lib) (py_seed 42) (np_seed 42) in
  holds_on_run (weighted_choice ["Paris"; "Lyon"; "Remote"] [0; 0.20; 0.25]%float st)
    (fun out => exists i : nat,
       ["Paris"; "Lyon"; "Remote"] !! i = Some out.1 /\
       ((S i < 3)%nat ->
        exists w, [0; 0.20; 0.25]%float !! i = Some w /\ ~ is_zero_weight w)).
Proof.
  intros st. apply holds_on_run_intro; [vm_compute; reflexivity |].
  intros [x st'] Hrun. exact (zero_weight_not_chosen _ _ _ _ _ Hrun).
Defined.

(** ** Identifiers of any width *)

Lemma digit_value_digit (d : Z) : 0 <= d <= 9 -> digit_value (digit d) = d.
Proof.
  intros Hd. unfold digit_value, digit.
  rewrite nat_ascii_embedding by lia. lia.
Qed.

(** The digits that [str] writes in front of [s] carry the value [i]. *)
Lemma pretty_go_value (i : Z) :
  0 <= i ->
  exists k, 0 <= k /\
    forall a s, int_of_digits_from a (pretty_N_go (Z.to_N i) s)
                = int_of_digits_from (a * 10 ^ k + i) s.
Proof.
  revert i. apply (Zlt_0_ind (fun i => exists k, 0 <= k /\
    forall a s, int_of_digits_from a (pretty_N_go (Z.to_N i) s)
                = int_of_digits_from (a * 10 ^ k + i) s)).
  intros i IH Hi. destruct (Z.eq_dec i 0) as [-> | Hne].
  - exists 0. split; [lia |]. intros a s. simpl Z.to_N. rewrite pretty_N_go_0.
    f_equal. lia.
  - destruct (IH (i / 10)) as (k & Hk & Hgo).
    { split; [apply Z.div_pos; lia | apply Z.div_lt; lia]. }
    exists (k + 1). split; [lia |]. intros a s.
    rewrite pretty_go_digit by lia. rewrite Hgo. cbn [int_of_digits_from].
    rewrite digit_value_digit by apply mod10_range. f_equal.
    rewrite Z.pow_add_r by lia. change (10 ^ 1) with 10.
    pose proof (Z.div_mod i 10 ltac:(lia)). lia.
Qed.

Lemma pretty_go_no_sign (i : Z) :
  0 <= i -> forall s, no_sign s -> no_sign (pretty_N_go (Z.to_N i) s).
Proof.
  revert i. apply (Zlt_0_ind (fun i => forall s, no_sign s ->
    no_sign (pretty_N_go (Z.to_N i) s))).
  intros i IH Hi s Hs. destruct (Z.eq_dec i 0) as [-> | Hne].
  - simpl Z.to_N. now rewrite pretty_N_go_0.
  - rewrite pretty_go_digit by lia. apply IH.
    + split; [apply Z.div_pos; lia | apply Z.div_lt; lia].
    + unfold no_sign. apply digit_not_sign, mod10_range.
Qed.

Lemma str_of_int_no_sign (i : Z) : 0 <= i -> no_sign (str_of_int i).
Proof.
  intros Hi. destruct (Z.eq_dec i 0) as [-> | Hne]; [reflexivity |].
  rewrite str_of_int_positive by lia. now apply pretty_go_no_sign.
Qed.

Lemma int_of_str (i : Z) : 0 <= i -> int_of_digits (str_of_int i) = i.
Proof.
  intros Hi. destruct (Z.eq_dec i 0) as [-> | Hne]; [reflexivity |].
  rewrite str_of_int_positive by lia. unfold int_of_digits.
  destruct (pretty_go_value i Hi) as (k & _ & Hgo). rewrite Hgo. simpl. lia.
Qed.

Lemma append_empty_r (s : string) : s +:+ "" = s.
Proof.
  induction s as [| c s IH]; [reflexivity |].
  change (String c s +:+ "") with (String c (s +:+ "")). now rewrite IH.
Qed.

Lemma zfill_no_sign (w : Z) (s : string) :
  no_sign s -> zfill w s = zeros (Z.to_nat (w - str_len s)) +:+ s.
Proof.
  intros Hs. unfold zfill. destruct s as [| c s]; unfold no_sign in Hs.
  - symmetry. apply append_empty_r.
  - rewrite Hs. reflexivity.
Qed.

Lemma int_of_digits_zeros (n : nat) (s : string) :
  int_of_digits (zeros n +:+ s) = int_of_digits s.
Proof.
  unfold int_of_digits. induction n as [| n IH]; [reflexivity |]. exact IH.
Qed.

(** [int(str(i).zfill(4))] is [i]. *)
Lemma id_number_respondent_id (i : Z) : 0 <= i -> id_number (respondent_id i) = Some i.
Proof.
  intros Hi. unfold respondent_id.
  change ("R" +:+ ?s) with (String "R" s). unfold id_number. f_equal.
  rewrite zfill_no_sign by now apply str_of_int_no_sign.
  rewrite int_of_digits_zeros. now apply int_of_str.
Qed.

Lemma range1_NoDup (n : Z) : NoDup (range1 n).
Proof.
  unfold range1. apply NoDup_fmap_2; [intros a b; lia |]. apply NoDup_seq.
Qed.

(** X12.  The number of a respondent can be read back from the
    identifier, whatever its width, so the identifiers of a dataset are
    pairwise distinct for every respondent count, also beyond 9999 where
    [zfill(4)] no longer pads. *)
Theorem respondent_ids_unique {R : RandomLib}
    (c : config) (st st' : rng) (rows : list row) :
  (forall i, 0 <= i -> id_number (respondent_id i) = Some i) /\
  (main_with c st = Ok (rows, st') -> NoDup (map RespondentID rows)).
Proof.
  split; [exact id_number_respondent_id |].
  intros Hmain. apply main_with_rows in Hmain.
  assert (Hids : map RespondentID rows
                 = (fun i => Some (VStr (respondent_id i))) <$> range1 (N_RESPONSES c)).
  { induction Hmain as [| i r idx rows' Hr _ IH]; [reflexivity |].
    simpl. f_equal; [apply Hr | exact IH]. }
  rewrite Hids. apply NoDup_fmap_2_strong; [| apply range1_NoDup].
  intros i j Hi Hj Heq.
  apply range1_spec in Hi, Hj.
  assert (H : id_number (respondent_id i) = id_number (respondent_id j)) by congruence.
  rewrite !id_number_respondent_id in H by lia. congruence.
Qed.

Lemma respondent_ids_unique_witness :
  id_number (respondent_id 12345) = Some 12345 /\
  holds_on_run (main (R := Demo.lcg_lib) Demo.lcg_start)
    (fun out => NoDup (map RespondentID out.1)).
Proof.
  split.
  - apply (respondent_ids_unique (R := Demo.lcg_lib) default_config
             Demo.lcg_start Demo.lcg_start []). lia.
  - apply holds_on_run_intro; [exact lcg_main_ok |].
    intros [rows st'] Hmain.
    exact (proj2 (respondent_ids_unique (R := Demo.lcg_lib) default_config
                    Demo.lcg_start st' rows) Hmain).
Defined.

(** ** The format of a timestamp *)

Lemma length_append (s t : string) :
  String.length (s +:+ t) = (String.length s + String.length t)%nat.
Proof.
  induction s as [| c s IH]; [reflexivity |].
  change (String c s +:+ t) with (String c (s +:+ t)). simpl. now rewrite IH.
Qed.

(** From 1000 on [str] writes the four digits of a year; below, fewer. *)
Lemma str_of_int_four_digits (y : Z) :
  1000 <= y <= 9999 -> str_of_int y = four_digits y.
Proof.
  intros Hy. unfold four_digits.
  rewrite str_of_int_positive by lia.
  rewrite pretty_go_digit by lia.
  rewrite (pretty_go_digit_at y 10) by lia. change (10 * 10) with 100.
  rewrite (pretty_go_digit_at y 100) by lia. change (100 * 10) with 1000.
  rewrite (pretty_go_digit_at y 1000) by lia. change (1000 * 10) with 10000.
  rewrite (Z.div_small y 10000) by lia. now rewrite pretty_N_go_0.
Qed.

Lemma str_of_int_short (y : Z) :
  1 <= y < 1000 -> (String.length (str_of_int y) < 4)%nat.
Proof.
  intros Hy. rewrite str_of_int_positive by lia.
  rewrite pretty_go_digit by lia.
  destruct (Z.eq_dec (y / 10) 0) as [E1 | E1].
  { rewrite E1, pretty_N_go_0. simpl. lia. }
  rewrite div_zero_iff in E1 by lia.
  rewrite (pretty_go_digit_at y 10) by lia. change (10 * 10) with 100.
  destruct (Z.eq_dec (y / 100) 0) as [E2 | E2].
  { rewrite E2, pretty_N_go_0. simpl. lia. }
  rewrite div_zero_iff in E2 by lia.
  rewrite (pretty_go_digit_at y 100) by lia. change (100 * 10) with 1000.
  rewrite (Z.div_small y 1000) by lia. rewrite pretty_N_go_0. simpl. lia.
Qed.

Lemma zfill2_two_digits (x : Z) : 0 <= x <= 99 -> zfill 2 (str_of_int x) = two_digits x.
Proof.
  intros Hx. unfold two_digits.
  destruct (Z.eq_dec x 0) as [-> | Hne]; [reflexivity |].
  rewrite str_of_int_positive by lia.
  rewrite pretty_go_digit by lia.
  destruct (Z.eq_dec (x / 10) 0) as [E1 | E1].
  { rewrite E1, pretty_N_go_0. rewrite zfill_no_sign.
    - reflexivity.
    - unfold no_sign. apply digit_not_sign, mod10_range. }
  rewrite div_zero_iff in E1 by lia.
  rewrite (pretty_go_digit_at x 10) by lia. change (10 * 10) with 100.
  rewrite (Z.div_small x 100) by lia. rewrite pretty_N_go_0.
  rewrite zfill_no_sign.
  - reflexivity.
  - unfold no_sign. apply digit_not_sign, mod10_range.
Qed.

Lemma table_months (m : Z) :
  1 <= m <= 12 ->
  m = 1 \/ m = 2 \/ m = 3 \/ m = 4 \/ m = 5 \/ m = 6 \/ m = 7 \/ m = 8 \/ m = 9 \/ m = 10 \/
  m = 11 \/ m = 12.
Proof. lia. Qed.

(** [_ord2ymd] returns a date: a year of [1..9999], a month of [1..12] and
    a day of [1..31]. *)
Lemma ord2ymd_range (n : Z) :
  1 <= n <= Calendar.MAXORDINAL ->
  let '(y, m, d) := Calendar.ord2ymd n in
  1 <= y <= 9999 /\ 1 <= m <= 12 /\ 1 <= d <= 31.
Proof.
  intros Hn. unfold Calendar.MAXORDINAL in Hn. unfold Calendar.ord2ymd.
  unfold Calendar.DI400Y, Calendar.DI100Y, Calendar.DI4Y.
  set (n0 := n - 1).
  pose proof (Z.div_mod n0 146097 ltac:(lia)) as D1.
  pose proof (Z.mod_pos_bound n0 146097 ltac:(lia)) as B1.
  set (n400 := n0 / 146097) in *. set (r1 := n0 mod 146097) in *.
  pose proof (Z.div_mod r1 36524 ltac:(lia)) as D2.
  pose proof (Z.mod_pos_bound r1 36524 ltac:(lia)) as B2.
  set (n100 := r1 / 36524) in *. set (r2 := r1 mod 36524) in *.
  pose proof (Z.div_mod r2 1461 ltac:(lia)) as D3.
  pose proof (Z.mod_pos_bound r2 1461 ltac:(lia)) as B3.
  set (n4 := r2 / 1461) in *. set (r3 := r2 mod 1461) in *.
  pose proof (Z.div_mod r3 365 ltac:(lia)) as D4.
  pose proof (Z.mod_pos_bound r3 365 ltac:(lia)) as B4.
  set (n1 := r3 / 365) in *. set (r4 := r3 mod 365) in *.
  assert (H400 : 0 <= n400 <= 24) by (subst n0; lia).
  assert (H100 : 0 <= n100 <= 4) by lia.
  assert (H4 : 0 <= n4 <= 24) by lia.
  assert (H1 : 0 <= n1 <= 4) by lia.
  cbv zeta.
  destruct (Z.eqb_spec n1 4) as [E1 | E1]; cbn [orb].
  { split; [subst n0; lia |]. lia. }
  destruct (Z.eqb_spec n100 4) as [E100 | E100].
  { split; [subst n0; lia |]. lia. }
  set (leap := (n1 =? 3) && (negb (n4 =? 24) || (n100 =? 3))).
  rewrite Z.shiftr_div_pow2 by lia. change (2 ^ 5) with 32.
  pose proof (Z.div_mod (r4 + 50) 32 ltac:(lia)) as D5.
  pose proof (Z.mod_pos_bound (r4 + 50) 32 ltac:(lia)) as B5.
  set (m := (r4 + 50) / 32) in *.
  assert (Hm : 1 <= m <= 12) by lia.
  assert (Hy : 1 <= n400 * 400 + 1 + n100 * 100 + n4 * 4 + n1 <= 9999) by (subst n0; lia).
  destruct (table_months m Hm)
    as [E | [E | [E | [E | [E | [E | [E | [E | [E | [E | [E | E]]]]]]]]]]];
    rewrite E in *; destruct leap;
    repeat match goal with
    | |- context [Calendar.table ?t ?k] =>
        let v := eval vm_compute in (Calendar.table t k) in
        change (Calendar.table t k) with v
    | |- context [Z.eqb ?a ?b] =>
        let v := eval vm_compute in (Z.eqb a b) in change (Z.eqb a b) with v
    | |- context [2 <? ?b] =>
        let v := eval vm_compute in (2 <? b) in change (2 <? b) with v
    end;
    cbn [andb]; cbv iota;
    repeat match goal with
    | |- context [?a <? ?b] => destruct (Z.ltb_spec a b)
    end;
    cbn [andb]; cbv iota; lia.
Qed.

Lemma add_minutes_fields (start t : datetime) (minutes : Z) :
  Calendar.add_minutes start minutes = Ok t ->
  1 <= year t <= 9999 /\ 1 <= month t <= 12 /\ 1 <= day t <= 31 /\
  0 <= hour t <= 23 /\ 0 <= minute t <= 59.
Proof.
  unfold Calendar.add_minutes.
  destruct (999999999 <? _); [discriminate |].
  set (total := _ + minutes * 60).
  destruct (Z.ltb_spec 0 (total / 86400)) as [Hlo |]; [| discriminate].
  destruct (Z.leb_spec (total / 86400) Calendar.MAXORDINAL) as [Hhi |]; [| discriminate].
  cbn [andb].
  pose proof (ord2ymd_range (total / 86400) ltac:(lia)) as Hd.
  destruct (Calendar.ord2ymd (total / 86400)) as [[y mo] d].
  intros [= <-]. cbn [year month day hour minute].
  pose proof (Z.mod_pos_bound total 86400 ltac:(lia)) as Hs.
  pose proof (Z.mod_pos_bound (total mod 86400) 3600 ltac:(lia)) as Hr.
  repeat split; try lia.
  - apply Z.div_pos; lia.
  - apply Z.lt_succ_r, Z.div_lt_upper_bound; lia.
  - apply Z.div_pos; lia.
  - apply Z.lt_succ_r, Z.div_lt_upper_bound; lia.
Qed.

Lemma strftime_minutes_text (t : datetime) :
  0 <= month t <= 99 -> 0 <= day t <= 99 ->
  0 <= hour t <= 99 -> 0 <= minute t <= 99 ->
  Calendar.strftime_minutes t
  = timestamp_text (year t) (month t) (day t) (hour t) (minute t).
Proof.
  intros Hmo Hd Hh Hmi. unfold Calendar.strftime_minutes, timestamp_text.
  rewrite !zfill2_two_digits by assumption. reflexivity.
Qed.

Lemma timestamp_text_length (y mo d h mi : Z) :
  String.length (timestamp_text y mo d h mi) = (String.length (str_of_int y) + 12)%nat.
Proof. unfold timestamp_text. rewrite length_append. reflexivity. Qed.

(** X13.  Every timestamp reads [Y-MM-DD HH:MM]: the year, of [1..9999],
    as [str] writes it, without padding, and a month of [1..12], a day of
    [1..31], an hour of [0..23] and a minute of [0..59] with two digits
    each, whatever the start instant, the index and the sample.  It has
    sixteen characters exactly when the year has four digits, that is from
    the year 1000 on; an earlier year makes it shorter. *)
Theorem timestamp_format {R : RandomLib}
    (start : datetime) (i : Z) (st st' : rng) (ts : string) :
  generate_timestamp start i st = Ok (ts, st') ->
  exists y mo d h mi,
    1 <= y <= 9999 /\ 1 <= mo <= 12 /\ 1 <= d <= 31 /\ 0 <= h <= 23 /\ 0 <= mi <= 59 /\
    ts = timestamp_text y mo d h mi /\
    (1000 <= y -> str_of_int y = four_digits y /\ String.length ts = 16%nat) /\
    (y < 1000 -> (String.length ts < 16)%nat).
Proof.
  rewrite generate_timestamp_run. unfold timestamp_of_sample.
  destruct (F.of_int i) as [index |]; [| discriminate].
  destruct (F.to_int _) as [minutes |]; [| discriminate].
  destruct (Calendar.add_minutes start minutes) as [t |] eqn:Et; [| discriminate].
  intros [= <- _].
  apply add_minutes_fields in Et as (Hy & Hmo & Hd & Hh & Hmi).
  rewrite strftime_minutes_text by lia.
  exists (year t), (month t), (day t), (hour t), (minute t).
  repeat (split; [assumption |]). split; [reflexivity |].
  rewrite timestamp_text_length. split.
  - intros Hbig. rewrite str_of_int_four_digits by lia. split; reflexivity.
  - intros Hsmall. pose proof (str_of_int_short (year t) ltac:(lia)). lia.
Qed.

Lemma timestamp_format_witness :
  let st := Rng (R := Demo.constant_lib 0 100000) (py_seed 42) (np_seed 42) in
  holds_on_run (generate_timestamp (START_DATE default_config) 180 st)
    (fun out =>
       exists y mo d h mi,
         1 <= y <= 9999 /\ 1 <= mo <= 12 /\ 1 <= d <= 31 /\ 0 <= h <= 23 /\
         0 <= mi <= 59 /\
         out.1 = timestamp_text y mo d h mi /\
         (1000 <= y -> str_of_int y = four_digits y /\ String.length out.1 = 16%nat) /\
         (y < 1000 -> (String.length out.1 < 16)%nat)) /\
  generate_timestamp (Datetime 5 1 1 0 0 0) 1 st = Ok ("5-02-09 01:30", st).
Proof.
  intros st. split.
  - apply holds_on_run_intro; [vm_compute; reflexivity |].
    intros [ts st'] Hrun. exact (timestamp_format _ _ _ _ _ Hrun).
  - vm_compute. reflexivity.
Defined.
